(** * MsABON: schema discovery, SQL synthesis and API-document maintenance

    A shallow embedding of [src/generator.js] (both revisions found in the
    repository: the one without trigger handling and the one that adds
    [hasEnabledTriggers] and [getIdentityColumn]) and of the connection
    supervisor and document builder of [src/server.js].

    Conventions.
    - A JavaScript string is the byte string ([string]) of its UTF-8
      encoding.  Splitting, searching, comparing and concatenating act on
      the bytes as they act on the characters.  Case conversion and the
      white space [parseInt] skips are written out on the encoded
      characters ([Js.toUpperCase], [Js.toLowerCase], [Js.skipSpaces]).
    - A JavaScript number is a double ([Js.Number]); [parseInt] rounds the
      integer it reads to the nearest double, and to [Infinity] when there
      is none.
    - A template literal is kept as the list of its pieces ([Sql.Frag]):
      fixed text written in the source ([Lit]) and interpolated values
      ([Interp]).  [Sql.render] concatenates the pieces into the string that
      reaches the driver.
    - [req.query], [req.body] and [req.params] are objects used as
      dictionaries: a finite map of their own properties ([gmap string _]).
      Reading [req.body[name]] or [req.query[name]] also finds what the
      object inherits from [Object.prototype] ([JsData.prop]).  Objects
      whose key order is observable ([components.schemas], [openApi.paths])
      are insertion ordered association lists ([JsObject]).
    - [try { ... } catch (err) { res.status(500)... }] is an error monad
      ([Exn]); the database driver is a parameter of the handlers. *)

From Stdlib Require Import String Ascii ZArith List Bool Lia.
From stdpp Require Import base strings gmap list.

Local Open Scope Z_scope.

Set Warnings "-register-all".

(** ** JavaScript primitives used by the sources *)

Module Js.

Definition lowerChar (c : ascii) : ascii :=
  let n := nat_of_ascii c in
  if ((65 <=? n) && (n <=? 90))%nat then ascii_of_nat (n + 32) else c.

Definition upperChar (c : ascii) : ascii :=
  let n := nat_of_ascii c in
  if ((97 <=? n) && (n <=? 122))%nat then ascii_of_nat (n - 32) else c.

Fixpoint mapChars (f : ascii -> ascii) (s : string) : string :=
  match s with
  | EmptyString => EmptyString
  | String c r => String (f c) (mapChars f r)
  end.

(** The letters [a]-[z] of [s] replaced by [A]-[Z], everything else kept. *)
Definition asciiUpperCase : string -> string := mapChars upperChar.

(** A byte below 128: an ASCII character. *)
Definition isAsciiChar (c : ascii) : bool := (nat_of_ascii c <? 128)%nat.

Fixpoint isAscii (s : string) : bool :=
  match s with
  | EmptyString => true
  | String c r => isAsciiChar c && isAscii r
  end.

Definition bytes (l : list Z) : string :=
  fold_right (fun n s => String (ascii_of_nat (Z.to_nat n)) s) EmptyString l.

(** [p] is a prefix of [s]. *)
Fixpoint startsWith (p s : string) : bool :=
  match p, s with
  | EmptyString, _ => true
  | String a p', String b s' => Ascii.eqb a b && startsWith p' s'
  | String _ _, EmptyString => false
  end.

(** The characters outside ASCII whose upper-case form holds an ASCII
    character (Unicode's UnicodeData and SpecialCasing tables), as UTF-8
    bytes, each with that form.  The upper-case form of any other
    character outside ASCII has no ASCII character in it. *)
Definition upperSpecial : list (string * string) :=
  [ (bytes [195; 159], "SS");                         (* U+00DF sharp s *)
    (bytes [196; 177], "I");                          (* U+0131 dotless i *)
    (bytes [197; 137], bytes [202; 188; 78]);         (* U+0149: U+02BC N *)
    (bytes [197; 191], "S");                          (* U+017F long s *)
    (bytes [199; 176], bytes [74; 204; 140]);         (* U+01F0: J U+030C *)
    (bytes [225; 186; 150], bytes [72; 204; 177]);    (* U+1E96: H U+0331 *)
    (bytes [225; 186; 151], bytes [84; 204; 136]);    (* U+1E97: T U+0308 *)
    (bytes [225; 186; 152], bytes [87; 204; 138]);    (* U+1E98: W U+030A *)
    (bytes [225; 186; 153], bytes [89; 204; 138]);    (* U+1E99: Y U+030A *)
    (bytes [225; 186; 154], bytes [65; 202; 190]);    (* U+1E9A: A U+02BE *)
    (bytes [239; 172; 128], "FF");                    (* U+FB00 ligature ff *)
    (bytes [239; 172; 129], "FI");                    (* U+FB01 *)
    (bytes [239; 172; 130], "FL");                    (* U+FB02 *)
    (bytes [239; 172; 131], "FFI");                   (* U+FB03 *)
    (bytes [239; 172; 132], "FFL");                   (* U+FB04 *)
    (bytes [239; 172; 133], "ST");                    (* U+FB05 long s t *)
    (bytes [239; 172; 134], "ST") ].                  (* U+FB06 *)

(** The same for the lower-case form: the dotted capital I and the
    Kelvin sign. *)
Definition lowerSpecial : list (string * string) :=
  [ (bytes [196; 176], bytes [105; 204; 135]);        (* U+0130: i U+0307 *)
    (bytes [226; 132; 170], "k") ].                   (* U+212A *)

(** The entry of [table] for the character [s] starts with: its image
    and the number of bytes of the character after the first. *)
Fixpoint special (table : list (string * string)) (s : string)
  : option (string * nat) :=
  match table with
  | [] => None
  | (key, image) :: rest =>
      if startsWith key s then Some (image, Nat.pred (String.length key))
      else special rest s
  end.

(** Case conversion: a character of [table] becomes its image ([skip]
    counts the bytes of it still to pass over), a byte of any other
    character goes through [f].  Characters outside ASCII that are not in
    the table are left as they are: their converted form is not ASCII
    either, and the sources only compare converted text with ASCII words. *)
Fixpoint convert (table : list (string * string)) (f : ascii -> ascii)
    (skip : nat) (s : string) : string :=
  match s with
  | EmptyString => EmptyString
  | String c r =>
      match skip with
      | S k => convert table f k r
      | O =>
          match special table s with
          | Some (image, k) => image +:+ convert table f k r
          | None => String (f c) (convert table f 0 r)
          end
      end
  end.

(** [s.toLowerCase()] and [s.toUpperCase()] *)
Definition toLowerCase : string -> string := convert lowerSpecial lowerChar 0.
Definition toUpperCase : string -> string := convert upperSpecial upperChar 0.

(** [t.includes(needle)] *)
Fixpoint includes (t needle : string) : bool :=
  String.prefix needle t ||
  match t with
  | EmptyString => false
  | String _ r => includes r needle
  end.

(** A string in a boolean position: only [''] is falsy. *)
Definition truthy (s : string) : bool := negb (String.eqb s "").

(** [o && o] for a value that is [undefined]/[null] or a string. *)
Definition truthyOpt (o : option string) : bool :=
  match o with
  | Some s => truthy s
  | None => false
  end.

(** [s.split(c)] for a one-character separator: never the empty array. *)
Fixpoint split (sep : ascii) (s : string) : list string :=
  match s with
  | EmptyString => [EmptyString]
  | String c r =>
      if Ascii.eqb c sep then EmptyString :: split sep r
      else match split sep r with
           | [] => [String c EmptyString]
           | h :: t => String c h :: t
           end
  end.

(** [xs.join(sep)] on strings. *)
Fixpoint join (sep : string) (xs : list string) : string :=
  match xs with
  | [] => ""
  | [x] => x
  | x :: rest => x +:+ sep +:+ join sep rest
  end.

(** [s.replace(/^\^/, '')]: drops a caret standing first. *)
Definition stripLeadingCaret (s : string) : string :=
  match s with
  | String c r => if Ascii.eqb c "^" then r else s
  | EmptyString => s
  end.

(** [s.replace(/\$/, '')]: the regular expression has no [g] flag and no
    anchor, so the first dollar sign of [s], wherever it stands, is
    removed and nothing else. *)
Fixpoint removeFirstDollar (s : string) : string :=
  match s with
  | EmptyString => EmptyString
  | String c r => if Ascii.eqb c "$" then r else String c (removeFirstDollar r)
  end.

(** *** Numbers *)

(** A double: [Finite m e] is [m * 2^e]. *)
Inductive Number :=
| NaN
| Infinity (negative : bool)
| NegZero
| Finite (m e : Z).

Definition Int (z : Z) : Number := Finite z 0.

(** [Number.isFinite(n)] *)
Definition isFinite (n : Number) : bool :=
  match n with
  | NaN | Infinity _ => false
  | NegZero | Finite _ _ => true
  end.

(** [n < 0], [n === 0] and [n >= 0] *)
Definition ltZero (n : Number) : bool :=
  match n with
  | Finite m _ => m <? 0
  | Infinity negative => negative
  | NaN | NegZero => false
  end.

Definition isZero (n : Number) : bool :=
  match n with
  | Finite m _ => m =? 0
  | NegZero => true
  | NaN | Infinity _ => false
  end.

Definition geZero (n : Number) : bool :=
  match n with
  | Finite m _ => 0 <=? m
  | NegZero => true
  | Infinity negative => negb negative
  | NaN => false
  end.

(** The double nearest to the integer [z >= 0], ties to the even
    mantissa; [Infinity] from [2^1024 - 2^970] on. *)
Definition nearestDouble (z : Z) : Number :=
  if z <? 2 ^ 53 then Finite z 0
  else
    let shift := Z.log2 z - 52 in
    let q := Z.shiftr z shift in
    let r := Z.land z (Z.ones shift) in
    let half := Z.shiftl 1 (shift - 1) in
    let q' := if (half <? r) || ((r =? half) && Z.odd q) then q + 1 else q in
    let v := Z.shiftl q' shift in
    if 2 ^ 1024 <=? v then Infinity false else Finite v 0.

(** [-n] *)
Definition negate (n : Number) : Number :=
  match n with
  | NaN => NaN
  | Infinity negative => Infinity (negb negative)
  | NegZero => Finite 0 0
  | Finite m e => if m =? 0 then NegZero else Finite (- m) e
  end.

Definition isDigit (c : ascii) : bool :=
  let n := nat_of_ascii c in ((48 <=? n) && (n <=? 57))%nat.

Definition digitVal (c : ascii) : Z := Z.of_nat (nat_of_ascii c) - 48.

(** The white space and line terminators of ASCII. *)
Definition isSpace (c : ascii) : bool :=
  let n := nat_of_ascii c in
  ((n =? 32) || ((9 <=? n) && (n <=? 13)))%nat.

(** The white space and line terminators outside ASCII: U+00A0, U+1680,
    U+2000 to U+200A, U+2028, U+2029, U+202F, U+205F, U+3000, U+FEFF. *)
Definition wideSpaces : list string :=
  [ bytes [194; 160]; bytes [225; 154; 128];
    bytes [226; 128; 128]; bytes [226; 128; 129]; bytes [226; 128; 130];
    bytes [226; 128; 131]; bytes [226; 128; 132]; bytes [226; 128; 133];
    bytes [226; 128; 134]; bytes [226; 128; 135]; bytes [226; 128; 136];
    bytes [226; 128; 137]; bytes [226; 128; 138];
    bytes [226; 128; 168]; bytes [226; 128; 169]; bytes [226; 128; 175];
    bytes [226; 129; 159]; bytes [227; 128; 128]; bytes [239; 187; 191] ].

(** The bytes after the first of the white-space character outside ASCII
    that [s] starts with. *)
Definition wideSpace (s : string) : option nat :=
  (fun w => Nat.pred (String.length w)) <$> List.find (fun w => startsWith w s) wideSpaces.

(** [s] without its leading white space ([skip] counts the bytes of a
    white-space character still to pass over). *)
Fixpoint skipSpaces (skip : nat) (s : string) : string :=
  match s with
  | EmptyString => EmptyString
  | String c r =>
      match skip with
      | S k => skipSpaces k r
      | O =>
          if isSpace c then skipSpaces 0 r
          else match wideSpace s with
               | Some k => skipSpaces k r
               | None => s
               end
      end
  end.

(** The longest run of decimal digits at the head of [s], as an integer;
    [None] when [s] does not start with a digit. *)
Fixpoint digits (acc : option Z) (s : string) : option Z :=
  match s with
  | String c r =>
      if isDigit c
      then digits (Some (10 * default 0 acc + digitVal c)) r
      else acc
  | EmptyString => acc
  end.

(** [parseInt(s, 10)]: leading white space, a sign, decimal digits; the
    rest of [s] is ignored.  The integer read becomes the nearest double. *)
Definition parseInt (s : string) : Number :=
  match skipSpaces 0 s with
  | String c r =>
      if Ascii.eqb c "-" then
        match digits None r with
        | Some d => negate (nearestDouble d)
        | None => NaN
        end
      else
        match digits None (if Ascii.eqb c "+" then r else String c r) with
        | Some d => nearestDouble d
        | None => NaN
        end
  | EmptyString => NaN
  end.

End Js.

(** ** Values of requests and results, and property lookup *)

Module JsData.

(** A JSON value of a request body or of a result row, or a member of
    [Object.prototype] found by a property lookup. *)
Inductive JsValue :=
| JNull
| JBool (b : bool)
| JNum (n : Js.Number)
| JStr (s : string)
| JArr (items : list JsValue)
| JObj (props : list (string * JsValue))
| JInherited (name : string).

Coercion Js.Int : Z >-> Js.Number.

(** A value of the parsed query string: text, an array for a repeated
    parameter, an object for a bracketed one. *)
Inductive QueryValue :=
| QStr (s : string)
| QArr (items : list QueryValue)
| QObj (props : list (string * QueryValue)).

Fixpoint ofQuery (v : QueryValue) : JsValue :=
  match v with
  | QStr s => JStr s
  | QArr items => JArr (map ofQuery items)
  | QObj props => JObj (map (fun p => (fst p, ofQuery (snd p))) props)
  end.

(** [String(v)] for a value of the query string: an array is its items
    joined by commas, an object is ["[object Object]"]. *)
Fixpoint queryText (v : QueryValue) : string :=
  match v with
  | QStr s => s
  | QArr items => Js.join "," (map queryText items)
  | QObj _ => "[object Object]"
  end.

(** [String(q.name)], where [None] is [undefined]. *)
Definition stringOf (v : option QueryValue) : string :=
  match v with
  | Some v => queryText v
  | None => "undefined"
  end.

(** [q.name] in a boolean position: only [undefined] and [''] are falsy. *)
Definition truthyQuery (v : option QueryValue) : bool :=
  match v with
  | Some (QStr s) => Js.truthy s
  | Some _ => true
  | None => false
  end.

(** The property names of [Object.prototype]. *)
Definition objectPrototype : list string :=
  [ "constructor"; "__defineGetter__"; "__defineSetter__"; "hasOwnProperty";
    "__lookupGetter__"; "__lookupSetter__"; "isPrototypeOf";
    "propertyIsEnumerable"; "toString"; "valueOf"; "__proto__";
    "toLocaleString" ].

Definition inherited (k : string) : bool := existsb (String.eqb k) objectPrototype.

(** [o[k]], where [None] is [undefined]: an own property, or for an
    object that [inherits] from [Object.prototype] the member of that
    name. *)
Definition prop {V} (inherits : bool) (inj : V -> JsValue) (o : gmap string V)
    (k : string) : option JsValue :=
  match o !! k with
  | Some v => Some (inj v)
  | None => if inherits && inherited k then Some (JInherited k) else None
  end.

(** [o[k] !== undefined] *)
Definition hasProp {V} (inherits : bool) (o : gmap string V) (k : string) : bool :=
  bool_decide (is_Some (o !! k)) || (inherits && inherited k).

End JsData.
(** ** Insertion-ordered objects ([components.schemas], [openApi.paths]) *)

Module JsObject.

Section Obj.
Context {V : Type}.

(** [o[k]] *)
Fixpoint get (k : string) (o : list (string * V)) : option V :=
  match o with
  | [] => None
  | (k', v) :: r => if String.eqb k' k then Some v else get k r
  end.

(** [o[k] = v]: an existing key keeps its position. *)
Fixpoint set (k : string) (v : V) (o : list (string * V)) : list (string * V) :=
  match o with
  | [] => [(k, v)]
  | (k', v') :: r =>
      if String.eqb k' k then (k, v) :: r else (k', v') :: set k v r
  end.

(** [Object.keys(o)] *)
Definition keys (o : list (string * V)) : list string := map fst o.

(** [{ ...a, ...b }] *)
Definition spread (a b : list (string * V)) : list (string * V) :=
  fold_left (fun acc kv => set (fst kv) (snd kv) acc) b a.
End Obj.

End JsObject.

(** ** SQL text as template pieces, parameter types *)

Module Sql.

(** The [mssql] parameter types the generator binds with. *)
Inductive SqlType :=
| NVarChar (len : option Z)   (* [None] is [sql.MAX] *)
| Int
| BigInt
| Bit
| Decimal (precision scale : Z)
| Float
| DateTime.

Inductive Frag :=
| Lit (s : string)      (* text written in the source *)
| Interp (s : string).  (* the value of a [${...}] hole *)

Definition SqlText := list Frag.

Definition fragText (f : Frag) : string :=
  match f with Lit s => s | Interp s => s end.

(** The string handed to [request.query]. *)
Fixpoint render (t : SqlText) : string :=
  match t with
  | [] => ""
  | f :: r => fragText f +:+ render r
  end.

(** [xs.join(sep)] where every element is itself a template. *)
Fixpoint join (sep : string) (xs : list SqlText) : SqlText :=
  match xs with
  | [] => []
  | [x] => x
  | x :: rest => x ++ Lit sep :: join sep rest
  end.

(** The keyword [kw] occurs in the fixed text of the statement. *)
Definition mentions (kw : string) (t : SqlText) : bool :=
  existsb (fun f => match f with
                    | Lit s => Js.includes s kw
                    | Interp _ => false
                    end) t.

End Sql.

Import Sql.

(** ** The generator ([src/generator.js]) *)

Module Generator.

Export JsData.

(** *** Data model *)

(** A row of [INFORMATION_SCHEMA.COLUMNS] as [getColumns] selects it. *)
Record Column := {
  COLUMN_NAME : string;
  DATA_TYPE : string;
  IS_NULLABLE : string;
  CHARACTER_MAXIMUM_LENGTH : option Z   (* [None] is SQL [NULL] *)
}.

(** The [meta] object built by [setupDynamicRoutes]; the connection pool
    it also carries is the [Driver] parameter of the handlers.  The older
    revision has no [hasTriggers] and [identity] fields and never reads
    them. *)
Record TableMeta := {
  schema : string;
  table : string;
  columns : list Column;
  pk : list string;
  isView : bool;
  hasTriggers : bool;
  identity : option string
}.

Definition Row := list (string * JsValue).

(** What the routing layer hands to a handler.  [query] holds the own
    properties of [req.query]; [queryInherits] tells whether that object
    inherits from [Object.prototype] (the query parser decides: an
    ordinary object or one without a prototype).  [params] holds the
    values of the path parameters, which the router stores as own
    properties.  [body] holds the own properties of the object
    [express.json()] parsed, an ordinary object. *)
Record Request := {
  query : gmap string QueryValue;
  queryInherits : bool;
  params : gmap string string;
  body : gmap string JsValue
}.

(** [req.query[k]] and [req.body[k]] *)
Definition queryProp (req : Request) (k : string) : option JsValue :=
  prop (queryInherits req) ofQuery (query req) k.

Definition bodyProp (b : gmap string JsValue) (k : string) : option JsValue :=
  prop true id b k.

(** One [request.input(name, type, value)] call; [None] is [undefined]. *)
Record Input := {
  name : string;
  sqlType : SqlType;
  value : option JsValue
}.

Record Query := { text : SqlText; inputs : list Input }.

Inductive Payload :=
| JsonRows (rows : list Row)       (* [res.json(recordset)] *)
| JsonRow (row : Row)              (* [res.json(row)]; [[]] is [{}] *)
| JsonUndefined                    (* [res.json(undefined)] *)
| JsonError (error : string)       (* [res.json({ error })] *)
| NoBody.                          (* [res.end()] *)

Record Response := { status : Z; payload : Payload }.

(** *** Exceptions, the driver, and the log of executed statements *)

Inductive Exn (A : Type) :=
| Ok (a : A)
| Throw (message : string).
Arguments Ok {A} a.
Arguments Throw {A} message.

(** [await request.query(text)]: the record sets of the answer, or the
    rejection.  [r.recordset] is the first record set. *)
Definition Driver := string -> list Input -> Exn (list (list Row)).

(** A handler body: it may throw, and it leaves the statements it sent. *)
Definition M (A : Type) := list Query -> Exn A * list Query.

Definition ret {A} (a : A) : M A := fun log => (Ok a, log).
Definition throw {A} (msg : string) : M A := fun log => (Throw msg, log).
Definition bind {A B} (m : M A) (k : A -> M B) : M B :=
  fun log =>
    match m log with
    | (Ok a, log') => k a log'
    | (Throw msg, log') => (Throw msg, log')
    end.

Notation "'do' x <- m ; k" := (bind m (fun x => k))
  (at level 10, x name, m at level 100, k at level 200).

Definition runQuery (driver : Driver) (t : SqlText) (ins : list Input)
  : M (list (list Row)) :=
  fun log => (driver (render t) ins, log ++ [{| text := t; inputs := ins |}]).

(** [try { body } catch (err) { res.status(500).json({ error: err.message }) }] *)
Definition tryCatch (m : M Response) : Response * list Query :=
  match m [] with
  | (Ok r, log) => (r, log)
  | (Throw msg, log) => ({| status := 500; payload := JsonError msg |}, log)
  end.

(** *** Type mapper *)

Definition mapSqlTypeToMssqlType (col : Column) : SqlType :=
  let t := Js.toLowerCase (DATA_TYPE col) in
  if Js.includes t "char" || String.eqb t "text" || String.eqb t "ntext" then
    match CHARACTER_MAXIMUM_LENGTH col with
    | Some n => if 0 <? n then NVarChar (Some n) else NVarChar None
    | None => NVarChar None
    end
  else if Js.includes t "int" then Int
  else if String.eqb t "bigint" then BigInt
  else if String.eqb t "bit" then Bit
  else if Js.includes t "decimal" || String.eqb t "numeric" then Decimal 18 4
  else if Js.includes t "float" || String.eqb t "real" then Float
  else if Js.includes t "date" || Js.includes t "time" then DateTime
  else if String.eqb t "uniqueidentifier" then NVarChar (Some 50)
  else NVarChar None.

Record OpenApiType := { type : string; format : option string }.

Definition toOpenApiType (col : Column) : OpenApiType :=
  let t := Js.toLowerCase (DATA_TYPE col) in
  if Js.includes t "int" then {| type := "integer"; format := None |}
  else if String.eqb t "bigint" then {| type := "integer"; format := Some "int64" |}
  else if String.eqb t "bit" then {| type := "boolean"; format := None |}
  else if Js.includes t "float" || String.eqb t "real"
          || Js.includes t "decimal" || String.eqb t "numeric"
       then {| type := "number"; format := None |}
  else if Js.includes t "date" || Js.includes t "time"
       then {| type := "string"; format := Some "date-time" |}
  else {| type := "string"; format := None |}.

(** [mapSqlTypeToMssqlType(tableMeta.columns.find(c => c.COLUMN_NAME === pk) || {})]:
    on [{}] the mapper reads [undefined.toLowerCase()] and throws. *)
Definition keyColumnType (m : TableMeta) (pk : string) : M SqlType :=
  match List.find (fun c => String.eqb (COLUMN_NAME c) pk) (columns m) with
  | Some col => ret (mapSqlTypeToMssqlType col)
  | None => throw "Cannot read properties of undefined (reading 'toLowerCase')"
  end.

(** *** SQL pieces *)

Definition nl : string := String (ascii_of_nat 10) "".

Definition qName (schema table : string) : SqlText :=
  [Lit "["; Interp schema; Lit "].["; Interp table; Lit "]"].

(** [`[${c}] = @${c}`], the shape of list filters and of [SET] items. *)
Definition equalsParam (c : string) : SqlText :=
  [Lit "["; Interp c; Lit "] = @"; Interp c].

(** [o[col.COLUMN_NAME] !== undefined] *)
Definition supplied {V} (inherits : bool) (o : gmap string V) (col : Column) : bool :=
  hasProp inherits o (COLUMN_NAME col).

(** The message of [request.input] for a name that the request already
    has a parameter of. *)
Definition duplicateParameter (n : string) : string :=
  "The parameter name " +:+ n
    +:+ " has already been declared. Parameter names must be unique".

(** *** LIST handler ([app.get(base, ...)]), the same in both revisions *)

(** [order=col.asc | col.desc]: the column asked for ([None] is
    [undefined]) and the direction.  [q.order] is an own property or
    [undefined], [order] being no member of [Object.prototype]. *)
Definition parseOrder (order : option QueryValue) : option string * string :=
  if truthyQuery order then
    let parts := Js.split "." (stringOf order) in
    (head parts,
     match parts !! 1%nat with
     | Some d => if Js.truthy d && String.eqb (Js.toUpperCase d) "DESC"
                 then "DESC" else "ASC"
     | None => "ASC"
     end)
  else (None, "ASC").

(** [new Set(tableMeta.columns.map(c => c.COLUMN_NAME))] and its [has]. *)
Definition columnNames (m : TableMeta) : list string :=
  map COLUMN_NAME (columns m).

Definition hasName (names : list string) (n : string) : bool :=
  existsb (String.eqb n) names.

(** [pkColName || tableMeta.columns[0].COLUMN_NAME]; reading
    [COLUMN_NAME] of a missing first column throws. *)
Definition defaultOrderColumn (m : TableMeta) : M string :=
  match head (pk m) with
  | Some k =>
      if Js.truthy k then ret k
      else match columns m with
           | c :: _ => ret (COLUMN_NAME c)
           | [] => throw "Cannot read properties of undefined (reading 'COLUMN_NAME')"
           end
  | None =>
      match columns m with
      | c :: _ => ret (COLUMN_NAME c)
      | [] => throw "Cannot read properties of undefined (reading 'COLUMN_NAME')"
      end
  end.

(** The order column and direction after the "safe default" step. *)
Definition chooseOrder (m : TableMeta) (order : option QueryValue)
  : M (string * string) :=
  let '(orderCol, orderDir) := parseOrder order in
  match orderCol with
  | Some c =>
      if Js.truthy c && hasName (columnNames m) c then ret (c, orderDir)
      else do d <- defaultOrderColumn m; ret (d, "ASC")
  | None => do d <- defaultOrderColumn m; ret (d, "ASC")
  end.

(** [Number.isFinite(parseInt(q.limit, 10)) ? parseInt(q.limit, 10) : -1];
    [parseInt] reads the text of its argument, ["undefined"] for an
    absent parameter. *)
Definition parseLimit (v : option QueryValue) : Js.Number :=
  let n := Js.parseInt (stringOf v) in
  if Js.isFinite n then n else Js.Int (-1).

(** The same for [offset] with default [0], then [if (offset < 0) offset = 0]. *)
Definition parseOffset (v : option QueryValue) : Js.Number :=
  let n := Js.parseInt (stringOf v) in
  let offset := if Js.isFinite n then n else Js.Int 0 in
  if Js.ltZero offset then Js.Int 0 else offset.

Definition filterColumns (m : TableMeta) (req : Request) : list Column :=
  List.filter (supplied (queryInherits req) (query req)) (columns m).

Definition filterInputs (req : Request) (cols : list Column) : list Input :=
  map (fun col => {| name := COLUMN_NAME col;
                     sqlType := mapSqlTypeToMssqlType col;
                     value := queryProp req (COLUMN_NAME col) |}) cols.

Definition whereSql (whereItems : list SqlText) : SqlText :=
  match whereItems with
  | [] => []
  | _ => Lit "WHERE " :: Sql.join " AND " whereItems
  end.

Definition orderSql (orderCol orderDir : string) : SqlText :=
  [Lit "ORDER BY ["; Interp orderCol; Lit "] "; Lit orderDir].

Definition selectFrom (m : TableMeta) (whereS orderS : SqlText) : SqlText :=
  Lit "SELECT * FROM " :: qName (schema m) (table m)
    ++ Lit " " :: whereS ++ Lit " " :: orderS.

(** Step 3 of the handler: the statement and the pagination inputs. *)
Definition paginate (core : SqlText) (limit offset : Js.Number)
  : SqlText * list Input :=
  if Js.ltZero limit && Js.isZero offset then (core, [])
  else if Js.ltZero limit && Js.geZero offset then
    (core ++ [Lit " OFFSET @offset ROWS"],
     [{| name := "offset"; sqlType := Int; value := Some (JNum offset) |}])
  else
    (core ++ [Lit " OFFSET @offset ROWS FETCH NEXT @limit ROWS ONLY"],
     [{| name := "offset"; sqlType := Int; value := Some (JNum offset) |};
      {| name := "limit"; sqlType := Int; value := Some (JNum limit) |}]).

(** [request.input] of the pagination inputs, after the inputs of the
    column filters: it throws on a name the request already has a
    parameter of, which an object with a column called [offset] or
    [limit] makes possible.  (The other inputs the handlers bind are named
    after the columns of one object, and those differ.) *)
Fixpoint declare (declared : list string) (ins : list Input) : M unit :=
  match ins with
  | [] => ret tt
  | i :: rest =>
      if existsb (String.eqb (name i)) declared
      then throw (duplicateParameter (name i))
      else declare (name i :: declared) rest
  end.

(** The statement the LIST handler synthesizes for a request. *)
Definition listQuery (m : TableMeta) (req : Request) : M Query :=
  let q := query req in
  let cols := filterColumns m req in
  let whereItems := map (fun col => equalsParam (COLUMN_NAME col)) cols in
  do o <- chooseOrder m (q !! "order");
  let limit := parseLimit (q !! "limit") in
  let offset := parseOffset (q !! "offset") in
  let core := selectFrom m (whereSql whereItems) (orderSql (fst o) (snd o)) in
  let '(sqlText, paging) := paginate core limit offset in
  do _ <- declare (map name (filterInputs req cols)) paging;
  ret {| text := sqlText; inputs := filterInputs req cols ++ paging |}.

Definition listHandler (driver : Driver) (m : TableMeta) (req : Request)
  : Response * list Query :=
  tryCatch (
    do q <- listQuery m req;
    do result <- runQuery driver (text q) (inputs q);
    match head result with
    | Some recordset => ret {| status := 200; payload := JsonRows recordset |}
    | None => ret {| status := 200; payload := JsonUndefined |}
    end).

(** *** Mutation handlers (revision with trigger handling) *)

Definition i10 : string := "          ".
Definition i12 : string := "            ".
Definition i14 : string := "              ".

(** A property key computed from a possibly missing value:
    [o[undefined]] reads the key ["undefined"]. *)
Definition propertyKey (k : option string) : string := default "undefined" k.

(** Inputs bound from the request body for the given columns. *)
Definition bodyInputs (b : gmap string JsValue) (cols : list Column) : list Input :=
  map (fun col => {| name := COLUMN_NAME col;
                     sqlType := mapSqlTypeToMssqlType col;
                     value := bodyProp b (COLUMN_NAME col) |}) cols.

Definition colsOf (cols : list Column) : list SqlText :=
  map (fun col => [Lit "["; Interp (COLUMN_NAME col); Lit "]"]) cols.

Definition valsOf (cols : list Column) : list SqlText :=
  map (fun col => [Lit "@"; Interp (COLUMN_NAME col)]) cols.

(** The four ways a write gets its row back. *)
Inductive Strategy :=
| Direct             (* [OUTPUT inserted.*] / [OUTPUT deleted.*] on the statement *)
| IdentityReselect   (* write, then select by [SCOPE_IDENTITY()] *)
| KeyReselect        (* write, then select by the primary key *)
| StagingTable.      (* [OUTPUT ... INTO #out], then select [#out] *)

(** The branch the CREATE handler takes, read off its [if] cascade. *)
Definition insertStrategy (m : TableMeta) (b : gmap string JsValue) : Strategy :=
  if hasTriggers m then
    if Js.truthyOpt (identity m) then IdentityReselect
    else if hasProp true b (propertyKey (head (pk m))) then KeyReselect
    else StagingTable
  else Direct.

(** The branch of the UPDATE handler. *)
Definition updateStrategy (m : TableMeta) : Strategy :=
  if hasTriggers m then KeyReselect else Direct.

(** The branch of the DELETE handler. *)
Definition deleteStrategy (m : TableMeta) : Strategy :=
  if hasTriggers m then StagingTable else Direct.

(** [outSelect] of the staging-table scripts. *)
Definition outSelect (m : TableMeta) : SqlText :=
  Sql.join ", "
    (map (fun c =>
            if match identity m with
               | Some i => String.eqb (COLUMN_NAME c) i
               | None => false
               end
            then [Lit "t.["; Interp (COLUMN_NAME c); Lit "] + 0 AS [";
                  Interp (COLUMN_NAME c); Lit "]"]
            else [Lit "t.["; Interp (COLUMN_NAME c); Lit "]"])
         (columns m)).

Definition stagingPrologue (ind : string) (m : TableMeta) : SqlText :=
  Lit (nl +:+ ind +:+ "SET NOCOUNT ON;" +:+ nl +:+ ind
       +:+ "IF OBJECT_ID('tempdb..#out') IS NOT NULL DROP TABLE #out;" +:+ nl
       +:+ ind +:+ "SELECT TOP 0 ")
    :: outSelect m
    ++ Lit " INTO #out FROM " :: qName (schema m) (table m)
    ++ [Lit (" AS t WHERE 1 = 0;" +:+ nl +:+ nl +:+ ind)].

Definition insertSql (m : TableMeta) (b : gmap string JsValue)
    (cols : list Column) : SqlText :=
  let q := qName (schema m) (table m) in
  let cs := Sql.join "," (colsOf cols) in
  let vs := Sql.join "," (valsOf cols) in
  match insertStrategy m b with
  | IdentityReselect =>
      Lit (nl +:+ i14 +:+ "SET NOCOUNT ON;" +:+ nl +:+ i14 +:+ "INSERT INTO ")
        :: q ++ Lit " (" :: cs
        ++ Lit (")" +:+ nl +:+ i14 +:+ "VALUES (") :: vs
        ++ Lit (");" +:+ nl +:+ i14
                +:+ "DECLARE @id numeric(38,0) = SCOPE_IDENTITY();" +:+ nl
                +:+ i14 +:+ "SELECT * FROM ")
        :: q ++ [Lit " WHERE ["; Interp (default "null" (identity m));
                 Lit ("] = @id;" +:+ nl +:+ i12)]
  | KeyReselect =>
      let k := propertyKey (head (pk m)) in
      Lit (nl +:+ i14 +:+ "SET NOCOUNT ON;" +:+ nl +:+ i14 +:+ "INSERT INTO ")
        :: q ++ Lit " (" :: cs
        ++ Lit (")" +:+ nl +:+ i14 +:+ "VALUES (") :: vs
        ++ Lit (");" +:+ nl +:+ i14 +:+ "SELECT * FROM ")
        :: q ++ [Lit " WHERE ["; Interp k; Lit "] = @"; Interp k;
                 Lit (";" +:+ nl +:+ i12)]
  | StagingTable =>
      stagingPrologue i14 m
        ++ Lit "INSERT INTO " :: q ++ Lit " (" :: cs
        ++ Lit (")" +:+ nl +:+ i14 +:+ "OUTPUT inserted.* INTO #out" +:+ nl
                +:+ i14 +:+ "VALUES (") :: vs
        ++ [Lit (");" +:+ nl +:+ nl +:+ i14 +:+ "SELECT * FROM #out;" +:+ nl
                 +:+ i14 +:+ "DROP TABLE #out;" +:+ nl +:+ i12)]
  | Direct =>
      Lit "INSERT INTO " :: q ++ Lit " (" :: cs
        ++ Lit ") OUTPUT inserted.* VALUES (" :: vs ++ [Lit ")"]
  end.

(** [Array.isArray(r.recordsets) && r.recordsets[r.recordsets.length - 1]
    || r.recordset] *)
Definition lastRecordset (r : list (list Row)) : option (list Row) :=
  match last r with
  | Some rs => Some rs
  | None => head r
  end.

Definition createHandler (driver : Driver) (m : TableMeta) (req : Request)
  : Response * list Query :=
  tryCatch (
    let cols := List.filter (supplied true (body req)) (columns m) in
    let sqlText := insertSql m (body req) cols in
    do r <- runQuery driver sqlText (bodyInputs (body req) cols);
    ret {| status := 201;
           payload := JsonRow match lastRecordset r with
                              | Some (row :: _) => row
                              | _ => []
                              end |}).

(** The columns that end up in [sets]: the key column is skipped, the
    others are taken when the body has them. *)
Definition updateColumns (m : TableMeta) (pk : string) (b : gmap string JsValue)
  : list Column :=
  List.filter (fun col => negb (String.eqb (COLUMN_NAME col) pk) && supplied true b col)
              (columns m).

Definition setsOf (cols : list Column) : list SqlText :=
  map (fun col => equalsParam (COLUMN_NAME col)) cols.

Definition updateSql (m : TableMeta) (pk : string) (sets : list Column) : SqlText :=
  let q := qName (schema m) (table m) in
  match updateStrategy m with
  | Direct =>
      Lit "UPDATE " :: q ++ Lit " SET " :: Sql.join ", " (setsOf sets)
        ++ Lit " OUTPUT inserted.* WHERE " :: equalsParam pk
  | _ =>
      Lit (nl +:+ i12 +:+ "SET NOCOUNT ON;" +:+ nl +:+ i12 +:+ "UPDATE ")
        :: q ++ Lit " SET " :: Sql.join ", " (setsOf sets)
        ++ Lit " WHERE " :: equalsParam pk
        ++ Lit (";" +:+ nl +:+ i12 +:+ "SELECT * FROM ") :: q
        ++ Lit " WHERE " :: equalsParam pk ++ [Lit (";" +:+ nl +:+ i10)]
  end.

Definition keyInput (pk : string) (ty : SqlType) (req : Request) : Input :=
  {| name := pk; sqlType := ty; value := JStr <$> params req !! pk |}.

(** [if (!out || out.length === 0) return res.status(404).end(); res.json(out[0])] *)
Definition rowOr404 (out : option (list Row)) : Response :=
  match out with
  | Some (row :: _) => {| status := 200; payload := JsonRow row |}
  | _ => {| status := 404; payload := NoBody |}
  end.

Definition updateHandler (driver : Driver) (m : TableMeta) (pk : string)
    (req : Request) : Response * list Query :=
  tryCatch (
    let sets := updateColumns m pk (body req) in
    do ty <- keyColumnType m pk;
    let ins := bodyInputs (body req) sets ++ [keyInput pk ty req] in
    match sets with
    | [] => ret {| status := 400;
                   payload := JsonError "No updatable fields provided" |}
    | _ =>
        do r <- runQuery driver (updateSql m pk sets) ins;
        ret (rowOr404 (lastRecordset r))
    end).

Definition deleteSql (m : TableMeta) (pk : string) : SqlText :=
  let q := qName (schema m) (table m) in
  match deleteStrategy m with
  | Direct =>
      Lit "DELETE FROM " :: q ++ Lit " OUTPUT deleted.* WHERE " :: equalsParam pk
  | _ =>
      stagingPrologue i12 m
        ++ Lit "DELETE FROM " :: q
        ++ Lit (nl +:+ i12 +:+ "OUTPUT deleted.* INTO #out" +:+ nl +:+ i12
                +:+ "WHERE ") :: equalsParam pk
        ++ [Lit (";" +:+ nl +:+ nl +:+ i12 +:+ "SELECT * FROM #out;" +:+ nl
                 +:+ i12 +:+ "DROP TABLE #out;" +:+ nl +:+ i10)]
  end.

Definition deleteHandler (driver : Driver) (m : TableMeta) (pk : string)
    (req : Request) : Response * list Query :=
  tryCatch (
    do ty <- keyColumnType m pk;
    do r <- runQuery driver (deleteSql m pk) [keyInput pk ty req];
    ret (rowOr404 (lastRecordset r))).

(** GET by key, the same in both revisions: it reads
    [result.recordset.length], which throws without a record set. *)
Definition getByPkHandler (driver : Driver) (m : TableMeta) (pk : string)
    (req : Request) : Response * list Query :=
  tryCatch (
    do ty <- keyColumnType m pk;
    let sqlText := Lit "SELECT * FROM " :: qName (schema m) (table m)
                     ++ Lit " WHERE " :: equalsParam pk in
    do result <- runQuery driver sqlText [keyInput pk ty req];
    match head result with
    | None => throw "Cannot read properties of undefined (reading 'length')"
    | Some [] => ret {| status := 404; payload := NoBody |}
    | Some (row :: _) => ret {| status := 200; payload := JsonRow row |}
    end).

(** *** Mutation handlers of the revision without trigger handling

    Its CREATE, UPDATE and DELETE always put the [OUTPUT] clause on the
    statement and read [result.recordset]. *)

Module Plain.

Definition insertSql (m : TableMeta) (cols : list Column) : SqlText :=
  Lit "INSERT INTO " :: qName (schema m) (table m)
    ++ Lit " (" :: Sql.join "," (colsOf cols)
    ++ Lit ") OUTPUT inserted.* VALUES (" :: Sql.join "," (valsOf cols)
    ++ [Lit ")"].

Definition createHandler (driver : Driver) (m : TableMeta) (req : Request)
  : Response * list Query :=
  tryCatch (
    let cols := List.filter (supplied true (body req)) (columns m) in
    do result <- runQuery driver (insertSql m cols) (bodyInputs (body req) cols);
    match head result with
    | None => throw "Cannot read properties of undefined (reading '0')"
    | Some [] => ret {| status := 201; payload := JsonUndefined |}
    | Some (row :: _) => ret {| status := 201; payload := JsonRow row |}
    end).

Definition updateSql (m : TableMeta) (pk : string) (sets : list Column) : SqlText :=
  Lit "UPDATE " :: qName (schema m) (table m)
    ++ Lit " SET " :: Sql.join ", " (setsOf sets)
    ++ Lit " OUTPUT inserted.* WHERE " :: equalsParam pk.

(** [if (result.recordset.length === 0) return res.status(404).end();
    res.json(result.recordset[0])] *)
Definition firstRowOr404 (result : list (list Row)) : M Response :=
  match head result with
  | None => throw "Cannot read properties of undefined (reading 'length')"
  | Some [] => ret {| status := 404; payload := NoBody |}
  | Some (row :: _) => ret {| status := 200; payload := JsonRow row |}
  end.

Definition updateHandler (driver : Driver) (m : TableMeta) (pk : string)
    (req : Request) : Response * list Query :=
  tryCatch (
    let sets := updateColumns m pk (body req) in
    do ty <- keyColumnType m pk;
    let ins := bodyInputs (body req) sets ++ [keyInput pk ty req] in
    match sets with
    | [] => ret {| status := 400;
                   payload := JsonError "No updatable fields provided" |}
    | _ =>
        do result <- runQuery driver (updateSql m pk sets) ins;
        firstRowOr404 result
    end).

Definition deleteSql (m : TableMeta) (pk : string) : SqlText :=
  Lit "DELETE FROM " :: qName (schema m) (table m)
    ++ Lit " OUTPUT deleted.* WHERE " :: equalsParam pk.

Definition deleteHandler (driver : Driver) (m : TableMeta) (pk : string)
    (req : Request) : Response * list Query :=
  tryCatch (
    do ty <- keyColumnType m pk;
    do result <- runQuery driver (deleteSql m pk) [keyInput pk ty req];
    firstRowOr404 result).

End Plain.

(** *** Route registration *)

Inductive Method := GET | POST | PUT | DELETE.

(** Which handler body a route runs; the key column it closes over. *)
Inductive Handler :=
| ListRows
| GetByPk (pk : string)
| Create
| Update (pk : string)
| Delete (pk : string).

(** One [app.METHOD(path, handler)] call; [meta] is the [tableMeta] the
    handler closes over. *)
Record Route := {
  method : Method;
  path : string;
  handler : Handler;
  meta : TableMeta
}.

(** [registerRoutes(app, tableMeta, endpoint)]: the routes it adds to
    [app], in order.  The registration code is the same in both
    revisions. *)
Definition registerRoutes (m : TableMeta) (endpoint : string) : list Route :=
  let base := "/" +:+ endpoint +:+ "/" +:+ table m in
  let pk := head (pk m) in
  {| method := GET; path := base; handler := ListRows; meta := m |}
  :: match pk with
     | Some k =>
         if negb (isView m) && Js.truthy k then
           [ {| method := GET; path := base +:+ "/:" +:+ k;
                handler := GetByPk k; meta := m |};
             {| method := POST; path := base; handler := Create; meta := m |};
             {| method := PUT; path := base +:+ "/:" +:+ k;
                handler := Update k; meta := m |};
             {| method := DELETE; path := base +:+ "/:" +:+ k;
                handler := Delete k; meta := m |} ]
         else []
     | None => []
     end.

(** A route is a mutation route when it inserts, updates or deletes. *)
Definition isMutation (r : Route) : bool :=
  match method r with
  | GET => false
  | _ => true
  end.

(** Running the handler of a route, in either revision. *)
Definition runRoute (driver : Driver) (r : Route) (req : Request)
  : Response * list Query :=
  match handler r with
  | ListRows => listHandler driver (meta r) req
  | GetByPk k => getByPkHandler driver (meta r) k req
  | Create => createHandler driver (meta r) req
  | Update k => updateHandler driver (meta r) k req
  | Delete k => deleteHandler driver (meta r) k req
  end.

Definition runPlainRoute (driver : Driver) (r : Route) (req : Request)
  : Response * list Query :=
  match handler r with
  | ListRows => listHandler driver (meta r) req
  | GetByPk k => getByPkHandler driver (meta r) k req
  | Create => Plain.createHandler driver (meta r) req
  | Update k => Plain.updateHandler driver (meta r) k req
  | Delete k => Plain.deleteHandler driver (meta r) k req
  end.

(** *** Discovery *)

(** A row of [INFORMATION_SCHEMA.TABLES] as [discoverObjects] selects it. *)
Record TableRow := {
  TABLE_SCHEMA : string;
  TABLE_NAME : string;
  TABLE_TYPE : string
}.

(** What the catalog answers to the five discovery statements. *)
Record Catalog := {
  tablesLike : string -> list TableRow;
  columnsOf : string -> string -> list Column;
  primaryKeyOf : string -> string -> list string;
  enabledTriggerCount : string -> string -> option Z;  (* [recordset[0]?.cnt] *)
  identityColumnOf : string -> string -> option string (* [recordset[0]?.COLUMN_NAME] *)
}.

(** The fields of a [connections] entry the generator reads. *)
Record EndpointConfig := {
  endpoint : option string;
  filter : option string
}.

(** [(res.recordset[0]?.cnt || 0) > 0] *)
Definition hasEnabledTriggers (cat : Catalog) (schema table : string) : bool :=
  0 <? default 0 (enabledTriggerCount cat schema table).

(** [res.recordset[0]?.COLUMN_NAME || null] *)
Definition getIdentityColumn (cat : Catalog) (schema table : string)
  : option string :=
  let c := identityColumnOf cat schema table in
  if Js.truthyOpt c then c else None.

(** [endpointConfig.filter || '%'], then the conversion to a [LIKE]
    pattern: [filter.replace(/^\^/, '').replace(/\$/, '') + '%']. *)
Definition sqlLike (c : EndpointConfig) : string :=
  let filter := if Js.truthyOpt (filter c) then default "" (filter c) else "%" in
  Js.removeFirstDollar (Js.stripLeadingCaret filter) +:+ "%".

(** [endpointConfig.endpoint || 'api'] *)
Definition endpointOf (c : EndpointConfig) : string :=
  if Js.truthyOpt (endpoint c) then default "" (endpoint c) else "api".

(** An entry of [components.schemas]. *)
Record Schema := {
  properties : list (string * OpenApiType);
  required : list string;
  x_msabon_isView : bool;
  x_msabon_hasPk : bool
}.

Definition schemaOf (columns : list Column) (isView : bool) (pk : list string)
  : Schema :=
  {| properties :=
       fold_left (fun props c => JsObject.set (COLUMN_NAME c) (toOpenApiType c) props)
                 columns [];
     required :=
       map COLUMN_NAME
           (List.filter (fun c => String.eqb (IS_NULLABLE c) "NO") columns);
     x_msabon_isView := isView;
     x_msabon_hasPk := match pk with [] => false | _ => true end |}.

(** The [meta] object of one discovered object.  [withTriggers] tells the
    revision: the older one stores neither [hasTriggers] nor [identity]. *)
Definition discoverMeta (withTriggers : bool) (cat : Catalog) (t : TableRow)
  : TableMeta :=
  let schema := TABLE_SCHEMA t in
  let table := TABLE_NAME t in
  let isView := String.eqb (TABLE_TYPE t) "VIEW" in
  {| schema := schema;
     table := table;
     columns := columnsOf cat schema table;
     pk := if isView then [] else primaryKeyOf cat schema table;
     isView := isView;
     hasTriggers := withTriggers && hasEnabledTriggers cat schema table;
     identity := if withTriggers then getIdentityColumn cat schema table else None |}.

(** The body of the [for (const t of objects)] loop: the routes of the
    object are added to [app], its schema to [openApiSchemas]. *)
Definition discoverObject (withTriggers : bool) (cat : Catalog)
    (c : EndpointConfig) (acc : list Route * list (string * Schema))
    (t : TableRow) : list Route * list (string * Schema) :=
  let m := discoverMeta withTriggers cat t in
  let name := propertyKey (endpoint c) +:+ "_" +:+ table m in
  (fst acc ++ registerRoutes m (endpointOf c),
   JsObject.set name (schemaOf (columns m) (isView m) (pk m)) (snd acc)).

(** [setupDynamicRoutes(app, pool, endpointConfig)]: the routes added to
    [app] and the returned [openApiSchemas]. *)
Definition setupDynamicRoutes (withTriggers : bool) (cat : Catalog)
    (c : EndpointConfig) : list Route * list (string * Schema) :=
  fold_left (discoverObject withTriggers cat c)
            (tablesLike cat (sqlLike c)) ([], []).

End Generator.
(** ** The server ([src/server.js]): document builder and connection supervisor *)

Module Server.

Import Generator.

(** An operation object of the document (the fields that vary). *)
Record Operation := {
  tags : list string;
  summary : string;
  requestBody : option string;   (* the [$ref] of the body schema *)
  responses : list string
}.

(** An entry of [openApi.paths]. *)
Record PathItem := {
  idParameter : bool;            (* the [{id}] path parameter is declared *)
  get : option Operation;
  post : option Operation;
  put : option Operation;
  delete : option Operation
}.

(** [app], [components.schemas] and [openApi.paths]: the state shared by
    the supervisors, the handlers' router and [GET /swagger.json]. *)
Record State := {
  app : list Route;
  schemas : list (string * Schema);
  paths : list (string * PathItem)
}.

(** The body of the loop of [buildPathsFromComponents] for one schema. *)
Definition addPaths (paths : list (string * PathItem)) (entry : string * Schema)
  : list (string * PathItem) :=
  let '(name, sch) := entry in
  let isView := x_msabon_isView sch in
  let hasPk := x_msabon_hasPk sch in
  let parts := Js.split "_" name in
  let endpoint := propertyKey (head parts) in
  let table := Js.join "_" (tail parts) in
  let base := "/" +:+ endpoint +:+ "/" +:+ table in
  let tag := if isView then "Views" else "Tables" in
  let ref := "#/components/schemas/" +:+ name in
  let paths :=
    JsObject.set base
      {| idParameter := false;
         get := Some {| tags := [tag]; summary := "List " +:+ table;
                        requestBody := None; responses := ["200"] |};
         post := if negb isView && hasPk
                 then Some {| tags := [tag]; summary := "Create " +:+ table;
                              requestBody := Some ref; responses := ["201"] |}
                 else None;
         put := None;
         delete := None |} paths in
  if hasPk then
    JsObject.set (base +:+ "/{id}")
      {| idParameter := true;
         get := Some {| tags := [tag]; summary := "Get " +:+ table +:+ " by id";
                        requestBody := None; responses := ["200"; "404"] |};
         post := None;
         put := if negb isView
                then Some {| tags := [tag]; summary := "Update " +:+ table;
                             requestBody := Some ref; responses := ["200"] |}
                else None;
         delete := if negb isView
                   then Some {| tags := [tag]; summary := "Delete " +:+ table;
                                requestBody := None; responses := ["200"; "404"] |}
                   else None |} paths
  else paths.

(** The paths [buildPathsFromComponents] computes from the schemas. *)
Definition pathsOf (schemas : list (string * Schema)) : list (string * PathItem) :=
  fold_left addPaths schemas [].

(** [buildPathsFromComponents()]: [openApi.paths] is replaced. *)
Definition buildPathsFromComponents (st : State) : State :=
  {| app := app st; schemas := schemas st; paths := pathsOf (schemas st) |}.

(** How one connection attempt of a target ends. *)
Inductive Attempt :=
| ConnectFails                 (* [connect()] rejects *)
| DiscoveryFails (cat : Catalog) (registered : nat)
                               (* connected; a catalog query rejects when
                                  [registered] objects have their routes *)
| Connects (cat : Catalog).    (* connected; the catalog answers discovery *)

(** The routes [setupDynamicRoutes] has added to [app] when a catalog
    query rejects after [registered] objects: [registerRoutes] ran for
    those, and the query that rejects is the one listing the objects or
    one about the next object, so at least one object is left out. *)
Definition interruptedRoutes (withTriggers : bool) (cat : Catalog)
    (c : EndpointConfig) (registered : nat) : list Route :=
  let objects := tablesLike cat (sqlLike c) in
  fst (fold_left (discoverObject withTriggers cat c)
         (firstn (Nat.min registered (Nat.pred (length objects))) objects)
         ([], [])).

(** [doAttempt]: on success the routes are registered and the schemas
    merged into [components.schemas]; on failure a timer is armed
    ([true]) that calls [connectAndSetupWithRetry] again after 30 s.  When
    it is discovery that fails, the routes registered until then stay in
    [app] and no schema is merged.  Either way the promise of the call
    resolves. *)
Definition doAttempt (withTriggers : bool) (c : EndpointConfig) (a : Attempt)
    (st : State) : State * bool :=
  match a with
  | Connects cat =>
      let '(routes, found) := setupDynamicRoutes withTriggers cat c in
      ({| app := app st ++ routes;
          schemas := JsObject.spread (schemas st) found;
          paths := paths st |}, false)
  | DiscoveryFails cat registered =>
      ({| app := app st ++ interruptedRoutes withTriggers cat c registered;
          schemas := schemas st;
          paths := paths st |}, true)
  | ConnectFails => (st, true)
  end.

(** The completions the event loop sees.  [start] attaches
    [.then(buildPathsFromComponents)] to the promise of the call it makes
    itself; the call made by the timer returns a promise nobody holds. *)
Inductive Event :=
| FirstAttempt (c : EndpointConfig) (a : Attempt)
| RetryAttempt (c : EndpointConfig) (a : Attempt).

Definition step (withTriggers : bool) (st : State) (ev : Event) : State :=
  match ev with
  | FirstAttempt c a => buildPathsFromComponents (fst (doAttempt withTriggers c a st))
  | RetryAttempt c a => fst (doAttempt withTriggers c a st)
  end.

(** The state [start] leaves before any attempt completes: no route, no
    schema, and the "initial build". *)
Definition initial : State :=
  buildPathsFromComponents {| app := []; schemas := []; paths := [] |}.

Definition run (withTriggers : bool) (evs : list Event) : State :=
  fold_left (step withTriggers) evs initial.

(** The attempts of one target, in order, as events: retries go on until
    an attempt succeeds. *)
Fixpoint retries (c : EndpointConfig) (attempts : list Attempt) : list Event :=
  match attempts with
  | [] => []
  | Connects cat :: _ => [RetryAttempt c (Connects cat)]
  | failed :: rest => RetryAttempt c failed :: retries c rest
  end.

Definition supervise (c : EndpointConfig) (attempts : list Attempt) : list Event :=
  match attempts with
  | [] => []
  | Connects cat :: _ => [FirstAttempt c (Connects cat)]
  | failed :: rest => FirstAttempt c failed :: retries c rest
  end.

(** The document is up to date when its paths are the ones the builder
    derives from the registered schemas. *)
Definition documentCurrent (st : State) : Prop :=
  paths st = pathsOf (schemas st).

End Server.

(** ** Reading a synthesized statement back *)

Module Observers.

Import Generator.

(** A string all of whose bytes are outside ASCII. *)
Fixpoint wide (s : string) : bool :=
  match s with
  | EmptyString => true
  | String c r => negb (Js.isAsciiChar c) && wide r
  end.

(** The keys of a case table are characters outside ASCII. *)
Definition wideKeys (table : list (string * string)) : bool :=
  forallb (fun e => wide (fst e) && negb (String.eqb (fst e) "")) table.

(** Some piece of fixed text of the statement satisfies [p]. *)
Definition hasLit (p : string -> bool) (t : SqlText) : bool :=
  existsb (fun f => match f with
                    | Lit l => p l
                    | Interp _ => false
                    end) t.

(** The pieces of a statement that follow its first piece of fixed text
    for which [p] holds. *)
Fixpoint afterLit (p : string -> bool) (t : SqlText) : option SqlText :=
  match t with
  | [] => None
  | Lit l :: r => if p l then Some r else afterLit p r
  | Interp _ :: r => afterLit p r
  end.

(** A piece of fixed text that brings the write of a script. *)
Definition isWrite (l : string) : bool :=
  Js.includes l "INSERT INTO " || Js.includes l "UPDATE "
  || Js.includes l "DELETE FROM ".

(** How a script gets the written row back to the caller. *)
Inductive RowSource :=
| OutputClause
    (* [OUTPUT inserted.*] or [OUTPUT deleted.*] on the write itself *)
| SelectByScopeIdentity (column : string)
    (* after the write, [@id = SCOPE_IDENTITY()] and
       [SELECT * FROM ... WHERE [column] = @id] *)
| SelectByParameter (column parameter : string)
    (* after the write, [SELECT * FROM ... WHERE [column] = @parameter] *)
| SelectStaged.
    (* [OUTPUT ... INTO #out] on the write, then [SELECT * FROM #out] *)

(** The predicate [[column] = @parameter] at the head of the pieces that
    follow [WHERE]; the parameter is [None] for the fixed [@id]. *)
Definition predicateOf (t : SqlText) : option (string * option string) :=
  match t with
  | Interp c :: Lit l :: rest
  | Lit "[" :: Interp c :: Lit l :: rest =>
      if String.eqb l "] = @" then
        match rest with
        | Interp p :: _ => Some (c, Some p)
        | _ => None
        end
      else if Js.startsWith "] = @id;" l then Some (c, None)
      else None
  | _ => None
  end.

(** Reading a script back: the part after the write either has an
    [OUTPUT] clause (into [#out], which a later [SELECT * FROM #out] must
    then read, or straight to the caller), or it is followed by a
    [SELECT * FROM] with a [WHERE] predicate on one column.  [None] when
    the script has no write or nothing that returns the row. *)
Definition rowSource (t : SqlText) : option RowSource :=
  match afterLit isWrite t with
  | None => None
  | Some w =>
      if mentions "OUTPUT" w then
        if mentions "INTO #out" w then
          if mentions "SELECT * FROM #out" w then Some SelectStaged else None
        else if mentions "OUTPUT inserted.* " w || mentions "OUTPUT deleted.* " w
             then Some OutputClause else None
      else
        match afterLit (fun l => Js.includes l "SELECT * FROM ") w with
        | None => None
        | Some s =>
            match afterLit (fun l => Js.includes l "WHERE") s with
            | None => None
            | Some p =>
                match predicateOf p with
                | Some (c, Some prm) => Some (SelectByParameter c prm)
                | Some (c, None) =>
                    if mentions "DECLARE @id numeric(38,0) = SCOPE_IDENTITY();" w
                    then Some (SelectByScopeIdentity c) else None
                | None => None
                end
            end
        end
  end.

Definition strategyOf (s : RowSource) : Strategy :=
  match s with
  | OutputClause => Direct
  | SelectByScopeIdentity _ => IdentityReselect
  | SelectByParameter _ _ => KeyReselect
  | SelectStaged => StagingTable
  end.

(** The strategy a statement implements, read back from its pieces. *)
Definition strategyOfText (t : SqlText) : option Strategy :=
  strategyOf <$> rowSource t.

(** The [ORDER BY [col] dir] clauses of a statement, in order. *)
Fixpoint orderByOf (t : SqlText) : list (string * string) :=
  match t with
  | [] => []
  | Lit l :: r =>
      if String.eqb l "ORDER BY [" then
        match r with
        | Interp c :: Lit _ :: Lit d :: _ => (c, d) :: orderByOf r
        | _ => orderByOf r
        end
      else orderByOf r
  | Interp _ :: r => orderByOf r
  end.

(** The values interpolated into one kind of clause: scanning the
    statement, a piece of fixed text that [opens] starts the clause, one
    that [closes] ends it. *)
Fixpoint identifiersIn (opens closes : string -> bool) (inside : bool)
    (t : SqlText) : list string :=
  match t with
  | [] => []
  | Lit l :: r =>
      identifiersIn opens closes
        (if opens l then true else if closes l then false else inside) r
  | Interp s :: r =>
      (if inside then [s] else []) ++ identifiersIn opens closes inside r
  end.

(** The identifiers of the [SET] clause: from [" SET "] up to the text
    that brings [WHERE]. *)
Definition setClause (t : SqlText) : list string :=
  identifiersIn (fun l => String.eqb l " SET ") (fun l => Js.includes l "WHERE")
                false t.

(** The identifiers of the [WHERE] clauses: from the text that brings
    [WHERE] up to the end of the statement ([;]). *)
Definition whereClause (t : SqlText) : list string :=
  identifiersIn (fun l => Js.includes l "WHERE") (fun l => Js.includes l ";")
                false t.

(** The identity-reselect script written out for a table, the columns
    the body supplies and the identity column: insert, read
    [SCOPE_IDENTITY()] into [@id], select the row whose identity column
    equals [@id]. *)
Definition identityReselectScript (m : TableMeta) (cols : list Column)
    (idc : string) : SqlText :=
  Lit (nl +:+ i14 +:+ "SET NOCOUNT ON;" +:+ nl +:+ i14 +:+ "INSERT INTO ")
    :: qName (schema m) (table m) ++ Lit " (" :: Sql.join "," (colsOf cols)
    ++ Lit (")" +:+ nl +:+ i14 +:+ "VALUES (") :: Sql.join "," (valsOf cols)
    ++ Lit (");" +:+ nl +:+ i14
            +:+ "DECLARE @id numeric(38,0) = SCOPE_IDENTITY();" +:+ nl
            +:+ i14 +:+ "SELECT * FROM ")
    :: qName (schema m) (table m)
    ++ [Lit " WHERE ["; Interp idc; Lit ("] = @id;" +:+ nl +:+ i12)].

(** The columns of the table the request body has a value for. *)
Definition suppliedColumns (m : TableMeta) (req : Request) : list Column :=
  List.filter (supplied true (body req)) (columns m).

(** The statement of a list request, once the order is chosen. *)
Definition listText (m : TableMeta) (req : Request) (c d : string)
  : SqlText * list Input :=
  paginate
    (selectFrom m
       (whereSql (map (fun col => equalsParam (COLUMN_NAME col)) (filterColumns m req)))
       (orderSql c d))
    (parseLimit (query req !! "limit")) (parseOffset (query req !! "offset")).




(** The same column with its type name spelled [ty]. *)
Definition withDataType (col : Column) (ty : string) : Column :=
  {| COLUMN_NAME := COLUMN_NAME col;
     DATA_TYPE := ty;
     IS_NULLABLE := IS_NULLABLE col;
     CHARACTER_MAXIMUM_LENGTH := CHARACTER_MAXIMUM_LENGTH col |}.

(** The values interpolated into a statement, in order. *)
Definition interpolated (t : SqlText) : list string :=
  flat_map (fun f => match f with Lit _ => [] | Interp s => [s] end) t.

(** The identifiers of the filter predicates of a list statement: from
    ["WHERE "] up to the text that brings [ORDER BY]. *)
Definition filterClause (t : SqlText) : list string :=
  identifiersIn (fun l => String.eqb l "WHERE ") (fun l => Js.includes l "ORDER BY")
                false t.

(** The operation the document shows for a method on a path item. *)
Definition documented (meth : Method) (item : Server.PathItem) : option Server.Operation :=
  match meth with
  | GET => Server.get item
  | POST => Server.post item
  | PUT => Server.put item
  | DELETE => Server.delete item
  end.

(** A value that comes from the catalog metadata of an object: its
    schema or table name, one of its column names, its first key column
    or its identity column. *)
Definition fromCatalog (m : TableMeta) (x : string) : Prop :=
  x = schema m \/ x = table m \/ In x (columnNames m)
  \/ head (pk m) = Some x \/ identity m = Some x.

(** The paths the document builder adds for one object of a target, from
    the schema entry discovery returns for it. *)
Definition documentOf (c : EndpointConfig) (m : TableMeta)
  : list (string * Server.PathItem) :=
  Server.addPaths []
    (propertyKey (endpoint c) +:+ "_" +:+ table m,
     schemaOf (columns m) (isView m) (pk m)).

(** The schema entry discovery returns for one object of a target. *)
Definition schemaEntry (withTriggers : bool) (cat : Catalog) (c : EndpointConfig)
    (t : TableRow) : string * Schema :=
  let m := discoverMeta withTriggers cat t in
  (propertyKey (endpoint c) +:+ "_" +:+ table m,
   schemaOf (columns m) (isView m) (pk m)).

(** A path item has a GET operation, and when that operation is tagged
    [Views] the item has no POST, PUT or DELETE. *)
Definition readableAndReadOnlyForViews (item : Server.PathItem) : Prop :=
  exists op, Server.get item = Some op
             /\ (Server.tags op = ["Views"] ->
                 Server.post item = None /\ Server.put item = None
                 /\ Server.delete item = None).

(** A pagination parameter that was asked for: it is present and its
    text reads, as [parseInt] reads it, as the finite number [n]. *)
Definition reads (v : option QueryValue) (n : Js.Number) : Prop :=
  is_Some v /\ Js.parseInt (stringOf v) = n /\ Js.isFinite n = true.

(** A decimal numeral, one digit or more, and the integer it denotes. *)
Fixpoint allDigits (s : string) : bool :=
  match s with
  | EmptyString => true
  | String c r => Js.isDigit c && allDigits r
  end.

Definition isNumeral (s : string) : bool :=
  negb (String.eqb s "") && allDigits s.

Fixpoint numeralValue (s : string) : Z :=
  match s with
  | EmptyString => 0
  | String c r => Js.digitVal c * 10 ^ Z.of_nat (String.length r) + numeralValue r
  end.


(** The request with [limit] and [offset] set to the given text. *)
Definition withPaging (req : Request) (limit offset : string) : Request :=
  {| query := <["limit" := QStr limit]> (<["offset" := QStr offset]> (query req));
     queryInherits := queryInherits req;
     params := params req;
     body := body req |}.

(** The pieces of fixed text that occur a variable number of times in a
    statement (around column names and between list items). *)
Definition glue : list string :=
  ["["; "]"; "@"; "] = @"; ","; ", "; " AND "; "t.["; "] + 0 AS ["; "].["; "WHERE "].

(** [kw] is a keyword that none of the glue pieces contains. *)
Definition keyword (kw : string) : bool :=
  forallb (fun l => negb (Js.includes l kw)) glue.

End Observers.

(** ** Sample objects used to exercise the definitions *)

Module Fixtures.

Import Generator Server.

Definition column (n ty : string) (nullable : bool) (len : option Z) : Column :=
  {| COLUMN_NAME := n; DATA_TYPE := ty;
     IS_NULLABLE := if nullable then "YES" else "NO";
     CHARACTER_MAXIMUM_LENGTH := len |}.

Definition employeeColumns : list Column :=
  [ column "Id" "int" false None;
    column "Name" "nvarchar" false (Some 100);
    column "Active" "bit" true None ].

(** [Employees {Id int identity, Name text(100), Active bit}], key [Id],
    no trigger. *)
Definition employees : TableMeta :=
  {| schema := "dbo"; table := "Employees"; columns := employeeColumns;
     pk := ["Id"]; isView := false; hasTriggers := false;
     identity := Some "Id" |}.

(** The same table with an enabled trigger. *)
Definition employeesTriggered : TableMeta :=
  {| schema := "dbo"; table := "Employees"; columns := employeeColumns;
     pk := ["Id"]; isView := false; hasTriggers := true;
     identity := Some "Id" |}.

(** A table with an enabled trigger and a key that is not an identity. *)
Definition auditLog : TableMeta :=
  {| schema := "dbo"; table := "AuditLog";
     columns := [ column "Code" "varchar" false (Some 20);
                  column "Note" "nvarchar" true (Some (-1)) ];
     pk := ["Code"]; isView := false; hasTriggers := true;
     identity := None |}.

(** A view; the metadata claims a key, a trigger and an identity. *)
Definition activeEmployees : TableMeta :=
  {| schema := "dbo"; table := "ActiveEmployees"; columns := employeeColumns;
     pk := ["Id"]; isView := true; hasTriggers := true;
     identity := Some "Id" |}.

Definition bigintColumn : Column := column "Total" "bigint" false None.

Definition noRequest : Request :=
  {| query := ∅; queryInherits := true; params := ∅; body := ∅ |}.

Definition annBody : gmap string JsValue :=
  <["Name" := JStr "Ann"]> (<["Active" := JBool true]> ∅).

(** [PUT /hr/Employees/7] with [{"Id": 9, "Name": "Bob"}], and the
    statement it is expected to send. *)
Definition bobUpdate : Request :=
  {| query := ∅; queryInherits := true; params := {["Id" := "7"]};
     body := <["Name" := JStr "Bob"]> {["Id" := JNum 9]} |}.

Definition bobUpdateQuery : Query :=
  {| text := updateSql employees "Id" [column "Name" "nvarchar" false (Some 100)];
     inputs := [ {| name := "Name"; sqlType := NVarChar (Some 100);
                    value := Some (JStr "Bob") |};
                 {| name := "Id"; sqlType := Int; value := Some (JStr "7") |} ] |}.

Definition annRow : Row :=
  [("Id", JNum 7); ("Name", JStr "Ann"); ("Active", JBool true)].

(** A driver that answers every statement with one record set holding
    [annRow], and one that answers with no record set at all. *)
Definition annDriver : Driver := fun _ _ => Ok [[annRow]].
Definition silentDriver : Driver := fun _ _ => Ok [].

(** The UPDATE route registration gives [Employees]. *)
Definition employeesPut : Route :=
  {| method := PUT; path := "/hr/Employees/:Id"; handler := Update "Id";
     meta := employees |}.

(** A list request with a filter on a column, a parameter that names no
    column, and an order. *)
Definition activeByName : gmap string QueryValue :=
  {["Active" := QStr "1"; "Role" := QStr "x] = 1; DROP TABLE T --";
    "order" := QStr "Name.desc"]}.

Definition activeByNameRequest : Request :=
  {| query := activeByName; queryInherits := true; params := ∅; body := ∅ |}.

(** The statement that request is expected to send. *)
Definition activeByNameQuery : Query :=
  {| text := fst (Observers.listText employees activeByNameRequest "Name" "DESC");
     inputs := [ {| name := "Active"; sqlType := Bit; value := Some (JStr "1") |} ] |}.

(** A driver that rejects every statement. *)
Definition failingDriver : Driver :=
  fun _ _ => Throw "Violation of PRIMARY KEY constraint".

(** A driver that accepts every statement and returns one empty record set. *)
Definition emptyDriver : Driver := fun _ _ => Ok [[]].

(** A table whose columns the catalog does not show. *)
Definition opaqueTable : TableMeta :=
  {| schema := "dbo"; table := "Hidden"; columns := []; pk := [];
     isView := false; hasTriggers := false; identity := None |}.

(** A table whose key constraint names a column of another table. *)
Definition foreignKeyed : TableMeta :=
  {| schema := "dbo"; table := "Orders"; columns := employeeColumns;
     pk := ["OrderId"]; isView := false; hasTriggers := false;
     identity := None |}.

(** A table with a column called like a member of [Object.prototype]. *)
Definition buildings : TableMeta :=
  {| schema := "dbo"; table := "Buildings";
     columns := [ column "Id" "int" false None;
                  column "Address" "nvarchar" false (Some 200);
                  column "constructor" "nvarchar" true (Some 100) ];
     pk := ["Id"]; isView := false; hasTriggers := false;
     identity := Some "Id" |}.

(** [PUT /api/Buildings/7] with the body [{}]. *)
Definition emptyPut : Request :=
  {| query := ∅; queryInherits := true; params := {["Id" := "7"]}; body := ∅ |}.

(** A table with a key of two columns; discovery lists [OrderId] first. *)
Definition orderLines : TableMeta :=
  {| schema := "dbo"; table := "OrderLines";
     columns := [ column "OrderId" "int" false None;
                  column "LineNo" "int" false None;
                  column "Qty" "int" false None ];
     pk := ["OrderId"; "LineNo"]; isView := false; hasTriggers := false;
     identity := None |}.

(** [PUT /api/OrderLines/7] with [{"LineNo": 2}]. *)
Definition renumberLines : Request :=
  {| query := ∅; queryInherits := true; params := {["OrderId" := "7"]};
     body := {["LineNo" := JNum 2]} |}.

(** A table with a column called like a pagination parameter. *)
Definition quotas : TableMeta :=
  {| schema := "dbo"; table := "Quotas";
     columns := [ column "Id" "int" false None;
                  column "limit" "int" false None ];
     pk := ["Id"]; isView := false; hasTriggers := false;
     identity := Some "Id" |}.

(** [GET /hr/Employees?limit=2&offset=1&order=Name.desc] and the
    statement it is expected to send. *)
Definition page : Request :=
  {| query := {["limit" := QStr "2"; "offset" := QStr "1";
                "order" := QStr "Name.desc"]};
     queryInherits := true; params := ∅; body := ∅ |}.

Definition pageQuery : Query :=
  {| text := fst (Observers.listText employees page "Name" "DESC");
     inputs := [ {| name := "offset"; sqlType := Int; value := Some (JNum 1) |};
                 {| name := "limit"; sqlType := Int; value := Some (JNum 2) |} ] |}.

(** [GET /hr/Employees?order=Salary.Name]: no column is called [Salary];
    the statement it is expected to send. *)
Definition unknownOrder : Request :=
  {| query := {["order" := QStr "Salary.Name"]};
     queryInherits := true; params := ∅; body := ∅ |}.


(** [GET /hr/Employees?Name=Ann&Name=Bob] *)
Definition repeatedName : Request :=
  {| query := {["Name" := QArr [QStr "Ann"; QStr "Bob"]]};
     queryInherits := true; params := ∅; body := ∅ |}.

(** A database with the [Employees] table only. *)
Definition hrCatalog : Catalog :=
  {| tablesLike := fun _ =>
       [ {| TABLE_SCHEMA := "dbo"; TABLE_NAME := "Employees";
            TABLE_TYPE := "BASE TABLE" |} ];
     columnsOf := fun _ _ => employeeColumns;
     primaryKeyOf := fun _ _ => ["Id"];
     enabledTriggerCount := fun _ _ => Some 0;
     identityColumnOf := fun _ _ => Some "Id" |}.

(** A database with a table [dbo.Employees] and a view
    [archive.Employees]. *)
Definition shadowCatalog : Catalog :=
  {| tablesLike := fun _ =>
       [ {| TABLE_SCHEMA := "dbo"; TABLE_NAME := "Employees";
            TABLE_TYPE := "BASE TABLE" |};
         {| TABLE_SCHEMA := "archive"; TABLE_NAME := "Employees";
            TABLE_TYPE := "VIEW" |} ];
     columnsOf := fun _ _ => employeeColumns;
     primaryKeyOf := fun _ _ => ["Id"];
     enabledTriggerCount := fun _ _ => Some 0;
     identityColumnOf := fun _ _ => Some "Id" |}.


(** The CREATE route discovery registers for [AuditLog]. *)
Definition auditCreate : Route :=
  {| method := POST; path := "/hr/AuditLog"; handler := Create;
     meta := auditLog |}.

Definition hr : EndpointConfig :=
  {| endpoint := Some "hr"; filter := Some "^Emp" |}.

(** The target is unreachable at start and reachable 30 s later. *)
Definition hrRecovers : list Event :=
  supervise hr [ConnectFails; Connects hrCatalog].

Definition hrAtOnce : list Event :=
  supervise hr [Connects hrCatalog].

End Fixtures.

(** * Properties *)

(** ** JavaScript primitives *)

Module JsFacts.

Import JsData Observers.

Lemma append_empty_r s : s +:+ "" = s.
Proof.
  induction s as [|c r IH]; [reflexivity|].
  change (String c (r +:+ "") = String c r). now rewrite IH.
Qed.

Lemma append_assoc (a b c : string) : (a +:+ b) +:+ c = a +:+ b +:+ c.
Proof.
  induction a as [|x a IH]; [reflexivity|].
  change (String x ((a +:+ b) +:+ c) = String x (a +:+ b +:+ c)). now f_equal.
Qed.

Lemma includes_char_cons c r x :
  Js.includes (String c r) (String x "")
  = Ascii.eqb c x || Js.includes r (String x "").
Proof.
  change (Js.includes (String c r) (String x ""))
    with ((if ascii_dec x c then String.prefix "" r else false)
          || Js.includes r (String x "")).
  destruct (ascii_dec x c) as [<-|Hne].
  - rewrite Ascii.eqb_refl. now destruct r.
  - destruct (Ascii.eqb_spec c x) as [->|_]; [now elim Hne|reflexivity].
Qed.

Lemma split_without_separator x s :
  Js.includes s (String x "") = false -> Js.split x s = [s].
Proof.
  induction s as [|c r IH]; [reflexivity|].
  rewrite includes_char_cons. intros H. apply orb_false_iff in H as [Hc Hr].
  simpl. rewrite Hc, (IH Hr). reflexivity.
Qed.

Lemma split_at_separator x a b :
  Js.includes a (String x "") = false ->
  Js.split x (a +:+ String x b) = a :: Js.split x b.
Proof.
  induction a as [|c r IH].
  - intros _. change ("" +:+ String x b) with (String x b).
    simpl. now rewrite Ascii.eqb_refl.
  - rewrite includes_char_cons. intros H. apply orb_false_iff in H as [Hc Hr].
    change (String c r +:+ String x b) with (String c (r +:+ String x b)).
    simpl. rewrite Hc, (IH Hr). reflexivity.
Qed.

Lemma split_nonempty x s : Js.split x s <> [].
Proof.
  destruct s as [|c r]; simpl; [discriminate|].
  destruct (Ascii.eqb c x); [discriminate|].
  destruct (Js.split x r); discriminate.
Qed.

(** The text before the first separator is determined by the text. *)
Lemma before_separator_unique x a b s t :
  Js.includes a (String x "") = false -> Js.includes b (String x "") = false ->
  (s = a \/ exists r, s = a +:+ String x r) ->
  (t = b \/ exists r, t = b +:+ String x r) ->
  s = t -> a = b.
Proof.
  intros Ha Hb Hs Ht E.
  assert (Hsa : exists l, Js.split x s = a :: l).
  { destruct Hs as [->|(r & ->)].
    - exists []. now apply split_without_separator.
    - eexists. now apply split_at_separator. }
  assert (Hsb : exists l, Js.split x t = b :: l).
  { destruct Ht as [->|(r & ->)].
    - exists []. now apply split_without_separator.
    - eexists. now apply split_at_separator. }
  destruct Hsa as (l & Hsa), Hsb as (l' & Hsb). congruence.
Qed.

Lemma append_inj_l a x y : a +:+ x = a +:+ y -> x = y.
Proof.
  induction a as [|c r IH]; [auto|].
  change (String c (r +:+ x) = String c (r +:+ y) -> x = y).
  intros [= H]. auto.
Qed.

Lemma truthy_ne s : s <> "" -> Js.truthy s = true.
Proof.
  intros H. unfold Js.truthy. destruct (String.eqb_spec s ""); [contradiction|reflexivity].
Qed.

(** *** Case conversion *)

(** The ASCII case functions keep a byte or move it inside ASCII. *)
Lemma upperChar_cases c :
  Js.upperChar c = c
  \/ (Js.isAsciiChar c = true /\ Js.isAsciiChar (Js.upperChar c) = true).
Proof.
  destruct c as [[] [] [] [] [] [] [] []];
    solve [left; reflexivity | right; split; reflexivity].
Qed.

Lemma lowerChar_cases c :
  Js.lowerChar c = c
  \/ (Js.isAsciiChar c = true /\ Js.isAsciiChar (Js.lowerChar c) = true).
Proof.
  destruct c as [[] [] [] [] [] [] [] []];
    solve [left; reflexivity | right; split; reflexivity].
Qed.

Lemma lowerChar_upperChar c : Js.lowerChar (Js.upperChar c) = Js.lowerChar c.
Proof. destruct c as [[] [] [] [] [] [] [] []]; reflexivity. Qed.

Lemma lowerChar_idem c : Js.lowerChar (Js.lowerChar c) = Js.lowerChar c.
Proof. destruct c as [[] [] [] [] [] [] [] []]; reflexivity. Qed.

Lemma eqb_wide_char (g : ascii -> ascii) a c :
  (g c = c \/ (Js.isAsciiChar c = true /\ Js.isAsciiChar (g c) = true)) ->
  Js.isAsciiChar a = false ->
  Ascii.eqb a (g c) = Ascii.eqb a c.
Proof.
  intros [->|[Hc Hg]] Ha; [reflexivity|].
  destruct (Ascii.eqb_spec a (g c)) as [->|_]; [congruence|].
  destruct (Ascii.eqb_spec a c) as [->|_]; [congruence|reflexivity].
Qed.

(** Whether a string starts with a character outside ASCII is not
    changed by mapping its bytes inside ASCII. *)
Lemma startsWith_mapChars (g : ascii -> ascii) key s :
  (forall c, g c = c \/ (Js.isAsciiChar c = true /\ Js.isAsciiChar (g c) = true)) ->
  wide key = true ->
  Js.startsWith key (Js.mapChars g s) = Js.startsWith key s.
Proof.
  intros Hg. revert s. induction key as [|a key IH]; intros s Hw; [reflexivity|].
  simpl in Hw. apply andb_true_iff in Hw as [Ha Hw]. apply negb_true_iff in Ha.
  destruct s as [|c r]; [reflexivity|]. simpl.
  rewrite (eqb_wide_char g a c (Hg c) Ha), IH by exact Hw. reflexivity.
Qed.

Lemma special_mapChars (g : ascii -> ascii) table s :
  (forall c, g c = c \/ (Js.isAsciiChar c = true /\ Js.isAsciiChar (g c) = true)) ->
  wideKeys table = true ->
  Js.special table (Js.mapChars g s) = Js.special table s.
Proof.
  intros Hg. induction table as [|[key image] rest IH]; intros Hw; [reflexivity|].
  simpl in Hw. apply andb_true_iff in Hw as [Hk Hw].
  apply andb_true_iff in Hk as [Hk _].
  simpl. rewrite (startsWith_mapChars g key s Hg Hk), IH by exact Hw. reflexivity.
Qed.

(** Converting after a change of ASCII case that the conversion undoes. *)
Lemma convert_mapChars table (f g : ascii -> ascii) k s :
  (forall c, g c = c \/ (Js.isAsciiChar c = true /\ Js.isAsciiChar (g c) = true)) ->
  (forall c, f (g c) = f c) ->
  wideKeys table = true ->
  Js.convert table f k (Js.mapChars g s) = Js.convert table f k s.
Proof.
  intros Hg Hfg Hw. revert k. induction s as [|c r IH]; intros k; [reflexivity|].
  change (Js.mapChars g (String c r)) with (String (g c) (Js.mapChars g r)).
  destruct k as [|k]; [|simpl; apply IH].
  cbn [Js.convert].
  change (String (g c) (Js.mapChars g r)) with (Js.mapChars g (String c r)).
  rewrite (special_mapChars g table (String c r) Hg Hw).
  destruct (Js.special table (String c r)) as [[image j]|]; rewrite IH;
    [reflexivity|now rewrite Hfg].
Qed.

(** [toLowerCase] does not see the ASCII case of its argument. *)
Lemma toLowerCase_asciiUpperCase s :
  Js.toLowerCase (Js.asciiUpperCase s) = Js.toLowerCase s.
Proof.
  apply convert_mapChars;
    [exact upperChar_cases | exact lowerChar_upperChar | vm_compute; reflexivity].
Qed.

(** A character of ASCII is not in the tables. *)
Lemma startsWith_wide_ascii key c r :
  wide key = true -> key <> "" -> Js.isAsciiChar c = true ->
  Js.startsWith key (String c r) = false.
Proof.
  destruct key as [|a key]; [contradiction|]. simpl. intros Hw _ Hc.
  apply andb_true_iff in Hw as [Ha _]. apply negb_true_iff in Ha.
  destruct (Ascii.eqb_spec a c) as [->|_]; [congruence|reflexivity].
Qed.

Lemma special_ascii table c r :
  wideKeys table = true -> Js.isAsciiChar c = true ->
  Js.special table (String c r) = None.
Proof.
  intros Hw Hc. induction table as [|[key image] rest IH]; [reflexivity|].
  simpl in Hw. apply andb_true_iff in Hw as [Hk Hw].
  apply andb_true_iff in Hk as [Hk Hne]. apply negb_true_iff in Hne.
  apply String.eqb_neq in Hne. simpl in Hk, Hne. cbn [Js.special].
  rewrite (startsWith_wide_ascii key c r Hk Hne Hc). now apply IH.
Qed.

(** On text of ASCII the conversions are the letter-by-letter ones. *)
Lemma convert_ascii table f s :
  wideKeys table = true -> Js.isAscii s = true ->
  Js.convert table f 0 s = Js.mapChars f s.
Proof.
  intros Hw. induction s as [|c r IH]; [reflexivity|]. simpl Js.isAscii.
  intros H. apply andb_true_iff in H as [Hc Hr].
  cbn [Js.convert]. rewrite (special_ascii table c r Hw Hc).
  simpl. now rewrite IH.
Qed.

Lemma toUpperCase_ascii s :
  Js.isAscii s = true -> Js.toUpperCase s = Js.asciiUpperCase s.
Proof. apply convert_ascii. vm_compute. reflexivity. Qed.

(** The first bytes of converted text, when they are those of a
    character of the table, were there before the conversion. *)
Lemma startsWith_toLowerCase key s :
  wide key = true ->
  Js.startsWith key (Js.convert Js.lowerSpecial Js.lowerChar 0 s) = true ->
  Js.startsWith key s = true.
Proof.
  revert s. induction key as [|a key IH]; intros s Hw; [reflexivity|].
  simpl in Hw. apply andb_true_iff in Hw as [Ha Hw]. apply negb_true_iff in Ha.
  destruct s as [|c r]; [discriminate|]. cbn [Js.convert].
  destruct (Js.special Js.lowerSpecial (String c r)) as [[image j]|] eqn:Hs.
  - unfold Js.lowerSpecial in Hs. cbn [Js.special] in Hs.
    destruct (Js.startsWith _ (String c r)) in Hs.
    + injection Hs as <- <-. simpl. intros H.
      apply andb_true_iff in H as [H _].
      apply Ascii.eqb_eq in H. subst a. vm_compute in Ha. discriminate.
    + destruct (Js.startsWith _ (String c r)) in Hs; [|discriminate].
      injection Hs as <- <-. simpl. intros H.
      apply andb_true_iff in H as [H _].
      apply Ascii.eqb_eq in H. subst a. vm_compute in Ha. discriminate.
  - simpl. intros H. apply andb_true_iff in H as [Hac Hrest].
    assert (Hc : Js.lowerChar c = c).
    { destruct (lowerChar_cases c) as [E|[_ Hl]]; [exact E|].
      apply Ascii.eqb_eq in Hac. subst a. congruence. }
    rewrite Hc in Hac. rewrite Hac. simpl. now apply IH.
Qed.

Lemma special_toLowerCase_none s :
  Js.special Js.lowerSpecial s = None ->
  Js.special Js.lowerSpecial (Js.convert Js.lowerSpecial Js.lowerChar 0 s) = None.
Proof.
  unfold Js.lowerSpecial. cbn [Js.special].
  destruct (Js.startsWith (Js.bytes [196; 176]) s) eqn:H1; [discriminate|].
  destruct (Js.startsWith (Js.bytes [226; 132; 170]) s) eqn:H2; [discriminate|]. intros _.
  destruct (Js.startsWith (Js.bytes [196; 176]) (Js.convert _ _ 0 s)) eqn:H3.
  - apply startsWith_toLowerCase in H3; [congruence|reflexivity].
  - destruct (Js.startsWith (Js.bytes [226; 132; 170]) (Js.convert _ _ 0 s)) eqn:H4; [|reflexivity].
    apply startsWith_toLowerCase in H4; [congruence|reflexivity].
Qed.

(** A byte that starts no character of the table goes through the
    letter function. *)
Lemma special_lower_other x t :
  Ascii.eqb "196" x = false -> Ascii.eqb "226" x = false ->
  Js.special Js.lowerSpecial (String x t) = None.
Proof.
  intros H1 H2.
  change (Js.special Js.lowerSpecial (String x t))
    with (if Ascii.eqb "196" x && Js.startsWith (String "176" "") t
          then Some (Js.bytes [105; 204; 135], 1%nat)
          else if Ascii.eqb "226" x && Js.startsWith (String "132" (String "170" "")) t
               then Some ("k", 2%nat) else None).
  now rewrite H1, H2.
Qed.

Lemma special_lower_image s image j :
  Js.special Js.lowerSpecial s = Some (image, j) ->
  (image = String "i" (String "204" (String "135" "")) /\ j = 1%nat)
  \/ (image = "k" /\ j = 2%nat).
Proof.
  unfold Js.lowerSpecial. cbn [Js.special].
  destruct (Js.startsWith _ s); [intros [= <- <-]; left; split; reflexivity|].
  destruct (Js.startsWith _ s); [intros [= <- <-]; right; split; reflexivity|].
  discriminate.
Qed.

Lemma convert_lower_idem k s :
  Js.convert Js.lowerSpecial Js.lowerChar 0 (Js.convert Js.lowerSpecial Js.lowerChar k s)
  = Js.convert Js.lowerSpecial Js.lowerChar k s.
Proof.
  revert k. induction s as [|c r IH]; intros k; [now destruct k|].
  destruct k as [|k]; [|simpl; apply IH].
  cbn [Js.convert].
  destruct (Js.special Js.lowerSpecial (String c r)) as [[image j]|] eqn:Hs.
  - apply special_lower_image in Hs as [[-> ->]|[-> ->]].
    + change (String "i" (String "204" (String "135" ""))
                +:+ Js.convert Js.lowerSpecial Js.lowerChar 1 r)
        with (String "i" (String "204" (String "135"
                (Js.convert Js.lowerSpecial Js.lowerChar 1 r)))).
      cbn [Js.convert].
      rewrite !special_lower_other by reflexivity. now rewrite IH.
    + change ("k" +:+ Js.convert Js.lowerSpecial Js.lowerChar 2 r)
        with (String "k" (Js.convert Js.lowerSpecial Js.lowerChar 2 r)).
      cbn [Js.convert].
      rewrite special_lower_other by reflexivity. now rewrite IH.
  - pose proof (special_toLowerCase_none (String c r) Hs) as Hn.
    cbn [Js.convert] in Hn. rewrite Hs in Hn.
    cbn [Js.convert]. rewrite Hn, lowerChar_idem, IH. reflexivity.
Qed.

Lemma toLowerCase_idem s : Js.toLowerCase (Js.toLowerCase s) = Js.toLowerCase s.
Proof. apply convert_lower_idem. Qed.

(** *** Property lookup *)

Lemma hasProp_prop {V} inherits (inj : V -> JsValue) (o : gmap string V) k :
  hasProp inherits o k = bool_decide (is_Some (prop inherits inj o k)).
Proof.
  unfold hasProp, prop. destruct (o !! k) as [v|].
  - rewrite !bool_decide_eq_true_2 by eauto. reflexivity.
  - rewrite bool_decide_eq_false_2 by (intros [x Hx]; discriminate).
    destruct (inherits && inherited k); reflexivity.
Qed.

Lemma hasProp_is_Some {V} inherits (inj : V -> JsValue) (o : gmap string V) k :
  hasProp inherits o k = true <-> is_Some (prop inherits inj o k).
Proof. rewrite (hasProp_prop inherits inj). apply bool_decide_eq_true. Qed.

(** A name that is no member of [Object.prototype], or an object
    without a prototype: only own properties are found. *)
Lemma prop_own {V} inherits (inj : V -> JsValue) (o : gmap string V) k :
  inherits && inherited k = false -> prop inherits inj o k = inj <$> o !! k.
Proof. unfold prop. intros ->. now destruct (o !! k). Qed.

Lemma hasProp_own {V} inherits (o : gmap string V) k :
  inherits && inherited k = false ->
  hasProp inherits o k = bool_decide (is_Some (o !! k)).
Proof. unfold hasProp. intros ->. apply orb_false_r. Qed.

End JsFacts.
(** ** Type mapper *)

Module TypeMapperFacts.

Import Generator.

Lemma includes_bigint_int : Js.includes "bigint" "int" = true.
Proof. reflexivity. Qed.

(** The [bigint] test of the binding mapper stands after the [int] test
    that every string equal to [bigint] already passes. *)
Lemma mapSqlTypeToMssqlType_never_BigInt (col : Column) :
  mapSqlTypeToMssqlType col <> BigInt.
Proof.
  unfold mapSqlTypeToMssqlType.
  set (t := Js.toLowerCase (DATA_TYPE col)).
  destruct (Js.includes t "char" || String.eqb t "text" || String.eqb t "ntext").
  - destruct (CHARACTER_MAXIMUM_LENGTH col) as [n|]; [destruct (0 <? n)|]; discriminate.
  - destruct (Js.includes t "int") eqn:Hint; [discriminate|].
    destruct (String.eqb t "bigint") eqn:Hbig.
    + apply String.eqb_eq in Hbig. rewrite Hbig in Hint. discriminate.
    + repeat match goal with
             | |- context [if ?b then _ else _] => destruct b
             end; discriminate.
Qed.

Lemma toOpenApiType_never_int64 (col : Column) :
  format (toOpenApiType col) <> Some "int64".
Proof.
  unfold toOpenApiType.
  set (t := Js.toLowerCase (DATA_TYPE col)).
  destruct (Js.includes t "int") eqn:Hint; [discriminate|].
  destruct (String.eqb t "bigint") eqn:Hbig.
  - apply String.eqb_eq in Hbig. rewrite Hbig in Hint. discriminate.
  - repeat match goal with
           | |- context [if ?b then _ else _] => destruct b
           end; discriminate.
Qed.

(** C4 (as the code behaves): a column whose base type is [bigint], in
    any letter case, is bound as the 32-bit [Int] type and documented as
    [integer] without a format: the [int] substring rule matches first,
    so the 64-bit rule is never reached. *)
Theorem bigint_bound_as_int32 (col : Column) :
  Js.toLowerCase (DATA_TYPE col) = "bigint" ->
  mapSqlTypeToMssqlType col = Int /\
  toOpenApiType col = {| type := "integer"; format := None |}.
Proof.
  intros Ht. unfold mapSqlTypeToMssqlType, toOpenApiType.
  rewrite Ht. split; reflexivity.
Qed.

Lemma bigint_bound_as_int32_witness :
  Js.toLowerCase (DATA_TYPE Fixtures.bigintColumn) = "bigint" /\
  mapSqlTypeToMssqlType Fixtures.bigintColumn = Int /\
  toOpenApiType Fixtures.bigintColumn = {| type := "integer"; format := None |}.
Proof.
  split; [reflexivity | apply bigint_bound_as_int32; reflexivity].
Defined.

End TypeMapperFacts.
(** ** Type mapper: binding and document type together *)

Module MapperExtras.

Import Generator Observers.

(** X1: the mapping looks at the type name through [toLowerCase] only:
    spelling the letters [a]-[z] of the type name of a column in upper
    case, or the whole name in lower case, changes neither its binding
    type nor its document type; and for a type name of ASCII characters,
    as the catalog has them, neither does [toUpperCase]. *)
Theorem type_mapping_ignores_case (col : Column) :
  mapSqlTypeToMssqlType (withDataType col (Js.asciiUpperCase (DATA_TYPE col)))
    = mapSqlTypeToMssqlType col
  /\ mapSqlTypeToMssqlType (withDataType col (Js.toLowerCase (DATA_TYPE col)))
    = mapSqlTypeToMssqlType col
  /\ toOpenApiType (withDataType col (Js.asciiUpperCase (DATA_TYPE col)))
    = toOpenApiType col
  /\ toOpenApiType (withDataType col (Js.toLowerCase (DATA_TYPE col)))
    = toOpenApiType col
  /\ (Js.isAscii (DATA_TYPE col) = true ->
      mapSqlTypeToMssqlType (withDataType col (Js.toUpperCase (DATA_TYPE col)))
        = mapSqlTypeToMssqlType col
      /\ toOpenApiType (withDataType col (Js.toUpperCase (DATA_TYPE col)))
        = toOpenApiType col).
Proof.
  unfold mapSqlTypeToMssqlType, toOpenApiType, withDataType. simpl.
  rewrite JsFacts.toLowerCase_asciiUpperCase, JsFacts.toLowerCase_idem.
  repeat split; rewrite (JsFacts.toUpperCase_ascii _ H),
    JsFacts.toLowerCase_asciiUpperCase; reflexivity.
Qed.

(** Outside ASCII the upper-case form can be another type name: the
    ligature U+FB02 followed by [oat] is no type the mappers know, its
    upper-case form [FLOAT] is. *)
Example upper_case_of_ligature :
  (let ty := Js.bytes [239; 172; 130] +:+ "oat" in
   let col := Fixtures.column "X" ty true None in
   (Js.toUpperCase ty, mapSqlTypeToMssqlType col,
    mapSqlTypeToMssqlType (withDataType col (Js.toUpperCase ty))))
  = ("FLOAT", NVarChar None, Float).
Proof. vm_compute. reflexivity. Qed.

Ltac case_type_test :=
  match goal with
  | |- context [Js.includes ?t ?k] => destruct (Js.includes t k) eqn:?
  | |- context [String.eqb ?t ?k] => destruct (String.eqb t k) eqn:?
  end.

(** X2: the two mappers agree on every column that is not bound as
    text: a column bound as [Int] is documented as [integer], one bound
    as [Bit] as [boolean], one bound as [Decimal] or [Float] as
    [number], and one bound as [DateTime] as a [date-time] string. *)
Theorem binding_and_document_type_agree (col : Column) :
  match mapSqlTypeToMssqlType col with
  | Int | BigInt => type (toOpenApiType col) = "integer"
  | Bit => toOpenApiType col = {| type := "boolean"; format := None |}
  | Decimal _ _ | Float => toOpenApiType col = {| type := "number"; format := None |}
  | DateTime => toOpenApiType col = {| type := "string"; format := Some "date-time" |}
  | NVarChar _ => True
  end.
Proof.
  unfold mapSqlTypeToMssqlType, toOpenApiType.
  set (t := Js.toLowerCase (DATA_TYPE col)).
  destruct (Js.includes t "char" || String.eqb t "text" || String.eqb t "ntext").
  - destruct (CHARACTER_MAXIMUM_LENGTH col) as [n|]; [destruct (0 <? n)|]; exact I.
  - repeat (case_type_test; cbn [orb]); try reflexivity; exact I.
Qed.

End MapperExtras.

(** ** Facts about template pieces *)

Module SqlFacts.

Import Generator Observers.

Lemma mentions_app kw (a b : SqlText) :
  mentions kw (a ++ b) = mentions kw a || mentions kw b.
Proof. unfold mentions. apply existsb_app. Qed.

Lemma mentions_nil kw : mentions kw [] = false.
Proof. reflexivity. Qed.

Lemma mentions_interp kw s (t : SqlText) :
  mentions kw (Interp s :: t) = mentions kw t.
Proof. reflexivity. Qed.

Lemma mentions_lit kw s (t : SqlText) :
  mentions kw (Lit s :: t) = Js.includes s kw || mentions kw t.
Proof. reflexivity. Qed.

Lemma keyword_glue kw l : keyword kw = true -> In l glue -> Js.includes l kw = false.
Proof.
  unfold keyword. rewrite forallb_forall. intros H Hin.
  apply H in Hin. now apply negb_true_iff in Hin.
Qed.

Lemma mentions_join kw sep (xs : list SqlText) :
  Js.includes sep kw = false ->
  List.Forall (fun x => mentions kw x = false) xs ->
  mentions kw (Sql.join sep xs) = false.
Proof.
  intros Hsep Hxs. induction Hxs as [|x rest Hx Hrest IH]; [reflexivity|].
  destruct rest as [|y rest']; [exact Hx|].
  change (Sql.join sep (x :: y :: rest')) with (x ++ Lit sep :: Sql.join sep (y :: rest')).
  rewrite mentions_app, mentions_lit, Hx, Hsep, IH. reflexivity.
Qed.

(** Splitting [mentions] over a statement until only single pieces and
    the variable parts are left. *)
Ltac split_mentions :=
  repeat (rewrite mentions_app || rewrite mentions_lit
          || rewrite mentions_interp || rewrite mentions_nil).

Section Keyword.
Variable kw : string.
Hypothesis Hkw : keyword kw = true.

Lemma mentions_qName s t : mentions kw (qName s t) = false.
Proof.
  unfold qName. split_mentions.
  rewrite (keyword_glue kw "[" Hkw), (keyword_glue kw "].[" Hkw),
    (keyword_glue kw "]" Hkw); unfold glue; simpl; tauto.
Qed.

Lemma mentions_equalsParam c : mentions kw (equalsParam c) = false.
Proof.
  unfold equalsParam. split_mentions.
  rewrite (keyword_glue kw "[" Hkw), (keyword_glue kw "] = @" Hkw);
    unfold glue; simpl; tauto.
Qed.

Lemma mentions_items (f : Column -> SqlText) sep cols :
  In sep glue ->
  (forall c, mentions kw (f c) = false) ->
  mentions kw (Sql.join sep (map f cols)) = false.
Proof.
  intros Hsep Hf. apply mentions_join.
  - now apply keyword_glue.
  - apply List.Forall_forall. intros x Hin.
    apply List.in_map_iff in Hin as (c & <- & _). apply Hf.
Qed.

Lemma mentions_cols cols : mentions kw (Sql.join "," (colsOf cols)) = false.
Proof.
  apply mentions_items; [unfold glue; simpl; tauto|].
  intros c. split_mentions.
  rewrite (keyword_glue kw "[" Hkw), (keyword_glue kw "]" Hkw);
    unfold glue; simpl; tauto.
Qed.

Lemma mentions_vals cols : mentions kw (Sql.join "," (valsOf cols)) = false.
Proof.
  apply mentions_items; [unfold glue; simpl; tauto|].
  intros c. split_mentions.
  rewrite (keyword_glue kw "@" Hkw); unfold glue; simpl; tauto.
Qed.

Lemma mentions_sets cols : mentions kw (Sql.join ", " (setsOf cols)) = false.
Proof.
  apply mentions_items; [unfold glue; simpl; tauto|].
  intros c. apply mentions_equalsParam.
Qed.

Lemma mentions_outSelect m : mentions kw (outSelect m) = false.
Proof.
  apply mentions_items; [unfold glue; simpl; tauto|].
  intros c.
  destruct (match identity m with
            | Some i => String.eqb (COLUMN_NAME c) i
            | None => false
            end); split_mentions.
  - rewrite (keyword_glue kw "t.[" Hkw), (keyword_glue kw "] + 0 AS [" Hkw),
      (keyword_glue kw "]" Hkw); unfold glue; simpl; tauto.
  - rewrite (keyword_glue kw "t.[" Hkw), (keyword_glue kw "]" Hkw);
      unfold glue; simpl; tauto.
Qed.

Lemma mentions_whereSql cols :
  mentions kw (whereSql (map (fun col => equalsParam (COLUMN_NAME col)) cols)) = false.
Proof.
  unfold whereSql.
  destruct (map _ cols) eqn:E; [reflexivity|]. rewrite <- E.
  rewrite mentions_lit.
  rewrite (keyword_glue kw "WHERE " Hkw) by (unfold glue; simpl; tauto).
  apply (mentions_items (fun col => equalsParam (COLUMN_NAME col)) " AND ");
    [unfold glue; simpl; tauto|].
  intros c. apply mentions_equalsParam.
Qed.
End Keyword.

(** *** Scanning a statement for a piece of fixed text *)

Lemma hasLit_app p (a b : SqlText) : hasLit p (a ++ b) = hasLit p a || hasLit p b.
Proof. unfold hasLit. apply existsb_app. Qed.

Lemma afterLit_app p (a b : SqlText) :
  hasLit p a = false -> afterLit p (a ++ b) = afterLit p b.
Proof.
  induction a as [|[l|s] a IH]; [reflexivity| |]; simpl; intros H.
  - apply orb_false_iff in H as [Hl Ha]. rewrite Hl. now apply IH.
  - now apply IH.
Qed.

Lemma afterLit_found p l (r : SqlText) :
  p l = true -> afterLit p (Lit l :: r) = Some r.
Proof. simpl. now intros ->. Qed.

Lemma afterLit_passed p l (r : SqlText) :
  p l = false -> afterLit p (Lit l :: r) = afterLit p r.
Proof. simpl. now intros ->. Qed.

Lemma hasLit_qName p s t :
  p "[" || p "].[" || p "]" = false -> hasLit p (qName s t) = false.
Proof.
  intros H. apply orb_false_iff in H as [H H3]. apply orb_false_iff in H as [H1 H2].
  unfold qName, hasLit. simpl. now rewrite H1, H2, H3.
Qed.

Lemma hasLit_equalsParam p c :
  p "[" || p "] = @" = false -> hasLit p (equalsParam c) = false.
Proof.
  intros H. apply orb_false_iff in H as [H1 H2].
  unfold equalsParam, hasLit. simpl. now rewrite H1, H2.
Qed.

Lemma hasLit_join p sep (xs : list SqlText) :
  p sep = false ->
  List.Forall (fun x => hasLit p x = false) xs ->
  hasLit p (Sql.join sep xs) = false.
Proof.
  intros Hsep Hxs. induction Hxs as [|x rest Hx Hrest IH]; [reflexivity|].
  destruct rest as [|y rest']; [exact Hx|].
  change (Sql.join sep (x :: y :: rest')) with (x ++ Lit sep :: Sql.join sep (y :: rest')).
  rewrite hasLit_app, Hx. simpl. rewrite Hsep. exact IH.
Qed.

Lemma hasLit_items p (f : Column -> SqlText) sep cols :
  p sep = false -> (forall c, hasLit p (f c) = false) ->
  hasLit p (Sql.join sep (map f cols)) = false.
Proof.
  intros Hsep Hf. apply hasLit_join; [exact Hsep|].
  apply List.Forall_forall. intros x Hin.
  apply List.in_map_iff in Hin as (c & <- & _). apply Hf.
Qed.

Lemma hasLit_cols p cols :
  p "[" || p "]" || p "," = false -> hasLit p (Sql.join "," (colsOf cols)) = false.
Proof.
  intros H. apply orb_false_iff in H as [H H3]. apply orb_false_iff in H as [H1 H2].
  apply hasLit_items; [exact H3|]. intros c. unfold hasLit. simpl.
  now rewrite H1, H2.
Qed.

Lemma hasLit_vals p cols :
  p "@" || p "," = false -> hasLit p (Sql.join "," (valsOf cols)) = false.
Proof.
  intros H. apply orb_false_iff in H as [H1 H2].
  apply hasLit_items; [exact H2|]. intros c. unfold hasLit. simpl.
  now rewrite H1.
Qed.

Lemma hasLit_sets p cols :
  p "[" || p "] = @" || p ", " = false ->
  hasLit p (Sql.join ", " (setsOf cols)) = false.
Proof.
  intros H. apply orb_false_iff in H as [H H3].
  apply hasLit_items; [exact H3|]. intros c. now apply hasLit_equalsParam.
Qed.

Lemma hasLit_outSelect p m :
  p "t.[" || p "] + 0 AS [" || p "]" || p ", " = false ->
  hasLit p (outSelect m) = false.
Proof.
  intros H. apply orb_false_iff in H as [H H4]. apply orb_false_iff in H as [H H3].
  apply orb_false_iff in H as [H1 H2].
  apply hasLit_items; [exact H4|]. intros c.
  destruct (match identity m with
            | Some i => String.eqb (COLUMN_NAME c) i
            | None => false
            end); unfold hasLit; simpl; now rewrite ?H1, ?H2, ?H3.
Qed.

(** Passing over the variable parts of a statement and deciding the
    pieces of fixed text by computation. *)
Ltac no_lit :=
  first [ apply hasLit_qName | apply hasLit_cols | apply hasLit_vals
        | apply hasLit_sets | apply hasLit_outSelect | apply hasLit_equalsParam ];
  vm_compute; reflexivity.

Ltac scan :=
  repeat first
    [ rewrite afterLit_app by no_lit
    | rewrite afterLit_passed by (vm_compute; reflexivity) ].

Ltac scan_to := scan; rewrite afterLit_found by (vm_compute; reflexivity).

End SqlFacts.

(** ** Mutation strategies *)

Module StrategyFacts.

Import Generator Observers SqlFacts.

Ltac eval_mentions :=
  split_mentions;
  rewrite ?mentions_qName, ?mentions_cols, ?mentions_vals, ?mentions_sets,
    ?mentions_outSelect, ?mentions_equalsParam by reflexivity;
  reflexivity.

(** How each script returns the row. *)
Lemma rowSource_insertSql m b cols :
  rowSource (insertSql m b cols)
  = Some match insertStrategy m b with
         | Direct => OutputClause
         | IdentityReselect => SelectByScopeIdentity (default "null" (identity m))
         | KeyReselect =>
             SelectByParameter (propertyKey (head (pk m))) (propertyKey (head (pk m)))
         | StagingTable => SelectStaged
         end.
Proof.
  unfold rowSource.
  cbv beta zeta delta [insertSql stagingPrologue].
  destruct (insertStrategy m b).
  - scan_to.
    replace (mentions "OUTPUT" _) with true by (symmetry; eval_mentions).
    replace (mentions "INTO #out" _) with false by (symmetry; eval_mentions).
    replace (mentions "OUTPUT inserted.* " _) with true by (symmetry; eval_mentions).
    reflexivity.
  - scan_to.
    replace (mentions "OUTPUT" _) with false by (symmetry; eval_mentions).
    scan_to. scan_to.
    replace (mentions "DECLARE @id numeric(38,0) = SCOPE_IDENTITY();" _) with true
      by (symmetry; eval_mentions).
    reflexivity.
  - scan_to.
    replace (mentions "OUTPUT" _) with false by (symmetry; eval_mentions).
    scan_to. scan_to. reflexivity.
  - repeat (rewrite <- app_comm_cons || rewrite <- app_assoc || rewrite app_nil_l). scan_to.
    replace (mentions "OUTPUT" _) with true by (symmetry; eval_mentions).
    replace (mentions "INTO #out" _) with true by (symmetry; eval_mentions).
    replace (mentions "SELECT * FROM #out" _) with true by (symmetry; eval_mentions).
    reflexivity.
Qed.







(** What each mutation handler sends to the driver. *)

Ltac case_driver :=
  match goal with
  | |- context [?d (render ?t) ?i] => destruct (d (render t) i)
  end.

Lemma createHandler_executes driver m req :
  snd (createHandler driver m req) =
  [ {| text := insertSql m (body req) (List.filter (supplied true (body req)) (columns m));
       inputs := bodyInputs (body req) (List.filter (supplied true (body req)) (columns m)) |} ].
Proof.
  unfold createHandler, tryCatch, bind, runQuery, ret.
  case_driver; reflexivity.
Qed.

Lemma updateHandler_executes driver m k req q :
  In q (snd (updateHandler driver m k req)) ->
  updateColumns m k (body req) <> []
  /\ exists ty,
       q = {| text := updateSql m k (updateColumns m k (body req));
              inputs := bodyInputs (body req) (updateColumns m k (body req))
                          ++ [keyInput k ty req] |}.
Proof.
  unfold updateHandler, tryCatch, bind, runQuery, keyColumnType.
  destruct (List.find _ (columns m)) as [c|]; unfold ret, throw; cbv beta iota;
    [|intros []].
  destruct (updateColumns m k (body req)) as [|c0 cs] eqn:E; [intros []|].
  case_driver; simpl; intros [<-|[]]; (split; [discriminate|eauto]).
Qed.

Lemma plain_updateHandler_executes driver m k req q :
  In q (snd (Plain.updateHandler driver m k req)) ->
  updateColumns m k (body req) <> []
  /\ exists ty,
       q = {| text := Plain.updateSql m k (updateColumns m k (body req));
              inputs := bodyInputs (body req) (updateColumns m k (body req))
                          ++ [keyInput k ty req] |}.
Proof.
  unfold Plain.updateHandler, Plain.firstRowOr404, tryCatch, bind, runQuery,
    keyColumnType.
  destruct (List.find _ (columns m)) as [c|]; unfold ret, throw; cbv beta iota;
    [|intros []].
  destruct (updateColumns m k (body req)) as [|c0 cs] eqn:E; [intros []|].
  case_driver; [destruct (head _) as [[|? ?]|]|]; simpl; intros [<-|[]];
    (split; [discriminate|eauto]).
Qed.

Lemma deleteHandler_executes driver m k req q :
  In q (snd (deleteHandler driver m k req)) -> text q = deleteSql m k.
Proof.
  unfold deleteHandler, tryCatch, bind, runQuery, keyColumnType.
  destruct (List.find _ (columns m)); unfold ret, throw; cbv beta iota;
    [|intros []].
  case_driver; simpl; intros [<-|[]]; reflexivity.
Qed.

End StrategyFacts.

(** ** Route registration and discovery *)

Module RouteFacts.

Import Generator Observers SqlFacts StrategyFacts.




(** The guard [!isView && pk] keeps the keyed routes away from a view. *)
Lemma view_routes m ep :
  isView m = true ->
  registerRoutes m ep =
    [ {| method := GET; path := "/" +:+ ep +:+ "/" +:+ table m;
         handler := ListRows; meta := m |} ].
Proof.
  intros Hview. unfold registerRoutes. rewrite Hview. simpl.
  destruct (head (pk m)); reflexivity.
Qed.

(** C5: a view gets the LIST route and nothing else, whatever its key,
    trigger and identity metadata say; in particular no route of a view
    inserts, updates or deletes. *)
Theorem view_routes_read_only (m : TableMeta) (ep : string) :
  isView m = true ->
  registerRoutes m ep =
    [ {| method := GET; path := "/" +:+ ep +:+ "/" +:+ table m;
         handler := ListRows; meta := m |} ]
  /\ forall r, In r (registerRoutes m ep) -> isMutation r = false.
Proof.
  intros Hview. pose proof (view_routes m ep Hview) as E.
  split; [exact E|].
  rewrite E. intros r [<-|[]]. reflexivity.
Qed.

Lemma view_routes_read_only_witness :
  isView Fixtures.activeEmployees = true /\
  registerRoutes Fixtures.activeEmployees "hr" =
    [ {| method := GET; path := "/hr/ActiveEmployees";
         handler := ListRows; meta := Fixtures.activeEmployees |} ].
Proof.
  split; [reflexivity|].
  exact (proj1 (view_routes_read_only Fixtures.activeEmployees "hr" eq_refl)).
Defined.

(** Discovery marks an object as a view from its [TABLE_TYPE], so every
    discovered view has the LIST route only, in both revisions. *)
Lemma discovered_view_read_only wt cat t ep r :
  TABLE_TYPE t = "VIEW" ->
  In r (registerRoutes (discoverMeta wt cat t) ep) -> isMutation r = false.
Proof.
  intros Hty Hin.
  rewrite view_routes in Hin by (unfold discoverMeta; simpl; now rewrite Hty).
  destruct Hin as [<-|[]]. reflexivity.
Qed.

(** A table with a key gets the five routes. *)
Example employees_routes :
  map (fun r => (method r, path r)) (registerRoutes Fixtures.employees "hr") =
  [ (GET, "/hr/Employees"); (GET, "/hr/Employees/:Id"); (POST, "/hr/Employees");
    (PUT, "/hr/Employees/:Id"); (DELETE, "/hr/Employees/:Id") ].
Proof. reflexivity. Qed.




(** The two inserts of the refutation, as the handler runs them. *)
Example auditLog_insert_with_key :
  map (fun q => strategyOfText (text q))
      (snd (createHandler Fixtures.silentDriver Fixtures.auditLog
              {| query := ∅; queryInherits := true; params := ∅;
                 body := <["Code" := JStr "A1"]> ∅ |}))
  = [Some KeyReselect].
Proof. vm_compute. reflexivity. Qed.

Example auditLog_insert_without_key :
  map (fun q => strategyOfText (text q))
      (snd (createHandler Fixtures.silentDriver Fixtures.auditLog Fixtures.noRequest))
  = [Some StagingTable].
Proof. vm_compute. reflexivity. Qed.

End RouteFacts.

(** ** The CREATE handler on a table with a trigger and an identity column *)

Module InsertFacts.

Import Generator Observers SqlFacts StrategyFacts.

Lemma identity_strategy m b :
  hasTriggers m = true -> Js.truthyOpt (identity m) = true ->
  insertStrategy m b = IdentityReselect.
Proof. unfold insertStrategy. now intros -> ->. Qed.

Lemma mentions_output_identity m b cols :
  insertStrategy m b = IdentityReselect ->
  mentions "OUTPUT" (insertSql m b cols) = false.
Proof.
  intros Hs. cbv beta zeta delta [insertSql]. rewrite Hs. eval_mentions.
Qed.

Lemma identity_script m req idc :
  hasTriggers m = true -> identity m = Some idc -> idc <> "" ->
  insertSql m (body req) (suppliedColumns m req)
  = identityReselectScript m (suppliedColumns m req) idc.
Proof.
  intros Ht Hi Hne.
  assert (Hid : Js.truthyOpt (identity m) = true)
    by (rewrite Hi; now apply JsFacts.truthy_ne).
  cbv beta zeta delta [insertSql].
  rewrite (identity_strategy m (body req) Ht Hid), Hi. reflexivity.
Qed.

(** C2 (refuted as stated): the handler passes on what the select by
    [SCOPE_IDENTITY()] returns, and when that is no row (an enabled
    trigger that replaces the insert leaves [SCOPE_IDENTITY()] null) it
    answers 201 with the empty object: the response has no identity
    value. *)
Lemma identity_insert_without_row :
  ~ forall (driver : Driver) (m : TableMeta) (req : Request) (idc : string)
           (recordsets : list (list Row)),
      hasTriggers m = true -> identity m = Some idc -> idc <> "" ->
      driver (render (insertSql m (body req) (suppliedColumns m req)))
             (bodyInputs (body req) (suppliedColumns m req)) = Ok recordsets ->
      exists row v,
        fst (createHandler driver m req) = {| status := 201; payload := JsonRow row |}
        /\ JsObject.get idc row = Some v.
Proof.
  intros H.
  destruct (H Fixtures.emptyDriver Fixtures.employeesTriggered
              {| query := ∅; queryInherits := true; params := ∅;
                 body := Fixtures.annBody |} "Id" [[]])
    as (row & v & Hrow & Hv); try reflexivity; [discriminate|].
  vm_compute in Hrow. injection Hrow as <-. discriminate Hv.
Qed.

(** C2 (amended): on a table with an enabled trigger and an identity
    column the CREATE handler sends one statement; its fixed text has no
    [OUTPUT] clause; it is the script that inserts, reads
    [SCOPE_IDENTITY()] into [@id] and then selects the row of the table
    whose identity column equals [@id]; and when the database accepts the
    script the handler answers 201 with the first row that select
    returned, unchanged, so the returned row has the identity value the
    selected row has; when the select returned no row the answer is 201
    with the empty object. *)
Theorem insert_reselects_by_identity (driver : Driver) (m : TableMeta)
    (req : Request) (idc : string) :
  hasTriggers m = true ->
  identity m = Some idc ->
  idc <> "" ->
  snd (createHandler driver m req) =
    [ {| text := identityReselectScript m (suppliedColumns m req) idc;
         inputs := bodyInputs (body req) (suppliedColumns m req) |} ]
  /\ mentions "OUTPUT" (identityReselectScript m (suppliedColumns m req) idc) = false
  /\ rowSource (identityReselectScript m (suppliedColumns m req) idc)
     = Some (SelectByScopeIdentity idc)
  /\ forall recordsets,
       driver (render (identityReselectScript m (suppliedColumns m req) idc))
              (bodyInputs (body req) (suppliedColumns m req)) = Ok recordsets ->
       (forall before row rest,
          recordsets = before ++ [row :: rest] ->
          fst (createHandler driver m req)
          = {| status := 201; payload := JsonRow row |})
       /\ (forall before row rest v,
             recordsets = before ++ [row :: rest] ->
             JsObject.get idc row = Some v ->
             exists returned,
               fst (createHandler driver m req)
               = {| status := 201; payload := JsonRow returned |}
               /\ JsObject.get idc returned = Some v)
       /\ (recordsets = [] \/ (exists before, recordsets = before ++ [[]]) ->
           fst (createHandler driver m req)
           = {| status := 201; payload := JsonRow [] |}).
Proof.
  intros Ht Hi Hne.
  assert (Hid : Js.truthyOpt (identity m) = true)
    by (rewrite Hi; now apply JsFacts.truthy_ne).
  assert (Hs : insertStrategy m (body req) = IdentityReselect)
    by now apply identity_strategy.
  pose proof (identity_script m req idc Ht Hi Hne) as Hq.
  split; [|split; [|split]].
  - rewrite createHandler_executes. fold (suppliedColumns m req).
    rewrite Hq. reflexivity.
  - rewrite <- Hq. now apply mentions_output_identity.
  - rewrite <- Hq, rowSource_insertSql, Hs, Hi. reflexivity.
  - intros recordsets Hd.
    unfold createHandler, tryCatch, bind, runQuery, ret.
    fold (suppliedColumns m req). rewrite Hq, Hd. cbn [fst]. split; [|split].
    + intros before row rest ->. unfold lastRecordset. now rewrite last_snoc.
    + intros before row rest v -> Hv. exists row. split; [|exact Hv].
      unfold lastRecordset. now rewrite last_snoc.
    + intros [-> | [before ->]]; [reflexivity|].
      unfold lastRecordset. now rewrite last_snoc.
Qed.

Lemma insert_reselects_by_identity_witness :
  hasTriggers Fixtures.employeesTriggered = true
  /\ identity Fixtures.employeesTriggered = Some "Id"
  /\ fst (createHandler Fixtures.annDriver Fixtures.employeesTriggered
            {| query := ∅; queryInherits := true; params := ∅;
               body := Fixtures.annBody |})
     = {| status := 201; payload := JsonRow Fixtures.annRow |}.
Proof.
  split; [reflexivity|]. split; [reflexivity|].
  refine (proj1 (proj2 (proj2 (proj2
            (insert_reselects_by_identity Fixtures.annDriver
               Fixtures.employeesTriggered
               {| query := ∅; queryInherits := true; params := ∅;
                  body := Fixtures.annBody |}
               "Id" eq_refl eq_refl _))) [[Fixtures.annRow]] eq_refl)
            [] Fixtures.annRow [] eq_refl).
  discriminate.
Defined.

(** The script as the driver receives it for [{"Name":"Ann","Active":true}]. *)
Example identity_reselect_script :
  map (fun q => render (text q))
      (snd (createHandler Fixtures.annDriver Fixtures.employeesTriggered
              {| query := ∅; queryInherits := true; params := ∅;
                 body := Fixtures.annBody |}))
  = [ nl +:+ i14 +:+ "SET NOCOUNT ON;" +:+ nl
      +:+ i14 +:+ "INSERT INTO [dbo].[Employees] ([Name],[Active])" +:+ nl
      +:+ i14 +:+ "VALUES (@Name,@Active);" +:+ nl
      +:+ i14 +:+ "DECLARE @id numeric(38,0) = SCOPE_IDENTITY();" +:+ nl
      +:+ i14 +:+ "SELECT * FROM [dbo].[Employees] WHERE [Id] = @id;" +:+ nl
      +:+ i12 ].
Proof. vm_compute. reflexivity. Qed.

End InsertFacts.

(** ** The UPDATE handler *)

Module UpdateFacts.

Import Generator Observers SqlFacts StrategyFacts.

Lemma updateColumns_skip_key m k b col :
  In col (updateColumns m k b) ->
  COLUMN_NAME col <> k /\ In col (columns m) /\ is_Some (bodyProp b (COLUMN_NAME col)).
Proof.
  unfold updateColumns. rewrite List.filter_In. intros [Hin Hc].
  apply andb_true_iff in Hc as [Hk Hs].
  apply negb_true_iff in Hk. apply String.eqb_neq in Hk.
  unfold supplied in Hs. apply (JsFacts.hasProp_is_Some true id) in Hs. auto.
Qed.

Lemma updateColumns_in m k b col :
  In col (columns m) -> COLUMN_NAME col <> k -> is_Some (bodyProp b (COLUMN_NAME col)) ->
  In col (updateColumns m k b).
Proof.
  intros Hin Hne Hs. unfold updateColumns. apply List.filter_In.
  split; [exact Hin|]. apply andb_true_iff. split.
  - apply negb_true_iff. now apply String.eqb_neq.
  - unfold supplied. now apply (JsFacts.hasProp_is_Some true id).
Qed.

Lemma updateColumns_none m k b :
  (forall col, In col (columns m) -> COLUMN_NAME col <> k ->
               bodyProp b (COLUMN_NAME col) = None) ->
  updateColumns m k b = [].
Proof.
  intros H. destruct (updateColumns m k b) as [|c cs] eqn:E; [reflexivity|].
  assert (Hc : In c (updateColumns m k b)) by (rewrite E; now left).
  apply updateColumns_skip_key in Hc as (Hne & Hin & [v Hv]).
  rewrite (H c Hin Hne) in Hv. discriminate.
Qed.

Lemma find_key_column m k :
  In k (columnNames m) ->
  exists col, List.find (fun c => String.eqb (COLUMN_NAME c) k) (columns m) = Some col.
Proof.
  unfold columnNames. induction (columns m) as [|c cs IH]; simpl; [intros []|].
  intros [E|Hin].
  - rewrite E, String.eqb_refl. eauto.
  - destruct (String.eqb (COLUMN_NAME c) k); eauto.
Qed.

(** What the "no updatable fields" check does catch: when reading the
    body under the name of each column other than the key gives
    [undefined], no statement is sent, and, the key being one of the
    columns, the answer is 400. *)
Lemma update_without_properties_rejected (driver : Driver) (m : TableMeta)
    (k : string) (req : Request) :
  (forall col, In col (columns m) -> COLUMN_NAME col <> k ->
               bodyProp (body req) (COLUMN_NAME col) = None) ->
  snd (updateHandler driver m k req) = []
  /\ snd (Plain.updateHandler driver m k req) = []
  /\ (In k (columnNames m) ->
      fst (updateHandler driver m k req)
        = {| status := 400; payload := JsonError "No updatable fields provided" |}
      /\ fst (Plain.updateHandler driver m k req)
        = {| status := 400; payload := JsonError "No updatable fields provided" |}).
Proof.
  intros Hnone. apply updateColumns_none in Hnone.
  unfold updateHandler, Plain.updateHandler, tryCatch, bind, keyColumnType.
  rewrite Hnone.
  split; [|split].
  - destruct (List.find _ (columns m)); reflexivity.
  - destruct (List.find _ (columns m)); reflexivity.
  - intros Hk. apply find_key_column in Hk as [col ->]. split; reflexivity.
Qed.

Lemma identifiersIn_equalsParam opens closes inside n rest :
  opens "[" = false -> closes "[" = false ->
  opens "] = @" = false -> closes "] = @" = false ->
  identifiersIn opens closes inside (equalsParam n ++ rest) =
  (if inside then [n; n] else []) ++ identifiersIn opens closes inside rest.
Proof.
  intros O1 C1 O2 C2. simpl. rewrite O1, C1, O2, C2.
  now destruct inside.
Qed.

(** Scanning the items of a [SET] clause collects their column names
    (each one twice: the column and its parameter) when the scan is
    inside the clause looked for, and nothing otherwise. *)
Lemma identifiersIn_sets opens closes inside sets rest :
  opens "[" = false -> closes "[" = false ->
  opens "] = @" = false -> closes "] = @" = false ->
  opens ", " = false -> closes ", " = false ->
  identifiersIn opens closes inside (Sql.join ", " (setsOf sets) ++ rest) =
  (if inside
   then flat_map (fun col => [COLUMN_NAME col; COLUMN_NAME col]) sets
   else [])
    ++ identifiersIn opens closes inside rest.
Proof.
  intros O1 C1 O2 C2 O3 C3.
  induction sets as [|c cs IH]; [now destruct inside|].
  destruct cs as [|c' cs'].
  - change (Sql.join ", " (setsOf [c])) with (equalsParam (COLUMN_NAME c)).
    rewrite identifiersIn_equalsParam by assumption. now destruct inside.
  - change (Sql.join ", " (setsOf (c :: c' :: cs')))
      with (equalsParam (COLUMN_NAME c) ++ Lit ", " :: Sql.join ", " (setsOf (c' :: cs'))).
    remember (Sql.join ", " (setsOf (c' :: cs'))) as tail eqn:Etail.
    rewrite <- app_assoc, identifiersIn_equalsParam by assumption.
    change ((Lit ", " :: tail) ++ rest) with (Lit ", " :: tail ++ rest).
    change (identifiersIn opens closes inside (Lit ", " :: tail ++ rest))
      with (identifiersIn opens closes
              (if opens ", " then true else if closes ", " then false else inside)
              (tail ++ rest)).
    rewrite O3, C3, IH. now destruct inside.
Qed.

Lemma setClause_updateSql m k sets :
  setClause (updateSql m k sets) =
  flat_map (fun col => [COLUMN_NAME col; COLUMN_NAME col]) sets.
Proof.
  unfold setClause. cbv beta zeta delta [updateSql updateStrategy qName].
  destruct (hasTriggers m); cbn [app identifiersIn];
    repeat match goal with
           | |- context [String.eqb ?a ?b] =>
               let v := eval vm_compute in (String.eqb a b) in
               change (String.eqb a b) with v
           | |- context [Js.includes ?a ?b] =>
               let v := eval vm_compute in (Js.includes a b) in
               change (Js.includes a b) with v
           end; cbv iota;
    rewrite identifiersIn_sets by reflexivity;
    cbn [app identifiersIn equalsParam]; now rewrite app_nil_r.
Qed.

Lemma setClause_plain_updateSql m k sets :
  setClause (Plain.updateSql m k sets) =
  flat_map (fun col => [COLUMN_NAME col; COLUMN_NAME col]) sets.
Proof.
  unfold setClause, Plain.updateSql, qName. cbn [app identifiersIn].
  rewrite identifiersIn_sets by reflexivity.
  cbn [app identifiersIn equalsParam]. now rewrite app_nil_r.
Qed.

Ltac eval_scan :=
  repeat match goal with
         | |- context [String.eqb ?a ?b] =>
             let v := eval vm_compute in (String.eqb a b) in
             change (String.eqb a b) with v
         | |- context [Js.includes ?a ?b] =>
             let v := eval vm_compute in (Js.includes a b) in
             change (Js.includes a b) with v
         end; cbv iota.

Lemma whereClause_updateSql m k sets :
  whereClause (updateSql m k sets) = if hasTriggers m then [k; k; k; k] else [k; k].
Proof.
  unfold whereClause. cbv beta zeta delta [updateSql updateStrategy qName].
  destruct (hasTriggers m); cbn [app identifiersIn]; eval_scan;
    rewrite identifiersIn_sets by reflexivity;
    cbn [app identifiersIn equalsParam]; eval_scan; reflexivity.
Qed.

Lemma whereClause_plain_updateSql m k sets :
  whereClause (Plain.updateSql m k sets) = [k; k].
Proof.
  unfold whereClause, Plain.updateSql, qName. cbn [app identifiersIn].
  rewrite identifiersIn_sets by reflexivity.
  cbn [app identifiersIn equalsParam]. reflexivity.
Qed.

Lemma in_sets_of_column col sets :
  In col sets ->
  In (COLUMN_NAME col) (flat_map (fun c => [COLUMN_NAME c; COLUMN_NAME c]) sets).
Proof. intros H. apply in_flat_map. exists col. split; [exact H|now left]. Qed.

(** C9 (as the code behaves): a column, other than the key, whose name
    is that of a member of [Object.prototype] is taken as supplied by
    every body, the empty object included, because the handler tests
    [req.body[name] !== undefined]: the handler of either revision then
    sends an UPDATE that assigns that column and does not answer 400. *)
Theorem inherited_name_passes_for_field (driver : Driver) (m : TableMeta)
    (k : string) (req : Request) (col : Column) :
  In col (columns m) -> COLUMN_NAME col <> k ->
  inherited (COLUMN_NAME col) = true ->
  In k (columnNames m) ->
  (exists q, snd (updateHandler driver m k req) = [q]
             /\ In (COLUMN_NAME col) (setClause (text q)))
  /\ (exists q, snd (Plain.updateHandler driver m k req) = [q]
                /\ In (COLUMN_NAME col) (setClause (text q)))
  /\ status (fst (updateHandler driver m k req)) <> 400
  /\ status (fst (Plain.updateHandler driver m k req)) <> 400.
Proof.
  intros Hin Hne Hinh Hk.
  assert (Hcol : In col (updateColumns m k (body req))).
  { apply updateColumns_in; [exact Hin|exact Hne|].
    unfold bodyProp, prop. destruct (body req !! COLUMN_NAME col); [eauto|].
    rewrite Hinh. eauto. }
  apply find_key_column in Hk as [kc Hk].
  unfold updateHandler, Plain.updateHandler, Plain.firstRowOr404, tryCatch, bind,
    runQuery, keyColumnType.
  rewrite Hk. unfold ret. cbv beta iota.
  destruct (updateColumns m k (body req)) as [|c0 cs] eqn:E; [destruct Hcol|].
  rewrite <- E in *.
  split; [|split; [|split]].
  - destruct (driver _ _); eexists; (split; [reflexivity|]); cbn [text];
      rewrite setClause_updateSql; now apply in_sets_of_column.
  - destruct (driver _ _) as [rs|msg]; [destruct (head rs) as [[|? ?]|]|];
      eexists; (split; [reflexivity|]); cbn [text];
      rewrite setClause_plain_updateSql; now apply in_sets_of_column.
  - destruct (driver _ _) as [rs|msg]; [|discriminate].
    cbn [fst]. unfold rowOr404. destruct (lastRecordset rs) as [[|? ?]|]; discriminate.
  - destruct (driver _ _) as [rs|msg]; [|discriminate].
    destruct (head rs) as [[|? ?]|]; discriminate.
Qed.

Lemma inherited_name_passes_for_field_witness :
  exists q,
    snd (updateHandler Fixtures.annDriver Fixtures.buildings "Id" Fixtures.emptyPut)
    = [q]
    /\ In "constructor" (setClause (text q)).
Proof.
  refine (proj1 (inherited_name_passes_for_field Fixtures.annDriver
                   Fixtures.buildings "Id" Fixtures.emptyPut
                   (Fixtures.column "constructor" "nvarchar" true (Some 100))
                   _ _ eq_refl _)).
  - right. right. left. reflexivity.
  - discriminate.
  - left. reflexivity.
Defined.

(** [PUT /api/Buildings/7] with [{}]: the statement and the answer. *)
Example buildings_empty_update :
  (map (fun q => (render (text q), map name (inputs q)))
       (snd (updateHandler Fixtures.annDriver Fixtures.buildings "Id"
               Fixtures.emptyPut)),
   status (fst (updateHandler Fixtures.annDriver Fixtures.buildings "Id"
                  Fixtures.emptyPut)))
  = ([ ("UPDATE [dbo].[Buildings] SET [constructor] = @constructor OUTPUT inserted.* WHERE [Id] = @Id",
        ["constructor"; "Id"]) ], 200).
Proof. vm_compute. reflexivity. Qed.

Lemma key_not_assigned m k b :
  ~ In k (flat_map (fun col => [COLUMN_NAME col; COLUMN_NAME col])
                   (updateColumns m k b)).
Proof.
  rewrite in_flat_map. intros (col & Hcol & Hk).
  apply updateColumns_skip_key in Hcol as (Hne & _).
  simpl in Hk. intuition congruence.
Qed.

Lemma key_input_from_path m k req ty i :
  In i (bodyInputs (body req) (updateColumns m k (body req)) ++ [keyInput k ty req]) ->
  name i = k -> i = keyInput k ty req.
Proof.
  rewrite in_app_iff. intros [Hin|[<-|[]]] Hname; [|reflexivity].
  unfold bodyInputs in Hin. apply List.in_map_iff in Hin as (col & <- & Hcol).
  apply updateColumns_skip_key in Hcol as (Hne & _). now elim Hne.
Qed.

(** With the key among the columns and a property in the body under the
    name of another column, an update request sends its statement. *)
Lemma updateHandler_sends driver m k req c :
  In k (columnNames m) ->
  In c (columnNames m) -> c <> k -> is_Some (bodyProp (body req) c) ->
  (exists q, snd (updateHandler driver m k req) = [q])
  /\ (exists q, snd (Plain.updateHandler driver m k req) = [q]).
Proof.
  intros Hk Hc Hne Hs. unfold columnNames in Hc.
  apply List.in_map_iff in Hc as (col & <- & Hin).
  assert (Hcol : In col (updateColumns m k (body req)))
    by now apply updateColumns_in.
  apply find_key_column in Hk as [kc Hk].
  unfold updateHandler, Plain.updateHandler, Plain.firstRowOr404, tryCatch, bind,
    runQuery, keyColumnType.
  rewrite Hk. unfold ret. cbv beta iota.
  destruct (updateColumns m k (body req)) as [|c0 cs] eqn:E; [destruct Hcol|].
  split.
  - destruct (driver _ _); eexists; reflexivity.
  - destruct (driver _ _) as [rs|msg]; [destruct (head rs) as [[|? ?]|]|];
      eexists; reflexivity.
Qed.

(** C10 (refuted as stated): the routes of a table are keyed by the
    first column of its primary key alone; on a table whose key has two
    columns the other key column is an ordinary field of the update, so
    [PUT /api/OrderLines/7] with [{"LineNo": 2}] assigns the key column
    [LineNo] in every row whose [OrderId] is 7. *)
Lemma update_sets_other_key_column :
  ~ forall (driver : Driver) (m : TableMeta) (ep : string) (r : Route)
           (req : Request) (q : Query) (c : string),
      In r (registerRoutes m ep) -> method r = PUT ->
      In q (snd (runRoute driver r req)) ->
      In c (pk m) -> ~ In c (setClause (text q)).
Proof.
  intros H.
  apply (H Fixtures.annDriver Fixtures.orderLines "api"
           {| method := PUT; path := "/api/OrderLines/:OrderId";
              handler := Update "OrderId"; meta := Fixtures.orderLines |}
           Fixtures.renumberLines
           {| text := updateSql Fixtures.orderLines "OrderId"
                        [Fixtures.column "LineNo" "int" false None];
              inputs := [ {| name := "LineNo"; sqlType := Int;
                             value := Some (JNum 2) |};
                          {| name := "OrderId"; sqlType := Int;
                             value := Some (JStr "7") |} ] |}
           "LineNo").
  - vm_compute. right. right. right. left. reflexivity.
  - reflexivity.
  - vm_compute. left. reflexivity.
  - right. left. reflexivity.
  - vm_compute. left. reflexivity.
Qed.

Example orderLines_update_sql :
  map (fun q => render (text q))
      (snd (updateHandler Fixtures.annDriver Fixtures.orderLines "OrderId"
              Fixtures.renumberLines))
  = ["UPDATE [dbo].[OrderLines] SET [LineNo] = @LineNo OUTPUT inserted.* WHERE [OrderId] = @OrderId"].
Proof. vm_compute. reflexivity. Qed.

(** C10 (amended): an update request whose body has a property under
    the name of a column other than the key sends one statement, the key
    being a column; in the statement an update request makes either
    revision send, the [SET] clause never holds the key column of the
    route, even when the body has a value for it: it holds exactly the
    other columns of the table under whose name the body has a property;
    every [WHERE] clause compares the key column of the route with the
    parameter of the same name, and the only input bound under that name
    is the path parameter.  So on a table whose primary key is that one
    column no key column is assigned. *)
Theorem update_never_sets_key (driver : Driver) (m : TableMeta) (k : string)
    (req : Request) :
  (In k (columnNames m) ->
   (exists c, In c (columnNames m) /\ c <> k /\ is_Some (bodyProp (body req) c)) ->
   (exists q, snd (updateHandler driver m k req) = [q])
   /\ (exists q, snd (Plain.updateHandler driver m k req) = [q]))
  /\ forall q,
  In q (snd (updateHandler driver m k req))
  \/ In q (snd (Plain.updateHandler driver m k req)) ->
  ~ In k (setClause (text q))
  /\ (forall c, In c (setClause (text q))
                <-> In c (columnNames m) /\ c <> k
                    /\ is_Some (bodyProp (body req) c))
  /\ (whereClause (text q) <> [] /\ forall c, In c (whereClause (text q)) -> c = k)
  /\ (exists i, In i (inputs q) /\ name i = k)
  /\ (forall i, In i (inputs q) -> name i = k ->
                value i = JStr <$> params req !! k)
  /\ (pk m = [k] -> forall c, In c (pk m) -> ~ In c (setClause (text q))).
Proof.
  split.
  { intros Hk (c & Hc & Hne & Hs). now apply (updateHandler_sends driver m k req c). }
  intros q Hq.
  assert (H : exists ty,
             setClause (text q) =
               flat_map (fun col => [COLUMN_NAME col; COLUMN_NAME col])
                        (updateColumns m k (body req))
             /\ (whereClause (text q) = [k; k; k; k] \/ whereClause (text q) = [k; k])
             /\ inputs q = bodyInputs (body req) (updateColumns m k (body req))
                             ++ [keyInput k ty req]).
  { destruct Hq as [Hq|Hq].
    - apply updateHandler_executes in Hq as (_ & ty & ->). exists ty. simpl.
      rewrite setClause_updateSql, whereClause_updateSql.
      destruct (hasTriggers m); auto.
    - apply plain_updateHandler_executes in Hq as (_ & ty & ->). exists ty. simpl.
      rewrite setClause_plain_updateSql, whereClause_plain_updateSql. auto. }
  destruct H as (ty & Hset & Hwhere & Hin).
  rewrite Hset, Hin.
  split; [apply key_not_assigned|]. split; [|split; [|split; [|split]]].
  - intros c. rewrite in_flat_map. split.
    + intros (col & Hcol & Hc).
      apply updateColumns_skip_key in Hcol as (Hne & Hcol & Hs).
      assert (c = COLUMN_NAME col) as -> by (simpl in Hc; intuition).
      split; [unfold columnNames; now apply List.in_map|]. now split.
    + intros (Hc & Hne & Hs). unfold columnNames in Hc.
      apply List.in_map_iff in Hc as (col & <- & Hcol).
      exists col. split; [now apply updateColumns_in|now left].
  - split; [destruct Hwhere as [-> | ->]; discriminate|].
    intros c Hc. destruct Hwhere as [E|E]; rewrite E in Hc; simpl in Hc;
      intuition congruence.
  - exists (keyInput k ty req). split; [|reflexivity].
    apply in_app_iff. right. now left.
  - intros i Hi Hname. now rewrite (key_input_from_path m k req ty i Hi Hname).
  - intros Hpk c Hc. rewrite Hpk in Hc. destruct Hc as [<-|[]].
    apply key_not_assigned.
Qed.

(** [PUT /hr/Employees/7] with [{"Id": 9, "Name": "Bob"}]. *)
Example employees_update_sql :
  map (fun q => (render (text q), map name (inputs q), setClause (text q)))
      (snd (updateHandler Fixtures.annDriver Fixtures.employees "Id"
              Fixtures.bobUpdate))
  = [ ("UPDATE [dbo].[Employees] SET [Name] = @Name OUTPUT inserted.* WHERE [Id] = @Id",
       ["Name"; "Id"], ["Name"; "Name"]) ].
Proof. vm_compute. reflexivity. Qed.

Lemma update_never_sets_key_witness :
  In Fixtures.bobUpdateQuery
     (snd (updateHandler Fixtures.annDriver Fixtures.employees "Id"
             Fixtures.bobUpdate))
  /\ ~ In "Id" (setClause (text Fixtures.bobUpdateQuery)).
Proof.
  assert (Hin : In Fixtures.bobUpdateQuery
                  (snd (updateHandler Fixtures.annDriver Fixtures.employees
                          "Id" Fixtures.bobUpdate))).
  { vm_compute. left. reflexivity. }
  split; [exact Hin|].
  exact (proj1 (proj2 (update_never_sets_key Fixtures.annDriver Fixtures.employees
                         "Id" Fixtures.bobUpdate)
                      Fixtures.bobUpdateQuery (or_introl Hin))).
Defined.

End UpdateFacts.
(** ** The LIST handler: ordering and pagination *)

Module ListFacts.

Import Generator Observers SqlFacts.

(** *** Reading [order] *)


Lemma parseOrder_direction o :
  snd (parseOrder o) = "ASC" \/ snd (parseOrder o) = "DESC".
Proof.
  unfold parseOrder. destruct (truthyQuery o); [|now left]. simpl.
  destruct (Js.split "." (stringOf o) !! 1%nat) as [d|]; [|now left].
  destruct (Js.truthy d && String.eqb (Js.toUpperCase d) "DESC"); auto.
Qed.





Lemma defaultOrderColumn_catalog m c log log' :
  defaultOrderColumn m log = (Ok c, log') ->
  log' = log /\ (In c (columnNames m) \/ head (pk m) = Some c).
Proof.
  unfold defaultOrderColumn, columnNames.
  destruct (head (pk m)) as [k|]; [destruct (Js.truthy k)|];
    destruct (columns m) as [|c0 cs]; unfold ret, throw;
    intros [= <- <-] || intros [= <-] || intros H; try discriminate;
    split; auto; left; now left.
Qed.

Lemma defaultOrderColumn_log m log :
  snd (defaultOrderColumn m log) = log.
Proof.
  unfold defaultOrderColumn.
  destruct (head (pk m)) as [k|]; [destruct (Js.truthy k)|];
    destruct (columns m); reflexivity.
Qed.

Lemma hasName_In names n : hasName names n = true <-> In n names.
Proof.
  unfold hasName. rewrite existsb_exists. split.
  - intros (x & Hin & Hx). apply String.eqb_eq in Hx. now subst.
  - intros Hin. exists n. split; [exact Hin|apply String.eqb_refl].
Qed.


(** Whatever the request, the chosen column comes from the catalog
    metadata of the object and the direction is one of the two words. *)
Lemma chooseOrder_catalog m o log c d log' :
  chooseOrder m o log = (Ok (c, d), log') ->
  log' = log
  /\ (In c (columnNames m) \/ head (pk m) = Some c)
  /\ (d = "ASC" \/ d = "DESC").
Proof.
  unfold chooseOrder.
  pose proof (parseOrder_direction o) as Hdir.
  destruct (parseOrder o) as [[c'|] dir]; simpl in Hdir.
  - destruct (Js.truthy c' && hasName (columnNames m) c') eqn:Hc.
    + unfold ret. intros [= <- <- <-].
      apply andb_true_iff in Hc as [_ Hc]. apply hasName_In in Hc. auto.
    + unfold bind, ret.
      destruct (defaultOrderColumn m log) as [[d0|msg] log0] eqn:Hd;
        intros [= <- <- <-].
      apply defaultOrderColumn_catalog in Hd as [-> Hd]. auto.
  - unfold bind, ret.
    destruct (defaultOrderColumn m log) as [[d0|msg] log0] eqn:Hd;
      intros [= <- <- <-].
    apply defaultOrderColumn_catalog in Hd as [-> Hd]. auto.
Qed.

Lemma chooseOrder_log m o log : snd (chooseOrder m o log) = log.
Proof.
  unfold chooseOrder. destruct (parseOrder o) as [[c|] dir].
  - destruct (Js.truthy c && hasName (columnNames m) c); [reflexivity|].
    unfold bind, ret. pose proof (defaultOrderColumn_log m log) as H.
    destruct (defaultOrderColumn m log) as [[d|msg] log']; exact H.
  - unfold bind, ret. pose proof (defaultOrderColumn_log m log) as H.
    destruct (defaultOrderColumn m log) as [[d|msg] log']; exact H.
Qed.

(** With at least one column the handler always gets to a statement. *)
Lemma chooseOrder_total m o log :
  columns m <> [] -> exists c d, chooseOrder m o log = (Ok (c, d), log).
Proof.
  intros Hcols.
  assert (Hd : exists d, defaultOrderColumn m log = (Ok d, log)).
  { unfold defaultOrderColumn. destruct (columns m) as [|c0 cs]; [contradiction|].
    destruct (head (pk m)) as [k|]; [destruct (Js.truthy k)|]; unfold ret; eauto. }
  destruct Hd as [d0 Hd0]. unfold chooseOrder.
  destruct (parseOrder o) as [[c|] dir].
  - destruct (Js.truthy c && hasName (columnNames m) c); unfold bind, ret;
      [eauto|rewrite Hd0; eauto].
  - unfold bind, ret. rewrite Hd0. eauto.
Qed.

(** *** Binding the pagination inputs *)

Lemma declare_log declared ins log : snd (declare declared ins log) = log.
Proof.
  revert declared. induction ins as [|i rest IH]; intros declared; [reflexivity|].
  simpl. destruct (existsb _ declared); [reflexivity|apply IH].
Qed.

Lemma filterInputs_names req cols :
  map name (filterInputs req cols) = map COLUMN_NAME cols.
Proof. unfold filterInputs. rewrite map_map. reflexivity. Qed.

(** The names of the column filters are column names. *)
Lemma filterColumns_names m req n :
  In n (map COLUMN_NAME (filterColumns m req)) -> In n (columnNames m).
Proof.
  unfold filterColumns, columnNames. rewrite !in_map_iff.
  intros (col & <- & Hin). apply List.filter_In in Hin as [Hin _]. eauto.
Qed.

(** Names that no declared parameter has are bound without error, the
    pagination inputs among them. *)
Lemma declare_fresh declared (limit offset : Js.Number) core log :
  ~ In "limit" declared -> ~ In "offset" declared ->
  declare declared (snd (paginate core limit offset)) log = (Ok tt, log).
Proof.
  intros Hl Ho.
  assert (Hnl : existsb (String.eqb "limit") declared = false).
  { apply not_true_is_false. intros H. apply Hl. now apply hasName_In. }
  assert (Hno : existsb (String.eqb "offset") declared = false).
  { apply not_true_is_false. intros H. apply Ho. now apply hasName_In. }
  unfold paginate.
  destruct (_ && _); [reflexivity|].
  destruct (_ && _); cbn [snd declare name]; rewrite Hno; cbn [declare name].
  - reflexivity.
  - replace (existsb (String.eqb "limit") ("offset" :: declared))
      with (existsb (String.eqb "limit") declared) by reflexivity.
    rewrite Hnl. reflexivity.
Qed.

(** *** The statement *)

Lemma listQuery_chosen m req log r log' :
  chooseOrder m (query req !! "order") log = (r, log') ->
  listQuery m req log =
  match r with
  | Ok (c, d) =>
      match declare (map COLUMN_NAME (filterColumns m req))
              (snd (listText m req c d)) log' with
      | (Ok _, log'') =>
          (Ok {| text := fst (listText m req c d);
                 inputs := filterInputs req (filterColumns m req)
                             ++ snd (listText m req c d) |},
           log'')
      | (Throw msg, log'') => (Throw msg, log'')
      end
  | Throw msg => (Throw msg, log')
  end.
Proof.
  intros Hc. unfold listQuery, bind. rewrite Hc.
  destruct r as [[c d]|msg]; [|reflexivity].
  unfold listText. simpl fst. simpl snd.
  destruct (paginate _ _ _) as [t p]. rewrite filterInputs_names.
  simpl fst. simpl snd.
  destruct (declare _ p log') as [[u|msg] log'']; reflexivity.
Qed.

(** A list request builds its statement without sending anything. *)
Lemma listQuery_log m req log : snd (listQuery m req log) = log.
Proof.
  pose proof (chooseOrder_log m (query req !! "order") log) as Hlog.
  destruct (chooseOrder m (query req !! "order") log) as [r log'] eqn:Hc.
  simpl in Hlog. subst log'.
  rewrite (listQuery_chosen m req log _ _ Hc).
  destruct r as [[c d]|msg]; [|reflexivity].
  pose proof (declare_log (map COLUMN_NAME (filterColumns m req))
                (snd (listText m req c d)) log) as Hd.
  destruct (declare _ _ log) as [[u|msg] log'']; exact Hd.
Qed.

(** The one statement a list request sends, when it sends one: the text
    and inputs for the order chosen. *)
Lemma listQuery_shape m req log q log' :
  listQuery m req log = (Ok q, log') ->
  log' = log
  /\ exists c d,
       chooseOrder m (query req !! "order") log = (Ok (c, d), log)
       /\ text q = fst (listText m req c d)
       /\ inputs q = filterInputs req (filterColumns m req)
                       ++ snd (listText m req c d).
Proof.
  intros Hq.
  pose proof (listQuery_log m req log) as Hlog. rewrite Hq in Hlog.
  simpl in Hlog. subst log'. split; [reflexivity|].
  pose proof (chooseOrder_log m (query req !! "order") log) as Hclog.
  destruct (chooseOrder m (query req !! "order") log) as [r log'] eqn:Hc.
  simpl in Hclog. subst log'.
  rewrite (listQuery_chosen m req log _ _ Hc) in Hq.
  destruct r as [[c d]|msg]; [|discriminate].
  exists c, d. split; [reflexivity|].
  destruct (declare _ _ log) as [[u|msg] log'']; [|discriminate].
  injection Hq as <- _. now split.
Qed.

(** What the handler sends is the statement of [listQuery], once. *)
Lemma listHandler_sent driver m req :
  snd (listHandler driver m req)
  = match fst (listQuery m req []) with
    | Ok q => [q]
    | Throw _ => []
    end.
Proof.
  unfold listHandler, tryCatch, bind.
  pose proof (listQuery_log m req []) as Hlog.
  destruct (listQuery m req []) as [[q|msg] log]; simpl in Hlog; subst log;
    [|reflexivity].
  unfold runQuery. destruct q as [t ins]. simpl.
  destruct (driver (render t) ins) as [rs|msg]; [|reflexivity].
  destruct (head rs); reflexivity.
Qed.

Lemma listHandler_statement driver m req q :
  In q (snd (listHandler driver m req)) ->
  listQuery m req [] = (Ok q, []).
Proof.
  rewrite listHandler_sent.
  pose proof (listQuery_log m req []) as Hlog.
  destruct (listQuery m req []) as [[q'|msg] log]; simpl in *; subst log.
  - intros [->|[]]. reflexivity.
  - intros [].
Qed.

(** On an object with a column, and none called like a pagination
    parameter, every list request gets to its statement and sends it. *)
Lemma listHandler_sends driver m req :
  columns m <> [] ->
  ~ In "limit" (columnNames m) -> ~ In "offset" (columnNames m) ->
  exists q, snd (listHandler driver m req) = [q].
Proof.
  intros Hcols Hnl Hno.
  destruct (chooseOrder_total m (query req !! "order") [] Hcols) as (c & d & Hc).
  rewrite listHandler_sent, (listQuery_chosen m req [] _ _ Hc).
  unfold listText. rewrite declare_fresh; [simpl; eauto| |];
    intros Hin; apply filterColumns_names in Hin; contradiction.
Qed.

(** *** The clauses of the statement *)

(** A limit that is not below zero is one that was asked for. *)
Lemma parseLimit_reads v :
  Js.ltZero (parseLimit v) = false
  <-> exists n, reads v n /\ Js.ltZero n = false.
Proof.
  unfold parseLimit, reads. split.
  - destruct (Js.isFinite (Js.parseInt (stringOf v))) eqn:Hf; [|discriminate].
    intros Hl. exists (Js.parseInt (stringOf v)). repeat split; auto.
    destruct v; [eauto|]. discriminate Hf.
  - intros (n & (_ & <- & Hf) & Hl). now rewrite Hf.
Qed.

Lemma parseOffset_geZero v : Js.geZero (parseOffset v) = true.
Proof.
  unfold parseOffset.
  destruct (Js.isFinite (Js.parseInt (stringOf v))) eqn:Hf; [|reflexivity].
  destruct (Js.parseInt (stringOf v)) as [|neg| |z e]; try discriminate;
    try reflexivity.
  simpl. destruct (z <? 0) eqn:Hz; simpl; [reflexivity|]. lia.
Qed.

(** The offset is not zero exactly when a positive one was asked for;
    it then is the number asked for. *)
Lemma parseOffset_reads v :
  Js.isZero (parseOffset v) = false
  <-> exists n, reads v n /\ Js.ltZero n = false /\ Js.isZero n = false.
Proof.
  unfold parseOffset, reads. split.
  - destruct (Js.isFinite (Js.parseInt (stringOf v))) eqn:Hf; [|discriminate].
    destruct (Js.ltZero (Js.parseInt (stringOf v))) eqn:Hl; [discriminate|].
    intros Hz. exists (Js.parseInt (stringOf v)). repeat split; auto.
    destruct v; [eauto|]. discriminate Hf.
  - intros (n & (_ & <- & Hf) & Hl & Hz). now rewrite Hf, Hl.
Qed.

Lemma parseOffset_value v n :
  reads v n -> Js.ltZero n = false -> parseOffset v = n.
Proof.
  intros (_ & <- & Hf) Hl. unfold parseOffset. now rewrite Hf, Hl.
Qed.

Lemma parseLimit_value v n : reads v n -> parseLimit v = n.
Proof. intros (_ & <- & Hf). unfold parseLimit. now rewrite Hf. Qed.

Lemma mentions_selectFrom kw m cols c d :
  keyword kw = true ->
  mentions kw (selectFrom m
                 (whereSql (map (fun col => equalsParam (COLUMN_NAME col)) cols))
                 (orderSql c d))
  = Js.includes "SELECT * FROM " kw || Js.includes " " kw
    || Js.includes "ORDER BY [" kw || Js.includes "] " kw || Js.includes d kw.
Proof.
  intros Hkw. unfold selectFrom, orderSql. split_mentions.
  rewrite mentions_qName, mentions_whereSql by assumption.
  rewrite !orb_false_r, !orb_false_l, !orb_assoc.
  destruct (Js.includes "SELECT * FROM " kw), (Js.includes " " kw),
    (Js.includes "ORDER BY [" kw), (Js.includes "] " kw), (Js.includes d kw);
    reflexivity.
Qed.

(** The text of a list statement always has [ORDER BY]; it has [FETCH]
    exactly when the limit is not below zero, and [OFFSET] exactly when
    it has [FETCH] or the offset is not zero; the inputs bound with it are
    those of the clauses it has. *)
Lemma listText_clauses m req c d :
  d = "ASC" \/ d = "DESC" ->
  let limit := parseLimit (query req !! "limit") in
  let offset := parseOffset (query req !! "offset") in
  mentions "ORDER BY" (fst (listText m req c d)) = true
  /\ mentions "OFFSET" (fst (listText m req c d))
     = negb (Js.ltZero limit && Js.isZero offset)
  /\ mentions "FETCH" (fst (listText m req c d)) = negb (Js.ltZero limit)
  /\ snd (listText m req c d)
     = (if Js.ltZero limit && Js.isZero offset then []
        else {| name := "offset"; sqlType := Int; value := Some (JNum offset) |}
             :: (if Js.ltZero limit then []
                 else [{| name := "limit"; sqlType := Int;
                          value := Some (JNum limit) |}])).
Proof.
  intros Hd limit offset. unfold listText, paginate.
  pose proof (parseOffset_geZero (query req !! "offset")) as Hoff.
  fold limit. fold offset. fold offset in Hoff.
  assert (Hord : forall kw, keyword kw = true ->
            mentions kw (selectFrom m
               (whereSql (map (fun col => equalsParam (COLUMN_NAME col))
                              (filterColumns m req)))
               (orderSql c d))
            = Js.includes "SELECT * FROM " kw || Js.includes " " kw
              || Js.includes "ORDER BY [" kw || Js.includes "] " kw
              || Js.includes d kw)
    by (intros; now apply mentions_selectFrom).
  rewrite Hoff.
  destruct (Js.ltZero limit) eqn:Hl; destruct (Js.isZero offset) eqn:Ho;
    cbn [andb negb]; cbv iota; cbn [fst snd];
    rewrite ?mentions_app, !Hord by reflexivity;
    destruct Hd as [-> | ->]; repeat split; reflexivity.
Qed.

(** Text without [ORDER BY] in it does not contribute an order clause. *)
Lemma orderByOf_skip (a b : SqlText) :
  mentions "ORDER BY" a = false -> orderByOf (a ++ b) = orderByOf b.
Proof.
  induction a as [|[l|s] a IH]; intros H; [reflexivity| |].
  - rewrite mentions_lit in H. apply orb_false_iff in H as [Hl Ha].
    simpl. destruct (String.eqb_spec l "ORDER BY [") as [->|_].
    + discriminate Hl.
    + now apply IH.
  - simpl. apply IH. exact H.
Qed.

Lemma orderByOf_listText m req c d :
  d = "ASC" \/ d = "DESC" ->
  orderByOf (fst (listText m req c d)) = [(c, d)].
Proof.
  intros Hd. unfold listText, paginate, selectFrom.
  set (w := whereSql _).
  assert (Hw : mentions "ORDER BY" w = false) by (now apply mentions_whereSql).
  assert (Hpre : forall rest,
             orderByOf (Lit "SELECT * FROM " :: qName (schema m) (table m)
                          ++ Lit " " :: w ++ Lit " " :: rest) = orderByOf rest).
  { intros rest.
    change (Lit "SELECT * FROM " :: qName (schema m) (table m)
              ++ Lit " " :: w ++ Lit " " :: rest)
      with ((Lit "SELECT * FROM " :: qName (schema m) (table m))
              ++ ([Lit " "] ++ w ++ [Lit " "] ++ rest)).
    rewrite orderByOf_skip
      by (rewrite mentions_lit, mentions_qName by reflexivity; reflexivity).
    rewrite orderByOf_skip by reflexivity.
    rewrite orderByOf_skip by exact Hw.
    now rewrite orderByOf_skip by reflexivity. }
  assert (Hassoc : forall o p,
             (Lit "SELECT * FROM " :: qName (schema m) (table m)
                ++ Lit " " :: w ++ Lit " " :: o) ++ p
             = Lit "SELECT * FROM " :: qName (schema m) (table m)
                 ++ Lit " " :: w ++ Lit " " :: (o ++ p)).
  { intros o p.
    now rewrite <- app_comm_cons, <- app_assoc, <- app_comm_cons, <- app_assoc,
      <- app_comm_cons. }
  destruct (_ && _); [|destruct (_ && _)]; cbn [fst];
    rewrite ?Hassoc, Hpre; destruct Hd as [-> | ->]; reflexivity.
Qed.

(** *** Numerals *)

Lemma skipSpaces_digit c r :
  Js.isDigit c = true -> Js.skipSpaces 0 (String c r) = String c r.
Proof.
  destruct c as [[] [] [] [] [] [] [] []]; try discriminate; reflexivity.
Qed.

Lemma digit_no_sign c :
  Js.isDigit c = true -> Ascii.eqb c "-" = false /\ Ascii.eqb c "+" = false.
Proof.
  destruct c as [[] [] [] [] [] [] [] []]; try discriminate; now split.
Qed.

Lemma digits_numeral s acc :
  allDigits s = true ->
  Js.digits (Some acc) s
  = Some (acc * 10 ^ Z.of_nat (String.length s) + numeralValue s).
Proof.
  revert acc. induction s as [|c r IH]; intros acc H.
  - simpl. f_equal. lia.
  - simpl in H. apply andb_true_iff in H as [Hc Hr].
    cbn [Js.digits]. rewrite Hc. rewrite IH by exact Hr.
    cbn [numeralValue String.length default]. f_equal.
    unfold id. rewrite Nat2Z.inj_succ, Z.pow_succ_r by lia. ring.
Qed.

(** [parseInt] reads a decimal numeral as the double nearest to the
    integer it denotes. *)
Lemma parseInt_numeral s :
  isNumeral s = true -> Js.parseInt s = Js.nearestDouble (numeralValue s).
Proof.
  unfold isNumeral. destruct s as [|c r]; [discriminate|].
  cbn [String.eqb negb andb allDigits]. intros H.
  apply andb_true_iff in H as [Hc Hr].
  unfold Js.parseInt. rewrite skipSpaces_digit by exact Hc.
  destruct (digit_no_sign c Hc) as [-> ->].
  cbn [Js.digits]. rewrite Hc. cbn [default].
  rewrite digits_numeral by exact Hr. cbn [numeralValue]. f_equal; lia.
Qed.

Lemma numeralValue_nonneg s : allDigits s = true -> 0 <= numeralValue s.
Proof.
  induction s as [|c r IH]; [simpl; lia|].
  simpl. intros H. apply andb_true_iff in H as [Hc Hr].
  specialize (IH Hr).
  assert (0 <= Js.digitVal c).
  { clear -Hc. destruct c as [[] [] [] [] [] [] [] []]; try discriminate;
      vm_compute; discriminate. }
  assert (0 <= 10 ^ Z.of_nat (String.length r)) by (apply Z.pow_nonneg; lia).
  nia.
Qed.

(** The double nearest to an integer that is not negative: finite and
    not below zero, or [Infinity]. *)
Lemma nearestDouble_cases z :
  0 <= z ->
  Js.nearestDouble z = Js.Infinity false
  \/ exists v, Js.nearestDouble z = Js.Finite v 0 /\ 0 <= v.
Proof.
  intros Hz. unfold Js.nearestDouble.
  destruct (z <? 2 ^ 53); [right; eauto|].
  cbv zeta.
  match goal with |- context [if 2 ^ 1024 <=? ?v then _ else _] =>
    destruct (2 ^ 1024 <=? v); [now left|right; exists v; split; [reflexivity|]]
  end.
  apply Z.shiftl_nonneg.
  match goal with |- 0 <= (if ?b then _ else _) => destruct b end;
    pose proof (proj2 (Z.shiftr_nonneg z (Z.log2 z - 52)) Hz); lia.
Qed.

(** *** The same request without the pagination parameters *)

Lemma withPaging_filters m req l o :
  ~ In "limit" (columnNames m) -> ~ In "offset" (columnNames m) ->
  filterColumns m (withPaging req l o) = filterColumns m req
  /\ forall cols, (forall col, In col cols -> In col (columns m)) ->
       filterInputs (withPaging req l o) cols = filterInputs req cols.
Proof.
  intros Hnl Hno.
  assert (Hlook : forall col, In col (columns m) ->
            query (withPaging req l o) !! COLUMN_NAME col
            = query req !! COLUMN_NAME col).
  { intros col Hin. unfold withPaging. cbn [query]. unfold columnNames in *.
    rewrite !lookup_insert_ne; [reflexivity| |].
    - intros E. apply Hno. rewrite E. now apply List.in_map.
    - intros E. apply Hnl. rewrite E. now apply List.in_map. }
  split.
  - unfold filterColumns. apply List.filter_ext_in. intros col Hin.
    unfold supplied, hasProp. now rewrite Hlook.
  - intros cols Hcols. unfold filterInputs. apply List.map_ext_in.
    intros col Hin. unfold queryProp, prop. rewrite Hlook by auto.
    reflexivity.
Qed.

(** [limit=-1&offset=0] asks for what a request without the two
    parameters gets. *)
Lemma listHandler_unpaged driver m req :
  query req !! "limit" = None -> query req !! "offset" = None ->
  ~ In "limit" (columnNames m) -> ~ In "offset" (columnNames m) ->
  listHandler driver m (withPaging req "-1" "0") = listHandler driver m req.
Proof.
  intros Hl Ho Hnl Hno.
  destruct (withPaging_filters m req "-1" "0" Hnl Hno) as [Hfc Hfi].
  assert (Hq : listQuery m (withPaging req "-1" "0") = listQuery m req).
  { unfold listQuery. rewrite Hfc.
    rewrite Hfi
      by (intros col Hin; unfold filterColumns in Hin;
          now apply List.filter_In in Hin as [Hin _]).
    unfold withPaging. cbn [query].
    rewrite !(lookup_insert_ne _ _ "order") by discriminate.
    rewrite lookup_insert_eq.
    rewrite (lookup_insert_ne _ _ "offset") by discriminate.
    rewrite lookup_insert_eq, Hl, Ho. reflexivity. }
  unfold listHandler. now rewrite Hq.
Qed.

(** *** Pagination *)

(** C7, refuted as stated: on an object with a column called [limit], the
    request [limit=-1&offset=0] does not get the SQL of the request
    without parameters: its [limit] is read as a filter on that column
    too. *)
Lemma limit_column_filters_on_unpaged_request :
  ~ (forall driver m req,
       query req !! "limit" = None -> query req !! "offset" = None ->
       map (fun q => render (text q))
           (snd (listHandler driver m (withPaging req "-1" "0")))
       = map (fun q => render (text q)) (snd (listHandler driver m req))).
Proof.
  intros H.
  specialize (H Fixtures.emptyDriver Fixtures.quotas Fixtures.noRequest
                eq_refl eq_refl).
  vm_compute in H. discriminate H.
Qed.

Example quotas_unpaged_sql :
  (map (fun q => render (text q))
       (snd (listHandler Fixtures.emptyDriver Fixtures.quotas
               (withPaging Fixtures.noRequest "-1" "0"))),
   map (fun q => render (text q))
       (snd (listHandler Fixtures.emptyDriver Fixtures.quotas Fixtures.noRequest)))
  = (["SELECT * FROM [dbo].[Quotas] WHERE [limit] = @limit ORDER BY [Id] ASC"],
     ["SELECT * FROM [dbo].[Quotas]  ORDER BY [Id] ASC"]).
Proof. vm_compute. reflexivity. Qed.

(** On that object a limit that asks for a page is bound twice, as the
    filter and as the page size: the driver refuses the second binding
    and nothing is sent. *)
Example quotas_page_refused :
  listHandler Fixtures.emptyDriver Fixtures.quotas (withPaging Fixtures.noRequest "2" "0")
  = ({| status := 500; payload := JsonError (duplicateParameter "limit") |}, []).
Proof. vm_compute. reflexivity. Qed.

(** C7, amended: on an object with a column, and none called [limit] or
    [offset], every list request sends one statement, and
    [limit=-1&offset=0] gets the response and the statement of the same
    request without the two parameters.  On any object, every statement
    a list request sends has an [ORDER BY] clause.  It has [FETCH NEXT]
    exactly when [limit] is present and reads as a finite number that is
    not below zero, and [OFFSET] exactly when it has [FETCH NEXT] or
    [offset] is present and reads as a finite number above zero; so it
    has neither when both parameters are absent.  A [limit] that is a
    decimal numeral reads as the double nearest to the integer it denotes
    and is bound so to [@limit].  Without a pagination clause no
    pagination input is bound. *)
Theorem pagination_only_when_requested (driver : Driver) (m : TableMeta)
    (req : Request) :
  let limit := query req !! "limit" in
  let offset := query req !! "offset" in
  (columns m <> [] ->
   ~ In "limit" (columnNames m) -> ~ In "offset" (columnNames m) ->
   exists q, snd (listHandler driver m req) = [q])
  /\ (limit = None -> offset = None ->
      ~ In "limit" (columnNames m) -> ~ In "offset" (columnNames m) ->
      listHandler driver m (withPaging req "-1" "0") = listHandler driver m req)
  /\ forall q, In q (snd (listHandler driver m req)) ->
  mentions "ORDER BY" (text q) = true
  /\ (mentions "FETCH" (text q) = true
      <-> exists n, reads limit n /\ Js.ltZero n = false)
  /\ (mentions "OFFSET" (text q) = true
      <-> (exists n, reads limit n /\ Js.ltZero n = false)
          \/ (exists n, reads offset n /\ Js.ltZero n = false /\ Js.isZero n = false))
  /\ (forall n, reads limit n -> Js.ltZero n = false ->
        In {| name := "limit"; sqlType := Int; value := Some (JNum n) |} (inputs q))
  /\ (forall n, mentions "OFFSET" (text q) = true ->
        reads offset n -> Js.ltZero n = false ->
        In {| name := "offset"; sqlType := Int; value := Some (JNum n) |} (inputs q))
  /\ (forall s, limit = Some (QStr s) -> isNumeral s = true ->
        Js.isFinite (Js.nearestDouble (numeralValue s)) = true ->
        mentions "FETCH" (text q) = true
        /\ In {| name := "limit"; sqlType := Int;
                 value := Some (JNum (Js.nearestDouble (numeralValue s))) |}
              (inputs q))
  /\ (limit = None -> offset = None ->
        mentions "OFFSET" (text q) = false /\ mentions "FETCH" (text q) = false)
  /\ (mentions "OFFSET" (text q) = false ->
        inputs q = filterInputs req (filterColumns m req)).
Proof.
  intros limit offset. split; [apply listHandler_sends|].
  split; [apply listHandler_unpaged|]. intros q Hsent.
  apply listHandler_statement in Hsent.
  apply listQuery_shape in Hsent as (_ & c & d & Hc & Ht & Hi).
  pose proof (chooseOrder_catalog _ _ _ _ _ _ Hc) as (_ & _ & Hd).
  destruct (listText_clauses m req c d Hd) as (Hord & Hoff & Hfetch & Hins).
  fold limit in Hoff, Hfetch, Hins. fold offset in Hoff, Hins.
  rewrite <- Ht in Hord, Hoff, Hfetch. rewrite Hins in Hi. clear Hins.
  assert (HF : mentions "FETCH" (text q) = true
               <-> exists n, reads limit n /\ Js.ltZero n = false).
  { rewrite Hfetch, negb_true_iff. apply parseLimit_reads. }
  assert (HO : mentions "OFFSET" (text q) = true
               <-> (exists n, reads limit n /\ Js.ltZero n = false)
                   \/ (exists n, reads offset n /\ Js.ltZero n = false
                                 /\ Js.isZero n = false)).
  { rewrite Hoff, negb_true_iff, andb_false_iff.
    now rewrite parseLimit_reads, parseOffset_reads. }
  assert (HL : forall n, reads limit n -> Js.ltZero n = false ->
             In {| name := "limit"; sqlType := Int; value := Some (JNum n) |}
                (inputs q)).
  { intros n Hr Hl. rewrite Hi, (parseLimit_value _ _ Hr), Hl.
    cbn [andb]. cbv iota. apply in_or_app. right. right. now left. }
  split; [exact Hord|]. split; [exact HF|]. split; [exact HO|].
  split; [exact HL|]. split; [|split; [|split]].
  - intros n Hm Hr Hl. rewrite Hoff in Hm. apply negb_true_iff in Hm.
    rewrite Hi, Hm, (parseOffset_value _ _ Hr Hl).
    apply in_or_app. right. now left.
  - intros s Hs Hnum Hfin.
    assert (Hr : reads limit (Js.nearestDouble (numeralValue s))).
    { unfold reads. rewrite Hs. split; [eauto|].
      split; [now apply parseInt_numeral|exact Hfin]. }
    assert (Hl : Js.ltZero (Js.nearestDouble (numeralValue s)) = false).
    { unfold isNumeral in Hnum. apply andb_true_iff in Hnum as [_ Hnum].
      destruct (nearestDouble_cases _ (numeralValue_nonneg s Hnum))
        as [->|(v & -> & Hv)]; [reflexivity|].
      simpl. lia. }
    split; [apply HF; eauto|now apply HL].
  - intros Hl Ho. rewrite Hoff, Hfetch, Hl, Ho. now split.
  - intros Hm. rewrite Hoff in Hm. apply negb_false_iff in Hm.
    rewrite Hi, Hm. apply app_nil_r.
Qed.

Lemma pagination_only_when_requested_witness :
  mentions "FETCH" (text Fixtures.pageQuery) = true
  /\ In {| name := "limit"; sqlType := Int; value := Some (JNum 2) |}
        (inputs Fixtures.pageQuery).
Proof.
  refine (proj1 (proj2 (proj2 (proj2 (proj2 (proj2
           (proj2 (proj2 (pagination_only_when_requested Fixtures.emptyDriver
                            Fixtures.employees Fixtures.page))
                  Fixtures.pageQuery _))))))
           "2" eq_refl eq_refl eq_refl).
  vm_compute. left. reflexivity.
Defined.

(** The statements of the pagination scenario. *)
Example employees_list_default :
  (let '(r, _) := listQuery Fixtures.employees Fixtures.noRequest [] in
   match r with Ok query => render (text query) | Throw msg => msg end)
  = "SELECT * FROM [dbo].[Employees]  ORDER BY [Id] ASC".
Proof. vm_compute. reflexivity. Qed.

Example employees_list_no_paging :
  listQuery Fixtures.employees (withPaging Fixtures.noRequest "-1" "0") []
  = listQuery Fixtures.employees Fixtures.noRequest [].
Proof. vm_compute. reflexivity. Qed.

Example employees_list_page :
  (let '(r, _) := listQuery Fixtures.employees Fixtures.page [] in
   match r with
   | Ok query => (render (text query), map name (inputs query))
   | Throw msg => (msg, [])
   end)
  = ("SELECT * FROM [dbo].[Employees]  ORDER BY [Name] DESC OFFSET @offset ROWS FETCH NEXT @limit ROWS ONLY",
     ["offset"; "limit"]).
Proof. vm_compute. reflexivity. Qed.

(** A limit too large for a double reads as [Infinity] and is dropped
    for the default, so nothing is paginated. *)
Example employees_list_huge_limit :
  (let huge := String "1" (Js.bytes (repeat 48 309)) in
   match fst (listQuery Fixtures.employees (withPaging Fixtures.noRequest huge "0") []) with
   | Ok query => render (text query)
   | Throw msg => msg
   end)
  = "SELECT * FROM [dbo].[Employees]  ORDER BY [Id] ASC".
Proof. vm_compute. reflexivity. Qed.

(** *** Ordering *)



(** The second part of [order] is read as the direction only: a column
    named there is not ordered by. *)
Example employees_order_unknown_then_column :
  (match fst (listQuery Fixtures.employees Fixtures.unknownOrder []) with
   | Ok query => render (text query)
   | Throw msg => msg
   end)
  = "SELECT * FROM [dbo].[Employees]  ORDER BY [Id] ASC".
Proof. vm_compute. reflexivity. Qed.

End ListFacts.

(** ** The filter pattern *)

Module FilterFacts.

Import Generator.

Lemma prefix_empty s : String.prefix "" s = true.
Proof. now destruct s. Qed.

Lemma includes_dollar_cons c r :
  Js.includes (String c r) "$" = Ascii.eqb c "$" || Js.includes r "$".
Proof.
  change (Js.includes (String c r) "$")
    with ((if ascii_dec "$" c then String.prefix "" r else false)
          || Js.includes r "$").
  destruct (ascii_dec "$" c) as [<-|Hne].
  - now rewrite prefix_empty.
  - destruct (Ascii.eqb_spec c "$") as [->|_]; [now elim Hne|reflexivity].
Qed.

Lemma removeFirstDollar_app pre post :
  Js.includes pre "$" = false ->
  Js.removeFirstDollar (pre +:+ "$" +:+ post) = pre +:+ post.
Proof.
  induction pre as [|c r IH]; intros H; [reflexivity|].
  rewrite includes_dollar_cons in H. apply orb_false_iff in H as [Hc Hr].
  simpl. rewrite Hc. now rewrite IH.
Qed.

Lemma removeFirstDollar_none s :
  Js.includes s "$" = false -> Js.removeFirstDollar s = s.
Proof.
  induction s as [|c r IH]; intros H; [reflexivity|].
  rewrite includes_dollar_cons in H. apply orb_false_iff in H as [Hc Hr].
  simpl. rewrite Hc. now rewrite IH.
Qed.

Lemma stripLeadingCaret_app pre post :
  Js.stripLeadingCaret (pre +:+ "$" +:+ post)
  = Js.stripLeadingCaret pre +:+ "$" +:+ post.
Proof.
  destruct pre as [|c r]; [reflexivity|]. simpl.
  now destruct (Ascii.eqb c "^").
Qed.

Lemma stripLeadingCaret_no_dollar pre :
  Js.includes pre "$" = false -> Js.includes (Js.stripLeadingCaret pre) "$" = false.
Proof.
  destruct pre as [|c r]; [reflexivity|]. intros H. simpl Js.stripLeadingCaret.
  destruct (Ascii.eqb c "^"); [|exact H].
  rewrite includes_dollar_cons in H. now apply orb_false_iff in H as [_ Hr].
Qed.

(** A filter without a dollar sign: the leading caret goes, [%] comes. *)
Lemma sqlLike_prefix c f :
  filter c = Some f -> f <> "" -> Js.includes f "$" = false ->
  sqlLike c = Js.stripLeadingCaret f +:+ "%".
Proof.
  intros Hf Hne Hd. unfold sqlLike. rewrite Hf. simpl. unfold Js.truthy.
  destruct (String.eqb_spec f ""); [contradiction|]. simpl.
  rewrite removeFirstDollar_none; [reflexivity|].
  now apply stripLeadingCaret_no_dollar.
Qed.

(** C6 (as the code behaves): the first dollar sign of the filter is
    removed wherever it stands, at the end or in the middle of the
    pattern, and only that one; the part after it stays. *)
Theorem first_dollar_removed_anywhere (c : EndpointConfig) (pre post : string) :
  filter c = Some (pre +:+ "$" +:+ post) ->
  Js.includes pre "$" = false ->
  sqlLike c = Js.stripLeadingCaret pre +:+ post +:+ "%".
Proof.
  intros Hf Hpre. unfold sqlLike. rewrite Hf.
  assert (Ht : Js.truthyOpt (Some (pre +:+ "$" +:+ post)) = true)
    by (destruct pre; reflexivity).
  rewrite Ht. simpl default.
  rewrite stripLeadingCaret_app, removeFirstDollar_app
    by now apply stripLeadingCaret_no_dollar.
  apply JsFacts.append_assoc.
Qed.

Lemma first_dollar_removed_anywhere_witness :
  sqlLike {| endpoint := Some "nav"; filter := Some "^CRONUS$Sales" |}
  = "CRONUSSales%".
Proof.
  exact (first_dollar_removed_anywhere
           {| endpoint := Some "nav"; filter := Some "^CRONUS$Sales" |}
           "^CRONUS" "Sales" eq_refl eq_refl).
Defined.

Example sqlLike_samples :
  map (fun f => sqlLike {| endpoint := Some "mis"; filter := f |})
      [Some "^MI"; Some "^MI$"; Some "A$B"; Some "A$B$"; Some "a^b"; Some ""; None]
  = ["MI%"; "MI%"; "AB%"; "AB$%"; "a^b%"; "%%"; "%%"].
Proof. reflexivity. Qed.

End FilterFacts.

(** ** The connection supervisor and the document *)

Module ServerFacts.

Import Generator Server.

(** After the completion of a call made by [start], the paths are the
    ones of the registered schemas. *)
Lemma first_attempt_current wt st c a :
  documentCurrent (step wt st (FirstAttempt c a)).
Proof. reflexivity. Qed.

(** The completion of a call made by the retry timer leaves the paths
    as they were, whether it connected or not. *)
Lemma retry_keeps_paths wt st c a :
  paths (step wt st (RetryAttempt c a)) = paths st.
Proof.
  destruct a as [|cat registered|cat]; simpl; [reflexivity|reflexivity|].
  now destruct (setupDynamicRoutes wt cat c).
Qed.

Lemma retries_keep_paths wt c attempts st :
  paths (fold_left (step wt) (retries c attempts) st) = paths st.
Proof.
  revert st. induction attempts as [|[|cat registered|cat] rest IH]; intros st; simpl.
  - reflexivity.
  - rewrite IH. reflexivity.
  - rewrite IH. reflexivity.
  - now destruct (setupDynamicRoutes wt cat c).
Qed.

(** A target that connects at the first attempt: the document lists
    its paths. *)
Example connects_at_once wt :
  JsObject.keys (schemas (run wt Fixtures.hrAtOnce)) = ["hr_Employees"]
  /\ JsObject.keys (paths (run wt Fixtures.hrAtOnce))
     = ["/hr/Employees"; "/hr/Employees/{id}"].
Proof. destruct wt; split; reflexivity. Qed.

(** C3 (as the code behaves): a target whose first attempt fails and
    whose retry connects gets its routes registered and its schema merged
    into [components.schemas], but [buildPathsFromComponents] is not run
    after the merge: the document served afterwards has the schema and no
    path for it. *)
Theorem retry_success_leaves_paths_stale (wt : bool) :
  JsObject.keys (schemas (run wt Fixtures.hrRecovers)) = ["hr_Employees"]
  /\ map (fun r => (method r, path r)) (app (run wt Fixtures.hrRecovers))
     = [ (GET, "/hr/Employees"); (GET, "/hr/Employees/:Id");
         (POST, "/hr/Employees"); (PUT, "/hr/Employees/:Id");
         (DELETE, "/hr/Employees/:Id") ]
  /\ paths (run wt Fixtures.hrRecovers) = []
  /\ JsObject.keys (pathsOf (schemas (run wt Fixtures.hrRecovers)))
     = ["/hr/Employees"; "/hr/Employees/{id}"]
  /\ ~ documentCurrent (run wt Fixtures.hrRecovers).
Proof.
  assert (Hp : paths (run wt Fixtures.hrRecovers) = [])
    by (destruct wt; reflexivity).
  assert (Hk : JsObject.keys (pathsOf (schemas (run wt Fixtures.hrRecovers)))
               = ["/hr/Employees"; "/hr/Employees/{id}"])
    by (destruct wt; reflexivity).
  repeat split; try exact Hp; try exact Hk; try (destruct wt; reflexivity).
  unfold documentCurrent. intros E. rewrite <- E, Hp in Hk. discriminate.
Qed.

(** The same for any target and any number of failed attempts: the
    paths after the retries are the ones from before them. *)
Lemma supervised_retry_stale wt c attempts :
  paths (fold_left (step wt) (supervise c (ConnectFails :: attempts)) initial)
  = paths initial.
Proof. simpl. now rewrite retries_keep_paths. Qed.

End ServerFacts.

(** ** Handlers: statements sent and outcomes *)

Module HandlerExtras.

Import Generator Observers SqlFacts StrategyFacts ListFacts.

Lemma find_none_of_not_in m k :
  ~ In k (columnNames m) ->
  List.find (fun c => String.eqb (COLUMN_NAME c) k) (columns m) = None.
Proof.
  unfold columnNames. induction (columns m) as [|c cs IH]; [reflexivity|].
  simpl. intros H. destruct (String.eqb_spec (COLUMN_NAME c) k) as [E|_].
  - elim H. now left.
  - apply IH. intros Hin. apply H. now right.
Qed.

(** What the LIST handler does, by the outcome of building the statement. *)
Lemma listHandler_cases driver m req :
  (exists msg, listQuery m req [] = (Throw msg, [])
               /\ listHandler driver m req
                  = ({| status := 500; payload := JsonError msg |}, []))
  \/ (exists q, listQuery m req [] = (Ok q, [])
                /\ snd (listHandler driver m req) = [q]
                /\ fst (listHandler driver m req)
                   = match driver (render (text q)) (inputs q) with
                     | Ok rs => {| status := 200;
                                   payload := match head rs with
                                              | Some recordset => JsonRows recordset
                                              | None => JsonUndefined
                                              end |}
                     | Throw msg => {| status := 500; payload := JsonError msg |}
                     end).
Proof.
  pose proof (listQuery_log m req []) as Hlog.
  unfold listHandler, tryCatch, bind.
  destruct (listQuery m req []) as [[q|msg] log]; simpl in Hlog; subst log.
  - right. destruct q as [qt qi]. exists {| text := qt; inputs := qi |}.
    split; [reflexivity|]. unfold runQuery. cbn [text inputs].
    destruct (driver (render qt) qi) as [rs|msg];
      [destruct (head rs)|]; split; reflexivity.
  - left. exists msg. split; reflexivity.
Qed.

(** What a handler that binds the key column first does. *)
Lemma keyColumnType_cases m k log :
  (In k (columnNames m) /\ exists ty, keyColumnType m k log = (Ok ty, log))
  \/ (~ In k (columnNames m)
      /\ keyColumnType m k log
         = (Throw "Cannot read properties of undefined (reading 'toLowerCase')", log)).
Proof.
  unfold keyColumnType.
  destruct (List.find _ (columns m)) as [col|] eqn:E.
  - left. split; [|eauto]. apply List.find_some in E as [Hin Heq].
    apply String.eqb_eq in Heq. subst k. unfold columnNames. now apply List.in_map.
  - right. split; [|reflexivity]. intros Hin.
    unfold columnNames in Hin. apply List.in_map_iff in Hin as (c & Hc & Hin).
    apply (List.find_none _ _ E) in Hin. rewrite Hc, String.eqb_refl in Hin.
    discriminate.
Qed.

Ltac key_cases m k :=
  destruct (keyColumnType_cases m k []) as [[_ [?ty ->]] | [_ ->]].

Ltac crunch :=
  repeat match goal with
         | |- context [?d (render ?t) ?i] =>
             lazymatch type of d with
             | Driver => destruct (d (render t) i) as [?rs|?msg] eqn:?
             end
         | |- context [match updateColumns ?m ?k ?b with _ => _ end] =>
             destruct (updateColumns m k b) eqn:?
         | |- context [match head ?l with _ => _ end] =>
             destruct (head l) as [[|? ?]|] eqn:?
         end.

(** X3: a handler of either revision sends at most one statement per
    request, and when it sends none it answers 400 or 500. *)
Theorem at_most_one_statement (driver : Driver) (r : Route) (req : Request) :
  (snd (runRoute driver r req) = []
   /\ (status (fst (runRoute driver r req)) = 400
       \/ status (fst (runRoute driver r req)) = 500)
   \/ exists q, snd (runRoute driver r req) = [q])
  /\ (snd (runPlainRoute driver r req) = []
      /\ (status (fst (runPlainRoute driver r req)) = 400
          \/ status (fst (runPlainRoute driver r req)) = 500)
      \/ exists q, snd (runPlainRoute driver r req) = [q]).
Proof.
  assert (Hlist : snd (listHandler driver (meta r) req) = []
                  /\ (status (fst (listHandler driver (meta r) req)) = 400
                      \/ status (fst (listHandler driver (meta r) req)) = 500)
                  \/ exists q, snd (listHandler driver (meta r) req) = [q]).
  { destruct (listHandler_cases driver (meta r) req)
      as [(msg & _ & ->) | (q & _ & Hq & _)]; [left; simpl; auto|right; eauto]. }
  unfold runRoute, runPlainRoute.
  destruct (handler r) as [|k| |k|k]; split; try exact Hlist;
    unfold getByPkHandler, createHandler, updateHandler, deleteHandler,
      Plain.createHandler, Plain.updateHandler, Plain.deleteHandler,
      Plain.firstRowOr404, tryCatch, bind, runQuery;
    try key_cases (meta r) k; unfold ret, throw; cbv beta iota; crunch;
    simpl; eauto.
Qed.

(** X4: when the driver rejects the statement a handler sent, the
    handler answers 500 with the message of the rejection, in either
    revision. *)
Theorem driver_rejection_is_500 (driver : Driver) (r : Route) (req : Request)
    (q : Query) (msg : string) :
  driver (render (text q)) (inputs q) = Throw msg ->
  (In q (snd (runRoute driver r req)) ->
   fst (runRoute driver r req) = {| status := 500; payload := JsonError msg |})
  /\ (In q (snd (runPlainRoute driver r req)) ->
      fst (runPlainRoute driver r req) = {| status := 500; payload := JsonError msg |}).
Proof.
  intros Hd.
  assert (Hlist : In q (snd (listHandler driver (meta r) req)) ->
                  fst (listHandler driver (meta r) req)
                  = {| status := 500; payload := JsonError msg |}).
  { destruct (listHandler_cases driver (meta r) req)
      as [(m0 & _ & ->) | (q0 & _ & Hq & Hr)]; [intros []|].
    rewrite Hq, Hr. intros [->|[]]. now rewrite Hd. }
  unfold runRoute, runPlainRoute.
  destruct (handler r) as [|k| |k|k]; split; try exact Hlist;
    unfold getByPkHandler, createHandler, updateHandler, deleteHandler,
      Plain.createHandler, Plain.updateHandler, Plain.deleteHandler,
      Plain.firstRowOr404, tryCatch, bind, runQuery;
    try key_cases (meta r) k; unfold ret, throw; cbv beta iota; crunch;
    cbn [fst snd app In];
    first [ intros [<-|[]]; cbn [text inputs] in Hd; congruence | intros [] ].
Qed.

Lemma driver_rejection_is_500_witness :
  fst (runRoute Fixtures.failingDriver Fixtures.auditCreate Fixtures.noRequest)
  = {| status := 500; payload := JsonError "Violation of PRIMARY KEY constraint" |}.
Proof.
  refine (proj1 (driver_rejection_is_500 Fixtures.failingDriver Fixtures.auditCreate
                   Fixtures.noRequest _ _ eq_refl) _).
  unfold runRoute. cbn [handler Fixtures.auditCreate meta].
  rewrite createHandler_executes. left. reflexivity.
Defined.

(** X5: an object without columns and without a usable key cannot be
    listed: whatever the request, the LIST handler answers 500 with the
    [TypeError] of reading the first column, and sends nothing. *)
Theorem list_without_columns_is_500 (driver : Driver) (m : TableMeta) (req : Request) :
  columns m = [] ->
  Js.truthyOpt (head (pk m)) = false ->
  listHandler driver m req
  = ({| status := 500;
        payload := JsonError "Cannot read properties of undefined (reading 'COLUMN_NAME')" |},
     []).
Proof.
  intros Hcols Hpk.
  assert (Hd : forall log, defaultOrderColumn m log
               = (Throw "Cannot read properties of undefined (reading 'COLUMN_NAME')", log)).
  { intros log. unfold defaultOrderColumn. rewrite Hcols.
    destruct (head (pk m)) as [k|]; [|reflexivity].
    simpl in Hpk. now rewrite Hpk. }
  assert (Hc : chooseOrder m (query req !! "order") []
               = (Throw "Cannot read properties of undefined (reading 'COLUMN_NAME')", [])).
  { unfold chooseOrder, columnNames. rewrite Hcols.
    destruct (parseOrder (query req !! "order")) as [[c|] d]; simpl hasName;
      rewrite ?andb_false_r; unfold bind; rewrite Hd; reflexivity. }
  unfold listHandler, tryCatch, bind.
  rewrite (listQuery_chosen m req [] _ _ Hc). reflexivity.
Qed.

Lemma list_without_columns_is_500_witness :
  listHandler Fixtures.annDriver Fixtures.opaqueTable Fixtures.noRequest
  = ({| status := 500;
        payload := JsonError "Cannot read properties of undefined (reading 'COLUMN_NAME')" |},
     []).
Proof.
  exact (list_without_columns_is_500 Fixtures.annDriver Fixtures.opaqueTable
           Fixtures.noRequest eq_refl eq_refl).
Defined.

(** X6: when the key column of a route is not among the columns of the
    object, GET by key, UPDATE and DELETE answer 500 with the [TypeError]
    of the type mapper and send nothing, in either revision. *)
Theorem key_outside_columns_is_500 (driver : Driver) (r : Route) (req : Request)
    (k : string) :
  handler r = GetByPk k \/ handler r = Update k \/ handler r = Delete k ->
  ~ In k (columnNames (meta r)) ->
  runRoute driver r req
  = ({| status := 500;
        payload := JsonError "Cannot read properties of undefined (reading 'toLowerCase')" |},
     [])
  /\ runPlainRoute driver r req
     = ({| status := 500;
           payload := JsonError "Cannot read properties of undefined (reading 'toLowerCase')" |},
        []).
Proof.
  intros Hh Hk. unfold runRoute, runPlainRoute.
  assert (E : keyColumnType (meta r) k []
              = (Throw "Cannot read properties of undefined (reading 'toLowerCase')", []))
    by (unfold keyColumnType; now rewrite find_none_of_not_in).
  destruct Hh as [-> | [-> | ->]];
    unfold getByPkHandler, updateHandler, deleteHandler, Plain.updateHandler,
      Plain.deleteHandler, tryCatch, bind; rewrite E; split; reflexivity.
Qed.

Lemma key_outside_columns_is_500_witness :
  deleteHandler Fixtures.annDriver Fixtures.foreignKeyed "OrderId" Fixtures.noRequest
  = ({| status := 500;
        payload := JsonError "Cannot read properties of undefined (reading 'toLowerCase')" |},
     []).
Proof.
  refine (proj1 (key_outside_columns_is_500 Fixtures.annDriver
                   {| method := DELETE; path := "/hr/Orders/:OrderId";
                      handler := Delete "OrderId"; meta := Fixtures.foreignKeyed |}
                   Fixtures.noRequest "OrderId" (or_intror (or_intror eq_refl)) _)).
  vm_compute. intros [H|[H|[H|[]]]]; discriminate H.
Defined.

(** X7: CREATE does not validate and has no "not found": whenever the
    driver accepts the statement the answer is 201, and when the answer of
    the driver has no record set or its last record set has no row, the
    body is the empty object. *)
Theorem create_accepted_is_201 (driver : Driver) (m : TableMeta) (req : Request)
    (rs : list (list Row)) :
  driver (render (insertSql m (body req) (suppliedColumns m req)))
         (bodyInputs (body req) (suppliedColumns m req)) = Ok rs ->
  status (fst (createHandler driver m req)) = 201
  /\ ((rs = [] \/ exists before, rs = before ++ [[]]) ->
      fst (createHandler driver m req) = {| status := 201; payload := JsonRow [] |})
  /\ (forall before row rest, rs = before ++ [row :: rest] ->
      fst (createHandler driver m req) = {| status := 201; payload := JsonRow row |}).
Proof.
  intros Hd. unfold createHandler, tryCatch, bind, runQuery, ret.
  fold (suppliedColumns m req). rewrite Hd. cbn [fst status].
  split; [reflexivity|]. split.
  - intros [-> | [before ->]]; [reflexivity|].
    unfold lastRecordset. now rewrite last_snoc.
  - intros before row rest ->. unfold lastRecordset. now rewrite last_snoc.
Qed.

Lemma create_accepted_is_201_witness :
  fst (createHandler Fixtures.emptyDriver Fixtures.employees Fixtures.noRequest)
  = {| status := 201; payload := JsonRow [] |}.
Proof.
  refine (proj1 (proj2 (create_accepted_is_201 Fixtures.emptyDriver Fixtures.employees
                          Fixtures.noRequest [[]] eq_refl)) _).
  right. exists []. reflexivity.
Defined.

(** X8: DELETE by key, for a key that is a column of the table: one
    statement is sent, with the key bound to the path parameter as its
    only input; the answer is 200 with the first row of the last record
    set, and 404 when there is no record set or the last one is empty. *)
Theorem delete_outcomes (driver : Driver) (m : TableMeta) (k : string)
    (req : Request) :
  In k (columnNames m) ->
  exists ty,
    snd (deleteHandler driver m k req)
    = [ {| text := deleteSql m k; inputs := [keyInput k ty req] |} ]
    /\ forall rs,
         driver (render (deleteSql m k)) [keyInput k ty req] = Ok rs ->
         (forall before row rest, rs = before ++ [row :: rest] ->
            fst (deleteHandler driver m k req)
            = {| status := 200; payload := JsonRow row |})
         /\ ((rs = [] \/ exists before, rs = before ++ [[]]) ->
             fst (deleteHandler driver m k req)
             = {| status := 404; payload := NoBody |}).
Proof.
  intros Hk.
  destruct (keyColumnType_cases m k []) as [[_ [ty E]] | [Hn _]]; [|contradiction].
  exists ty. unfold deleteHandler, tryCatch, bind, runQuery. rewrite E.
  split.
  - destruct (driver _ _); reflexivity.
  - intros rs Hd. rewrite Hd. unfold ret. cbn [fst]. split.
    + intros before row rest ->. unfold lastRecordset. now rewrite last_snoc.
    + intros [-> | [before ->]]; [reflexivity|].
      unfold lastRecordset. now rewrite last_snoc.
Qed.

Lemma delete_outcomes_witness :
  exists ty,
    snd (deleteHandler Fixtures.emptyDriver Fixtures.employees "Id" Fixtures.bobUpdate)
    = [ {| text := deleteSql Fixtures.employees "Id";
           inputs := [keyInput "Id" ty Fixtures.bobUpdate] |} ].
Proof.
  destruct (delete_outcomes Fixtures.emptyDriver Fixtures.employees "Id"
              Fixtures.bobUpdate) as (ty & Hlog & _); [left; reflexivity|].
  exists ty. exact Hlog.
Defined.

(** X9: GET by key, for a key that is a column of the object: the
    statement selects by the key bound to the path parameter; the answer
    is 200 with the first row of the first record set, 404 when that
    record set is empty, and 500 when the driver returns no record set. *)
Theorem get_by_key_outcomes (driver : Driver) (m : TableMeta) (k : string)
    (req : Request) :
  In k (columnNames m) ->
  exists q,
    snd (getByPkHandler driver m k req) = [q]
    /\ render (text q)
       = "SELECT * FROM [" +:+ schema m +:+ "].[" +:+ table m +:+ "] WHERE ["
         +:+ k +:+ "] = @" +:+ k
    /\ map (fun i => (name i, value i)) (inputs q) = [(k, JStr <$> params req !! k)]
    /\ forall rs,
         driver (render (text q)) (inputs q) = Ok rs ->
         (forall row rest others, rs = (row :: rest) :: others ->
            fst (getByPkHandler driver m k req)
            = {| status := 200; payload := JsonRow row |})
         /\ (forall others, rs = [] :: others ->
               fst (getByPkHandler driver m k req)
               = {| status := 404; payload := NoBody |})
         /\ (rs = [] ->
             status (fst (getByPkHandler driver m k req)) = 500).
Proof.
  intros Hk.
  destruct (keyColumnType_cases m k []) as [[_ [ty E]] | [Hn _]]; [|contradiction].
  eexists. unfold getByPkHandler, tryCatch, bind, runQuery. rewrite E.
  split; [|split; [|split]].
  - destruct (driver _ _) as [rs|msg]; [destruct (head rs) as [[|? ?]|]|];
      reflexivity.
  - transitivity ("SELECT * FROM [" +:+ schema m +:+ "].[" +:+ table m
                  +:+ "] WHERE [" +:+ k +:+ "] = @" +:+ k +:+ "");
      [reflexivity|]. now rewrite JsFacts.append_empty_r.
  - reflexivity.
  - intros rs Hd. cbn [text inputs] in Hd. rewrite Hd. repeat split.
    + intros row rest others ->. reflexivity.
    + intros others ->. reflexivity.
    + intros ->. reflexivity.
Qed.

Lemma get_by_key_outcomes_witness :
  exists q,
    snd (getByPkHandler Fixtures.annDriver Fixtures.employees "Id" Fixtures.bobUpdate)
    = [q]
    /\ render (text q) = "SELECT * FROM [dbo].[Employees] WHERE [Id] = @Id".
Proof.
  destruct (get_by_key_outcomes Fixtures.annDriver Fixtures.employees "Id"
              Fixtures.bobUpdate) as (q & Hlog & Hr & _); [left; reflexivity|].
  exists q. split; [exact Hlog|]. rewrite Hr. reflexivity.
Defined.

End HandlerExtras.

(** ** Statements: what they contain and where their pieces come from *)

Module StatementExtras.

Import Generator Observers SqlFacts StrategyFacts HandlerExtras.

Lemma insertSql_without_trigger m b cols :
  hasTriggers m = false -> insertSql m b cols = Plain.insertSql m cols.
Proof.
  intros H. cbv beta zeta delta [insertSql insertStrategy]. now rewrite H.
Qed.

Lemma updateSql_without_trigger m k sets :
  hasTriggers m = false -> updateSql m k sets = Plain.updateSql m k sets.
Proof.
  intros H. cbv beta zeta delta [updateSql updateStrategy]. now rewrite H.
Qed.

Lemma deleteSql_without_trigger m k :
  hasTriggers m = false -> deleteSql m k = Plain.deleteSql m k.
Proof.
  intros H. cbv beta zeta delta [deleteSql deleteStrategy]. now rewrite H.
Qed.

(** X10: on an object without an enabled trigger the revision with
    trigger handling sends, for every route and request, the statements
    of the older revision; and it gives the same answer whenever the
    driver rejects or returns exactly one record set with a row. *)
Theorem without_trigger_same_as_older_revision (driver : Driver) (r : Route)
    (req : Request) :
  hasTriggers (meta r) = false ->
  snd (runRoute driver r req) = snd (runPlainRoute driver r req)
  /\ ((forall s i rs, driver s i = Ok rs -> exists row rest, rs = [row :: rest]) ->
      fst (runRoute driver r req) = fst (runPlainRoute driver r req)).
Proof.
  intros Ht. unfold runRoute, runPlainRoute.
  destruct (handler r) as [|k| |k|k]; try (split; reflexivity).
  - unfold createHandler, Plain.createHandler, tryCatch, bind, runQuery.
    rewrite insertSql_without_trigger by exact Ht.
    destruct (driver _ _) as [rs|msg] eqn:Hd; [|split; reflexivity].
    split; [destruct (head rs) as [[|? ?]|]; reflexivity|].
    intros Hone. destruct (Hone _ _ _ Hd) as (row & rest & ->). reflexivity.
  - unfold updateHandler, Plain.updateHandler, Plain.firstRowOr404, tryCatch,
      bind, runQuery.
    key_cases (meta r) k; [|split; reflexivity].
    destruct (updateColumns (meta r) k (body req)) as [|c cs] eqn:Hs;
      [split; reflexivity|].
    rewrite updateSql_without_trigger by exact Ht.
    destruct (driver _ _) as [rs|msg] eqn:Hd; [|split; reflexivity].
    split; [destruct (head rs) as [[|? ?]|]; reflexivity|].
    intros Hone. destruct (Hone _ _ _ Hd) as (row & rest & ->). reflexivity.
  - unfold deleteHandler, Plain.deleteHandler, Plain.firstRowOr404, tryCatch,
      bind, runQuery.
    key_cases (meta r) k; [|split; reflexivity].
    rewrite deleteSql_without_trigger by exact Ht.
    destruct (driver _ _) as [rs|msg] eqn:Hd; [|split; reflexivity].
    split; [destruct (head rs) as [[|? ?]|]; reflexivity|].
    intros Hone. destruct (Hone _ _ _ Hd) as (row & rest & ->). reflexivity.
Qed.

Lemma without_trigger_same_as_older_revision_witness :
  runRoute Fixtures.annDriver
    {| method := PUT; path := "/hr/Employees/:Id"; handler := Update "Id";
       meta := Fixtures.employees |} Fixtures.bobUpdate
  = runPlainRoute Fixtures.annDriver
      {| method := PUT; path := "/hr/Employees/:Id"; handler := Update "Id";
         meta := Fixtures.employees |} Fixtures.bobUpdate.
Proof.
  destruct (without_trigger_same_as_older_revision Fixtures.annDriver
              {| method := PUT; path := "/hr/Employees/:Id"; handler := Update "Id";
                 meta := Fixtures.employees |} Fixtures.bobUpdate eq_refl)
    as [Hlog Hresp].
  rewrite (surjective_pairing (runRoute _ _ _)),
    (surjective_pairing (runPlainRoute _ _ _)).
  rewrite Hlog, Hresp; [reflexivity|].
  intros s i rs [= <-]. eauto.
Defined.

(** The statement a LIST request sends, when it sends one. *)
Lemma listHandler_shape driver m req q :
  In q (snd (listHandler driver m req)) ->
  exists c d,
    text q = fst (listText m req c d)
    /\ inputs q = filterInputs req (filterColumns m req)
                    ++ snd (listText m req c d)
    /\ (In c (columnNames m) \/ head (pk m) = Some c)
    /\ (d = "ASC" \/ d = "DESC").
Proof.
  intros Hq. apply ListFacts.listHandler_statement in Hq.
  apply ListFacts.listQuery_shape in Hq as (_ & c & d & Hc & Ht & Hi).
  pose proof (ListFacts.chooseOrder_catalog _ _ _ _ _ _ Hc) as (_ & Hcat & Hd).
  exists c, d. repeat split; assumption.
Qed.

Lemma getByPkHandler_statement driver m k req q :
  In q (snd (getByPkHandler driver m k req)) ->
  text q = Lit "SELECT * FROM " :: qName (schema m) (table m)
             ++ Lit " WHERE " :: equalsParam k.
Proof.
  unfold getByPkHandler, tryCatch, bind, runQuery.
  key_cases m k; [|intros []].
  destruct (driver _ _) as [rs|msg]; [destruct (head rs) as [[|? ?]|]|];
    intros [<-|[]]; reflexivity.
Qed.

Lemma mentions_listText kw m q c d :
  keyword kw = true ->
  d = "ASC" \/ d = "DESC" ->
  Js.includes "SELECT * FROM " kw = false -> Js.includes " " kw = false ->
  Js.includes "ORDER BY [" kw = false -> Js.includes "] " kw = false ->
  Js.includes "ASC" kw = false -> Js.includes "DESC" kw = false ->
  Js.includes " OFFSET @offset ROWS FETCH NEXT @limit ROWS ONLY" kw = false ->
  Js.includes " OFFSET @offset ROWS" kw = false ->
  mentions kw (fst (listText m q c d)) = false.
Proof.
  intros Hkw Hd H1 H2 H3 H4 H5 H6 H7 H8. unfold listText, paginate.
  assert (Hcore : mentions kw (selectFrom m
             (whereSql (map (fun col => equalsParam (COLUMN_NAME col))
                            (filterColumns m q)))
             (orderSql c d)) = false).
  { rewrite ListFacts.mentions_selectFrom by exact Hkw.
    rewrite H1, H2, H3, H4. destruct Hd as [-> | ->]; [now rewrite H5|now rewrite H6]. }
  destruct (_ && _); [|destruct (_ && _)]; cbn [fst];
    rewrite ?mentions_app, Hcore, ?mentions_lit, ?mentions_nil, ?H7, ?H8;
    reflexivity.
Qed.

(** X11: the LIST and GET-by-key handlers only read: no statement they
    send has [INSERT], [UPDATE], [DELETE], [DROP] or [INTO] in its fixed
    text, and each starts with [SELECT * FROM]. *)
Theorem read_routes_only_select (driver : Driver) (r : Route) (req : Request)
    (q : Query) :
  handler r = ListRows \/ (exists k, handler r = GetByPk k) ->
  In q (snd (runRoute driver r req)) ->
  head (text q) = Some (Lit "SELECT * FROM ")
  /\ mentions "INSERT" (text q) = false
  /\ mentions "UPDATE" (text q) = false
  /\ mentions "DELETE" (text q) = false
  /\ mentions "DROP" (text q) = false
  /\ mentions "INTO" (text q) = false.
Proof.
  intros Hh Hq. unfold runRoute in Hq.
  destruct Hh as [Hh | [k Hh]]; rewrite Hh in Hq.
  - apply listHandler_shape in Hq as (c & d & Ht & _ & _ & Hd).
    rewrite Ht. split.
    + unfold listText, paginate. destruct (_ && _); [|destruct (_ && _)]; reflexivity.
    + repeat split; apply mentions_listText; auto.
  - apply getByPkHandler_statement in Hq. rewrite Hq.
    split; [reflexivity|]. repeat split; eval_mentions.
Qed.

Lemma read_routes_only_select_witness :
  mentions "DELETE"
    (Lit "SELECT * FROM " :: qName "dbo" "Employees" ++ Lit " WHERE " :: equalsParam "Id")
  = false.
Proof.
  refine (proj1 (proj2 (proj2 (proj2
            (read_routes_only_select Fixtures.annDriver
               {| method := GET; path := "/hr/Employees/:Id"; handler := GetByPk "Id";
                  meta := Fixtures.employees |} Fixtures.bobUpdate
               {| text := Lit "SELECT * FROM " :: qName "dbo" "Employees"
                            ++ Lit " WHERE " :: equalsParam "Id";
                  inputs := [keyInput "Id" Int Fixtures.bobUpdate] |}
               (or_intror (ex_intro _ "Id" eq_refl)) _))))).
  vm_compute. left. reflexivity.
Defined.

Lemma interpolated_app (a b : SqlText) :
  interpolated (a ++ b) = interpolated a ++ interpolated b.
Proof. unfold interpolated. apply flat_map_app. Qed.

Lemma interpolated_nil : interpolated [] = [].
Proof. reflexivity. Qed.

Lemma interpolated_lit s (t : SqlText) : interpolated (Lit s :: t) = interpolated t.
Proof. reflexivity. Qed.

Lemma interpolated_interp s (t : SqlText) :
  interpolated (Interp s :: t) = s :: interpolated t.
Proof. reflexivity. Qed.

Lemma interpolated_join x sep (xs : list SqlText) :
  In x (interpolated (Sql.join sep xs)) ->
  exists y, In y xs /\ In x (interpolated y).
Proof.
  induction xs as [|y ys IH]; [intros []|].
  destruct ys as [|z zs].
  - intros H. exists y. split; [now left|exact H].
  - change (Sql.join sep (y :: z :: zs)) with (y ++ Lit sep :: Sql.join sep (z :: zs)).
    rewrite interpolated_app, interpolated_lit, in_app_iff. intros [H|H].
    + exists y. split; [now left|exact H].
    + destruct (IH H) as (w & Hw & Hx). exists w. split; [now right|exact Hx].
Qed.

Section Provenance.
Variable m : TableMeta.

Lemma fromCatalog_column c : In c (columns m) -> fromCatalog m (COLUMN_NAME c).
Proof.
  intros H. right. right. left. unfold columnNames. now apply List.in_map.
Qed.

Lemma catalog_qName x :
  In x (interpolated (qName (schema m) (table m))) -> fromCatalog m x.
Proof. unfold fromCatalog. simpl. intuition. Qed.

Lemma catalog_equalsParam k x :
  fromCatalog m k -> In x (interpolated (equalsParam k)) -> fromCatalog m x.
Proof. simpl. intros Hk [<-|[<-|[]]]; exact Hk. Qed.

Lemma catalog_items (f : Column -> SqlText) sep cols x :
  (forall c, In c cols -> In c (columns m)) ->
  (forall c y, In c (columns m) -> In y (interpolated (f c)) -> fromCatalog m y) ->
  In x (interpolated (Sql.join sep (map f cols))) -> fromCatalog m x.
Proof.
  intros Hsub Hf Hx. apply interpolated_join in Hx as (y & Hy & Hx).
  apply List.in_map_iff in Hy as (c & <- & Hc). eapply Hf; eauto.
Qed.

Lemma catalog_cols cols x :
  (forall c, In c cols -> In c (columns m)) ->
  In x (interpolated (Sql.join "," (colsOf cols))) -> fromCatalog m x.
Proof.
  intros Hsub. apply catalog_items; [exact Hsub|].
  intros c y Hc [<-|[]]. now apply fromCatalog_column.
Qed.

Lemma catalog_vals cols x :
  (forall c, In c cols -> In c (columns m)) ->
  In x (interpolated (Sql.join "," (valsOf cols))) -> fromCatalog m x.
Proof.
  intros Hsub. apply catalog_items; [exact Hsub|].
  intros c y Hc [<-|[]]. now apply fromCatalog_column.
Qed.

Lemma catalog_sets sep cols x :
  (forall c, In c cols -> In c (columns m)) ->
  In x (interpolated (Sql.join sep (setsOf cols))) -> fromCatalog m x.
Proof.
  intros Hsub. apply catalog_items; [exact Hsub|].
  intros c y Hc. apply catalog_equalsParam. now apply fromCatalog_column.
Qed.

Lemma catalog_outSelect x :
  In x (interpolated (outSelect m)) -> fromCatalog m x.
Proof.
  apply catalog_items; [auto|].
  intros c y Hc.
  destruct (match identity m with
            | Some i => String.eqb (COLUMN_NAME c) i
            | None => false
            end); simpl; intros H; intuition; subst;
    now apply fromCatalog_column.
Qed.

Lemma supplied_columns_sub {V} (b : gmap string V) c :
  In c (List.filter (supplied true b) (columns m)) -> In c (columns m).
Proof. intros H. now apply List.filter_In in H. Qed.

Lemma update_columns_sub k b c :
  In c (updateColumns m k b) -> In c (columns m).
Proof. intros H. unfold updateColumns in H. now apply List.filter_In in H. Qed.

(** Breaking [In x (interpolated statement)] into its parts. *)
Ltac provenance :=
  repeat (rewrite interpolated_app in * || rewrite interpolated_lit in *
          || rewrite interpolated_interp in * || rewrite interpolated_nil in *
          || rewrite in_app_iff in *);
  repeat match goal with
         | H : _ \/ _ |- _ => destruct H as [H|H]
         | H : In _ (_ :: _) |- _ => destruct H as [H|H]
         | H : In _ [] |- _ => destruct H
         end.

Lemma catalog_listText q c d x :
  In c (columnNames m) \/ head (pk m) = Some c ->
  In x (interpolated (fst (listText m q c d))) -> fromCatalog m x.
Proof.
  intros Hc. unfold listText, paginate, selectFrom, orderSql, whereSql.
  assert (Hw : forall y,
             In y (interpolated
                     match map (fun col => equalsParam (COLUMN_NAME col))
                               (filterColumns m q) with
                     | [] => []
                     | _ :: _ => Lit "WHERE "
                                 :: Sql.join " AND "
                                      (map (fun col => equalsParam (COLUMN_NAME col))
                                           (filterColumns m q))
                     end) -> fromCatalog m y).
  { intros y. destruct (map _ (filterColumns m q)) eqn:E; [intros []|]. rewrite <- E.
    rewrite interpolated_lit.
    apply (catalog_sets " AND " (filterColumns m q)).
    intros c0 H0. unfold filterColumns in H0. now apply List.filter_In in H0. }
  assert (Hcc : fromCatalog m c)
    by (destruct Hc; [right; right; now left | right; right; right; now left]).
  destruct (_ && _); [|destruct (_ && _)]; cbn [fst]; intros Hx; provenance;
    subst; auto using catalog_qName.
Qed.

Lemma catalog_insertSql b k x :
  head (pk m) = Some k ->
  In x (interpolated (insertSql m b (List.filter (supplied true b) (columns m)))) ->
  fromCatalog m x.
Proof.
  intros Hk. cbv beta zeta delta [insertSql stagingPrologue].
  assert (Hkc : fromCatalog m (propertyKey (head (pk m))))
    by (rewrite Hk; right; right; right; now left).
  destruct (insertStrategy m b) eqn:Hs; intros Hx; provenance; subst;
    eauto using catalog_qName, catalog_cols, catalog_vals, catalog_outSelect,
      supplied_columns_sub.
  unfold insertStrategy in Hs. unfold fromCatalog.
  destruct (hasTriggers m); [|discriminate].
  destruct (identity m) as [i|].
  - simpl. auto 6.
  - simpl in Hs. destruct (hasProp _ _ _); discriminate.
Qed.

Lemma catalog_plain_insertSql (b : gmap string JsValue) x :
  In x (interpolated (Plain.insertSql m (List.filter (supplied true b) (columns m)))) ->
  fromCatalog m x.
Proof.
  unfold Plain.insertSql. intros Hx; provenance; subst;
    eauto using catalog_qName, catalog_cols, catalog_vals,
      supplied_columns_sub.
Qed.

Lemma catalog_updateSql k b x :
  head (pk m) = Some k ->
  In x (interpolated (updateSql m k (updateColumns m k b)))
  \/ In x (interpolated (Plain.updateSql m k (updateColumns m k b))) ->
  fromCatalog m x.
Proof.
  intros Hk.
  assert (Hkc : fromCatalog m k) by (right; right; right; now left).
  cbv beta zeta delta [updateSql Plain.updateSql].
  destruct (updateStrategy m); intros [Hx|Hx]; provenance; subst;
    eauto using catalog_qName, catalog_sets, catalog_equalsParam, update_columns_sub.
Qed.

Lemma catalog_deleteSql k x :
  head (pk m) = Some k ->
  In x (interpolated (deleteSql m k)) \/ In x (interpolated (Plain.deleteSql m k)) ->
  fromCatalog m x.
Proof.
  intros Hk.
  assert (Hkc : fromCatalog m k) by (right; right; right; now left).
  cbv beta zeta delta [deleteSql Plain.deleteSql stagingPrologue].
  destruct (deleteStrategy m); intros [Hx|Hx]; provenance; subst;
    eauto using catalog_qName, catalog_outSelect, catalog_equalsParam.
Qed.
End Provenance.

Lemma plain_createHandler_statement driver m req q :
  In q (snd (Plain.createHandler driver m req)) ->
  text q = Plain.insertSql m (List.filter (supplied true (body req)) (columns m)).
Proof.
  unfold Plain.createHandler, tryCatch, bind, runQuery.
  destruct (driver _ _) as [rs|msg]; [destruct (head rs) as [[|? ?]|]|];
    intros [<-|[]]; reflexivity.
Qed.

Lemma plain_deleteHandler_statement driver m k req q :
  In q (snd (Plain.deleteHandler driver m k req)) -> text q = Plain.deleteSql m k.
Proof.
  unfold Plain.deleteHandler, Plain.firstRowOr404, tryCatch, bind, runQuery.
  key_cases m k; [|intros []].
  destruct (driver _ _) as [rs|msg]; [destruct (head rs) as [[|? ?]|]|];
    intros [<-|[]]; reflexivity.
Qed.

(** The key a registered route closes over is the first key column. *)
Lemma registerRoutes_key m ep r :
  In r (registerRoutes m ep) ->
  meta r = m
  /\ match handler r with
     | GetByPk k | Update k | Delete k => head (pk m) = Some k
     | Create => exists k, head (pk m) = Some k
     | ListRows => True
     end.
Proof.
  unfold registerRoutes. intros [<-|Hin]; [split; [reflexivity|exact I]|].
  destruct (head (pk m)) as [k|]; [|destruct Hin].
  destruct (negb (isView m) && Js.truthy k); [|destruct Hin].
  simpl in Hin. destruct Hin as [<-|[<-|[<-|[<-|[]]]]]; simpl; eauto.
Qed.

(** X12: every value interpolated into a statement that a registered
    route sends, in either revision, is the schema name, the table name, a
    column name, the first key column or the identity column of the
    object: text of the request reaches a statement only as a bound
    input, or as a column name that the catalog also has. *)
Theorem identifiers_come_from_catalog (driver : Driver) (m : TableMeta)
    (ep : string) (r : Route) (req : Request) (q : Query) (x : string) :
  In r (registerRoutes m ep) ->
  In q (snd (runRoute driver r req)) \/ In q (snd (runPlainRoute driver r req)) ->
  In x (interpolated (text q)) ->
  fromCatalog m x.
Proof.
  intros Hr Hq Hx. apply registerRoutes_key in Hr as [Hm Hk].
  unfold runRoute, runPlainRoute in Hq. rewrite Hm in Hq.
  destruct (handler r) as [|k| |k|k].
  - assert (Hq' : In q (snd (listHandler driver m req))) by tauto.
    apply listHandler_shape in Hq' as (c & d & Ht & _ & Hc & _).
    rewrite Ht in Hx. eapply catalog_listText; eauto.
  - assert (Hq' : In q (snd (getByPkHandler driver m k req))) by tauto.
    apply getByPkHandler_statement in Hq'. rewrite Hq' in Hx.
    rewrite interpolated_lit, interpolated_app, interpolated_lit, in_app_iff in Hx.
    destruct Hx as [Hx|Hx]; [now apply catalog_qName|].
    eapply catalog_equalsParam; [|exact Hx]. right. right. right. now left.
  - destruct Hk as [k Hk]. destruct Hq as [Hq|Hq].
    + rewrite createHandler_executes in Hq. destruct Hq as [<-|[]].
      cbn [text] in Hx. eapply catalog_insertSql; eauto.
    + apply plain_createHandler_statement in Hq. rewrite Hq in Hx.
      eapply catalog_plain_insertSql; eauto.
  - destruct Hq as [Hq|Hq].
    + apply updateHandler_executes in Hq as (_ & ty & ->). cbn [text] in Hx.
      eapply catalog_updateSql; eauto.
    + apply plain_updateHandler_executes in Hq as (_ & ty & ->). cbn [text] in Hx.
      eapply catalog_updateSql; eauto.
  - destruct Hq as [Hq|Hq].
    + apply deleteHandler_executes in Hq. rewrite Hq in Hx.
      eapply catalog_deleteSql; eauto.
    + apply plain_deleteHandler_statement in Hq. rewrite Hq in Hx.
      eapply catalog_deleteSql; eauto.
Qed.

Lemma identifiers_come_from_catalog_witness :
  fromCatalog Fixtures.employees "Name".
Proof.
  refine (identifiers_come_from_catalog Fixtures.annDriver Fixtures.employees "hr"
            Fixtures.employeesPut Fixtures.bobUpdate Fixtures.bobUpdateQuery "Name"
            _ _ _).
  - vm_compute. right. right. right. left. reflexivity.
  - left. vm_compute. left. reflexivity.
  - vm_compute. right. right. left. reflexivity.
Defined.

(** Scanning list items of the shape [[c] = @c] with any separator. *)
Lemma identifiersIn_items opens closes inside sep cols rest :
  opens "[" = false -> closes "[" = false ->
  opens "] = @" = false -> closes "] = @" = false ->
  opens sep = false -> closes sep = false ->
  identifiersIn opens closes inside (Sql.join sep (setsOf cols) ++ rest) =
  (if inside
   then flat_map (fun col => [COLUMN_NAME col; COLUMN_NAME col]) cols
   else [])
    ++ identifiersIn opens closes inside rest.
Proof.
  intros O1 C1 O2 C2 O3 C3.
  induction cols as [|c cs IH]; [now destruct inside|].
  destruct cs as [|c' cs'].
  - change (Sql.join sep (setsOf [c])) with (equalsParam (COLUMN_NAME c)).
    rewrite UpdateFacts.identifiersIn_equalsParam by assumption. now destruct inside.
  - change (Sql.join sep (setsOf (c :: c' :: cs')))
      with (equalsParam (COLUMN_NAME c) ++ Lit sep :: Sql.join sep (setsOf (c' :: cs'))).
    remember (Sql.join sep (setsOf (c' :: cs'))) as tail eqn:Etail.
    rewrite <- app_assoc, UpdateFacts.identifiersIn_equalsParam by assumption.
    change ((Lit sep :: tail) ++ rest) with (Lit sep :: tail ++ rest).
    change (identifiersIn opens closes inside (Lit sep :: tail ++ rest))
      with (identifiersIn opens closes
              (if opens sep then true else if closes sep then false else inside)
              (tail ++ rest)).
    rewrite O3, C3, IH. now destruct inside.
Qed.

Lemma filterClause_listText m q c d :
  d = "ASC" \/ d = "DESC" ->
  filterClause (fst (listText m q c d))
  = flat_map (fun col => [COLUMN_NAME col; COLUMN_NAME col]) (filterColumns m q).
Proof.
  intros Hd. unfold filterClause, listText, paginate, selectFrom, orderSql, whereSql, qName.
  fold (setsOf (filterColumns m q)).
  assert (Htail : forall paging,
             paging = [] \/ paging = [Lit " OFFSET @offset ROWS"]
             \/ paging = [Lit " OFFSET @offset ROWS FETCH NEXT @limit ROWS ONLY"] ->
             forall inside,
               identifiersIn (fun l => String.eqb l "WHERE ")
                 (fun l => Js.includes l "ORDER BY") inside
                 (Lit " " :: [Lit "ORDER BY ["; Interp c; Lit "] "; Lit d] ++ paging)
               = []).
  { intros paging Hp inside.
    destruct Hd as [-> | ->]; destruct Hp as [-> | [-> | ->]]; reflexivity. }
  assert (Hgoal : forall paging,
             paging = [] \/ paging = [Lit " OFFSET @offset ROWS"]
             \/ paging = [Lit " OFFSET @offset ROWS FETCH NEXT @limit ROWS ONLY"] ->
             identifiersIn (fun l => String.eqb l "WHERE ")
               (fun l => Js.includes l "ORDER BY") false
               ((Lit "SELECT * FROM "
                   :: [Lit "["; Interp (schema m); Lit "].["; Interp (table m); Lit "]"]
                   ++ Lit " "
                   :: match setsOf (filterColumns m q) with
                      | [] => []
                      | _ :: _ => Lit "WHERE " :: Sql.join " AND " (setsOf (filterColumns m q))
                      end ++ Lit " " :: [Lit "ORDER BY ["; Interp c; Lit "] "; Lit d])
                  ++ paging)
             = flat_map (fun col => [COLUMN_NAME col; COLUMN_NAME col])
                        (filterColumns m q)).
  { intros paging Hp. cbn [app identifiersIn]. cbv beta.
    change (String.eqb "SELECT * FROM " "WHERE ") with false.
    change (Js.includes "SELECT * FROM " "ORDER BY") with false.
    change (String.eqb "[" "WHERE ") with false.
    change (Js.includes "[" "ORDER BY") with false.
    change (String.eqb "].[" "WHERE ") with false.
    change (Js.includes "].[" "ORDER BY") with false.
    change (String.eqb "]" "WHERE ") with false.
    change (Js.includes "]" "ORDER BY") with false.
    change (String.eqb " " "WHERE ") with false.
    change (Js.includes " " "ORDER BY") with false.
    cbv iota.
    destruct (setsOf (filterColumns m q)) as [|s0 ss] eqn:Es.
    - assert (filterColumns m q = []) as ->
        by (unfold setsOf in Es; now apply map_eq_nil in Es).
      cbn [app]. apply (Htail paging Hp).
    - rewrite <- Es. rewrite <- app_assoc. cbn [app identifiersIn]. cbv beta.
      change (String.eqb "WHERE " "WHERE ") with true. cbv iota.
      rewrite identifiersIn_items by reflexivity.
      pose proof (Htail paging Hp true) as E. cbn [app] in E.
      rewrite E. apply app_nil_r. }
  destruct (_ && _); [|destruct (_ && _)]; cbn [fst].
  - rewrite <- (app_nil_r (Lit "SELECT * FROM " :: _)). apply Hgoal. now left.
  - apply Hgoal. right. now left.
  - apply Hgoal. right. now right.
Qed.

(** X13: the filter predicates of a list statement are exactly the
    columns [c] of the object for which [req.query[c]] is not
    [undefined]: those the query string has a parameter for and, when the
    query object inherits from [Object.prototype], those called like a
    member of it.  Parameters that name no column are ignored, and every
    such column is bound as an input with the value [req.query[c]]: the
    text of the parameter, an array for a repeated one, an object for a
    bracketed one, the inherited member otherwise. *)
Theorem list_filters_known_columns (driver : Driver) (m : TableMeta)
    (req : Request) (q : Query) :
  In q (snd (listHandler driver m req)) ->
  (forall x, In x (filterClause (text q))
             <-> In x (columnNames m) /\ is_Some (queryProp req x))
  /\ (forall x, In x (filterClause (text q))
                <-> In x (columnNames m)
                    /\ (is_Some (query req !! x)
                        \/ (queryInherits req = true /\ inherited x = true)))
  /\ (forall x, In x (columnNames m) -> is_Some (queryProp req x) ->
        exists i, In i (inputs q) /\ name i = x /\ value i = queryProp req x)
  /\ (forall x v, In x (columnNames m) -> query req !! x = Some v ->
        exists i, In i (inputs q) /\ name i = x /\ value i = Some (ofQuery v))
  /\ (forall x, In x (columnNames m) -> query req !! x = None ->
        queryInherits req = true -> inherited x = true ->
        exists i, In i (inputs q) /\ name i = x /\ value i = Some (JInherited x)).
Proof.
  intros Hq. apply listHandler_shape in Hq as (c & d & Ht & Hi & _ & Hd).
  rewrite Ht, Hi, filterClause_listText by exact Hd.
  assert (Hclause : forall x,
            In x (flat_map (fun col => [COLUMN_NAME col; COLUMN_NAME col])
                    (filterColumns m req))
            <-> In x (columnNames m) /\ is_Some (queryProp req x)).
  { intros x. rewrite in_flat_map. split.
    - intros (col & Hcol & Hx). unfold filterColumns in Hcol.
      apply List.filter_In in Hcol as [Hcol Hs].
      unfold supplied in Hs. apply JsFacts.hasProp_is_Some with (inj := ofQuery) in Hs.
      assert (x = COLUMN_NAME col) as -> by (simpl in Hx; intuition).
      split; [unfold columnNames; now apply List.in_map|exact Hs].
    - intros [Hx Hs]. unfold columnNames in Hx.
      apply List.in_map_iff in Hx as (col & <- & Hcol).
      exists col. split; [|now left].
      unfold filterColumns. apply List.filter_In. split; [exact Hcol|].
      unfold supplied. now apply JsFacts.hasProp_is_Some with (inj := ofQuery). }
  assert (Hprop : forall x,
            is_Some (queryProp req x)
            <-> is_Some (query req !! x)
                \/ (queryInherits req = true /\ inherited x = true)).
  { intros x. unfold queryProp, prop.
    destruct (query req !! x) as [v|]; [split; eauto|].
    destruct (queryInherits req), (inherited x); simpl; split;
      try (intros [? [=]]); try (intros [[? [=]]|[[=] [=]]]); eauto. }
  assert (Hinput : forall x, In x (columnNames m) -> is_Some (queryProp req x) ->
            exists i, In i (filterInputs req (filterColumns m req)
                              ++ snd (listText m req c d))
                      /\ name i = x /\ value i = queryProp req x).
  { intros x Hx Hs. unfold columnNames in Hx.
    apply List.in_map_iff in Hx as (col & <- & Hcol).
    exists {| name := COLUMN_NAME col; sqlType := mapSqlTypeToMssqlType col;
              value := queryProp req (COLUMN_NAME col) |}.
    split; [|split; reflexivity].
    apply in_app_iff. left. unfold filterInputs.
    apply (List.in_map (fun col0 => {| name := COLUMN_NAME col0;
                                        sqlType := mapSqlTypeToMssqlType col0;
                                        value := queryProp req (COLUMN_NAME col0) |})).
    unfold filterColumns. apply List.filter_In. split; [exact Hcol|].
    unfold supplied. now apply JsFacts.hasProp_is_Some with (inj := ofQuery). }
  split; [exact Hclause|]. split; [|split; [exact Hinput|split]].
  - intros x. rewrite Hclause, Hprop. reflexivity.
  - intros x v Hx Hv.
    assert (Hp : queryProp req x = Some (ofQuery v))
      by (unfold queryProp, prop; now rewrite Hv).
    destruct (Hinput x Hx) as (i & Hi1 & Hi2 & Hi3); [rewrite Hp; eauto|].
    exists i. rewrite <- Hp. auto.
  - intros x Hx Hv Hinh Hmem.
    assert (Hp : queryProp req x = Some (JInherited x))
      by (unfold queryProp, prop; now rewrite Hv, Hinh, Hmem).
    destruct (Hinput x Hx) as (i & Hi1 & Hi2 & Hi3); [rewrite Hp; eauto|].
    exists i. rewrite <- Hp. auto.
Qed.

Lemma list_filters_known_columns_witness :
  In Fixtures.activeByNameQuery
     (snd (listHandler Fixtures.annDriver Fixtures.employees
             Fixtures.activeByNameRequest))
  /\ ~ In "Role" (filterClause (text Fixtures.activeByNameQuery)).
Proof.
  assert (Hin : In Fixtures.activeByNameQuery
                  (snd (listHandler Fixtures.annDriver Fixtures.employees
                          Fixtures.activeByNameRequest))).
  { vm_compute. left. reflexivity. }
  split; [exact Hin|]. intros H.
  apply (proj1 (list_filters_known_columns Fixtures.annDriver Fixtures.employees
                  Fixtures.activeByNameRequest Fixtures.activeByNameQuery Hin)) in H
    as [Hc _].
  vm_compute in Hc. destruct Hc as [Hc|[Hc|[Hc|[]]]]; discriminate Hc.
Defined.

(** The statement of that request as the driver receives it. *)
Example active_by_name_statement :
  render (text Fixtures.activeByNameQuery)
  = "SELECT * FROM [dbo].[Employees] WHERE [Active] = @Active ORDER BY [Name] DESC".
Proof. vm_compute. reflexivity. Qed.

(** A column called like a member of [Object.prototype] is filtered on
    by a request without any parameter, when the query object inherits
    from it; and a repeated parameter is bound as an array. *)
Example buildings_list_statement :
  (match fst (listQuery Fixtures.buildings Fixtures.noRequest []) with
   | Ok q => (render (text q), map value (inputs q))
   | Throw msg => (msg, [])
   end)
  = ("SELECT * FROM [dbo].[Buildings] WHERE [constructor] = @constructor ORDER BY [Id] ASC",
     [Some (JInherited "constructor")]).
Proof. vm_compute. reflexivity. Qed.

Example employees_repeated_parameter :
  (match fst (listQuery Fixtures.employees Fixtures.repeatedName []) with
   | Ok q => (render (text q), map value (inputs q))
   | Throw msg => (msg, [])
   end)
  = ("SELECT * FROM [dbo].[Employees] WHERE [Name] = @Name ORDER BY [Id] ASC",
     [Some (JArr [JStr "Ann"; JStr "Bob"])]).
Proof. vm_compute. reflexivity. Qed.

Lemma truthyQuery_text o :
  is_Some o -> stringOf o <> "" -> truthyQuery o = true.
Proof.
  intros [v ->] Hne. destruct v as [s|items|props]; [|reflexivity|reflexivity].
  simpl in *. now apply JsFacts.truthy_ne.
Qed.

Lemma parseOrder_column o c :
  is_Some o -> stringOf o = c -> c <> "" -> Js.includes c "." = false ->
  parseOrder o = (Some c, "ASC").
Proof.
  intros Ho Hs Hc Hdot. unfold parseOrder.
  rewrite truthyQuery_text by (rewrite ?Hs; assumption).
  rewrite Hs. now rewrite (JsFacts.split_without_separator "." c Hdot).
Qed.

Lemma append_nonempty a b : b <> "" -> a +:+ b <> "".
Proof. destruct a, b; try discriminate. congruence. Qed.

Lemma parseOrder_column_direction o c d rest :
  is_Some o ->
  Js.includes c "." = false -> Js.includes d "." = false ->
  stringOf o = c +:+ "." +:+ d \/ stringOf o = c +:+ "." +:+ d +:+ "." +:+ rest ->
  parseOrder o
  = (Some c, if String.eqb (Js.toUpperCase d) "DESC" then "DESC" else "ASC").
Proof.
  intros Ho Hc Hd Hs. unfold parseOrder.
  rewrite truthyQuery_text
    by (try assumption; destruct Hs as [-> | ->]; apply append_nonempty; discriminate).
  assert (Hsplit : exists t, Js.split "." (stringOf o) = c :: d :: t).
  { destruct Hs as [-> | ->].
    - exists []. change (c +:+ "." +:+ d) with (c +:+ String "." d).
      now rewrite (JsFacts.split_at_separator "." c d Hc),
        (JsFacts.split_without_separator "." d Hd).
    - exists (Js.split "." rest).
      change (c +:+ "." +:+ d +:+ "." +:+ rest)
        with (c +:+ String "." (d +:+ String "." rest)).
      now rewrite (JsFacts.split_at_separator "." c _ Hc),
        (JsFacts.split_at_separator "." d rest Hd). }
  destruct Hsplit as (t & ->). cbn [head lookup list_lookup]. f_equal.
  destruct d as [|a r]; reflexivity.
Qed.

(** X14: a list request whose [order] is [col], [col.dir] or
    [col.dir.more], for a column [col] of the object (whose name has no
    dot), sends a statement (on an object without a column called [limit]
    or [offset]) and orders it by that column: descending when [dir]
    upper-cased is [DESC], that is [desc] in any letter case (and with
    the long s, whose upper-case form is [S]); ascending for any other
    [dir] and when there is none. *)
Theorem order_by_requested_column (driver : Driver) (m : TableMeta)
    (req : Request) (c : string) :
  In c (columnNames m) -> c <> "" -> Js.includes c "." = false ->
  is_Some (query req !! "order") ->
  (~ In "limit" (columnNames m) -> ~ In "offset" (columnNames m) ->
   exists q, snd (listHandler driver m req) = [q])
  /\ forall q, In q (snd (listHandler driver m req)) ->
  (stringOf (query req !! "order") = c -> orderByOf (text q) = [(c, "ASC")])
  /\ (forall d rest, Js.includes d "." = false ->
        stringOf (query req !! "order") = c +:+ "." +:+ d
        \/ stringOf (query req !! "order") = c +:+ "." +:+ d +:+ "." +:+ rest ->
        orderByOf (text q)
        = [(c, if String.eqb (Js.toUpperCase d) "DESC" then "DESC" else "ASC")]
        /\ (Js.isAscii d = true ->
            orderByOf (text q)
            = [(c, if String.eqb (Js.asciiUpperCase d) "DESC" then "DESC" else "ASC")])).
Proof.
  intros Hin Hne Hdot Hsome.
  split.
  { intros Hnl Hno. apply ListFacts.listHandler_sends; try assumption.
    unfold columnNames in Hin. destruct (columns m); [destruct Hin|discriminate]. }
  intros q Hq.
  apply ListFacts.listHandler_statement in Hq.
  apply ListFacts.listQuery_shape in Hq as (_ & c' & d' & Hc & Ht & _).
  pose proof (ListFacts.chooseOrder_catalog _ _ _ _ _ _ Hc) as (_ & _ & Hd').
  pose proof (ListFacts.orderByOf_listText m req c' d' Hd') as Hord.
  rewrite <- Ht in Hord.
  assert (Hknown : Js.truthy c && hasName (columnNames m) c = true).
  { rewrite JsFacts.truthy_ne by exact Hne. now apply ListFacts.hasName_In. }
  assert (Hchoose : forall dir, parseOrder (query req !! "order") = (Some c, dir) ->
                      c' = c /\ d' = dir).
  { intros dir Hp. unfold chooseOrder in Hc. rewrite Hp, Hknown in Hc.
    unfold ret in Hc. now injection Hc as <- <-. }
  split.
  - intros Hs.
    destruct (Hchoose _ (parseOrder_column _ c Hsome Hs Hne Hdot)) as [-> ->].
    exact Hord.
  - intros d rest Hd Hs.
    destruct (Hchoose _ (parseOrder_column_direction _ c d rest Hsome Hdot Hd Hs))
      as [-> ->].
    split; [exact Hord|]. intros Hascii.
    rewrite <- (JsFacts.toUpperCase_ascii d Hascii). exact Hord.
Qed.

Lemma order_by_requested_column_witness :
  orderByOf (text Fixtures.pageQuery) = [("Name", "DESC")].
Proof.
  refine (proj1 (proj2 (proj2 (order_by_requested_column Fixtures.emptyDriver
                   Fixtures.employees Fixtures.page "Name"
                   _ _ eq_refl _) Fixtures.pageQuery _)
                  "desc" "" eq_refl (or_introl eq_refl))).
  - vm_compute. right. left. reflexivity.
  - discriminate.
  - vm_compute. eauto.
  - vm_compute. left. reflexivity.
Defined.

(** [order=Name.deſc], with the long s (U+017F): [toUpperCase] gives
    [DESC], so the statement orders descending. *)
Example employees_order_long_s :
  (let dir := "de" +:+ Js.bytes [197; 191] +:+ "c" in
   match fst (listQuery Fixtures.employees
                {| query := {["order" := QStr ("Name." +:+ dir)]};
                   queryInherits := true; params := ∅; body := ∅ |} []) with
   | Ok q => (Js.toUpperCase dir, render (text q))
   | Throw msg => ("", msg)
   end)
  = ("DESC", "SELECT * FROM [dbo].[Employees]  ORDER BY [Name] DESC").
Proof. vm_compute. reflexivity. Qed.

End StatementExtras.

(** ** Insertion-ordered objects: lookup after assignment *)

Module ObjectFacts.

Section Obj.
Context {V : Type}.
Implicit Types (o a b : list (string * V)) (k : string) (v : V).

Lemma get_set_eq k v o : JsObject.get k (JsObject.set k v o) = Some v.
Proof.
  induction o as [|[k' v'] r IH]; simpl.
  - now rewrite String.eqb_refl.
  - destruct (String.eqb k' k) eqn:E; simpl.
    + now rewrite String.eqb_refl.
    + now rewrite E.
Qed.

Lemma get_set_ne k k' v o :
  k' <> k -> JsObject.get k' (JsObject.set k v o) = JsObject.get k' o.
Proof.
  intros Hne. induction o as [|[k0 v0] r IH]; simpl.
  - destruct (String.eqb_spec k k'); [now subst|reflexivity].
  - destruct (String.eqb_spec k0 k) as [->|N]; simpl.
    + destruct (String.eqb_spec k k'); [now subst|reflexivity].
    + destruct (String.eqb k0 k'); [reflexivity|exact IH].
Qed.

Lemma in_keys_set x k v o :
  In x (JsObject.keys (JsObject.set k v o)) <-> x = k \/ In x (JsObject.keys o).
Proof.
  unfold JsObject.keys. induction o as [|[k' v'] r IH]; simpl.
  - intuition.
  - destruct (String.eqb_spec k' k) as [->|N]; simpl; [intuition|].
    rewrite IH. intuition.
Qed.


Lemma in_set_value p x k v o :
  In (p, x) (JsObject.set k v o) -> x = v \/ In (p, x) o.
Proof.
  induction o as [|[k' v'] r IH]; simpl.
  - intros [[= _ <-]|[]]. now left.
  - destruct (String.eqb k' k); simpl.
    + intros [[= _ <-]|H]; auto.
    + intros [H|H]; [auto|]. destruct (IH H); auto.
Qed.

Lemma in_keys_spread x a b :
  In x (JsObject.keys (JsObject.spread a b))
  <-> In x (JsObject.keys a) \/ In x (JsObject.keys b).
Proof.
  unfold JsObject.spread. revert a.
  induction b as [|[k v] r IH]; intros a.
  - simpl. change (JsObject.keys (@nil (string * V))) with (@nil string).
    simpl. intuition.
  - change (fold_left (fun acc kv => JsObject.set (fst kv) (snd kv) acc)
                      ((k, v) :: r) a)
      with (fold_left (fun acc kv => JsObject.set (fst kv) (snd kv) acc)
                      r (JsObject.set k v a)).
    rewrite IH, in_keys_set.
    change (JsObject.keys ((k, v) :: r)) with (k :: JsObject.keys r).
    simpl. intuition.
Qed.

Lemma get_spread_other k a b :
  ~ In k (JsObject.keys b) ->
  JsObject.get k (JsObject.spread a b) = JsObject.get k a.
Proof.
  unfold JsObject.spread. revert a.
  induction b as [|[k' v] r IH]; intros a Hk; simpl; [reflexivity|].
  unfold JsObject.keys in Hk. simpl in Hk.
  rewrite IH by (intros H; apply Hk; now right).
  apply get_set_ne. intros E. apply Hk. now left.
Qed.
Lemma in_set_pair p x k v o :
  In (p, x) (JsObject.set k v o) -> (p, x) = (k, v) \/ In (p, x) o.
Proof.
  induction o as [|[k' v'] r IH]; simpl.
  - intros [[= <- <-]|[]]. now left.
  - destruct (String.eqb k' k); simpl.
    + intros [[= <- <-]|H]; auto.
    + intros [H|H]; [auto|]. destruct (IH H); auto.
Qed.

Lemma in_spread kv a b :
  In kv (JsObject.spread a b) -> In kv a \/ In kv b.
Proof.
  unfold JsObject.spread. revert a.
  induction b as [|[k v] r IH]; intros a; simpl; [auto|].
  intros H. apply IH in H as [H|H]; [|auto].
  destruct kv as [p x]. apply in_set_pair in H as [->|H]; auto.
Qed.
End Obj.

End ObjectFacts.

(** ** Routes, schemas and the document *)

Module DocumentExtras.

Import Generator Server Observers ObjectFacts.

(** X15: an object gets routes that insert, update or delete exactly
    when it is a table whose first key column has a non-empty name; a
    view, and a table without a key, get the LIST route only. *)
Theorem mutation_routes_need_table_and_key (m : TableMeta) (ep : string) :
  ((exists r, In r (registerRoutes m ep) /\ isMutation r = true)
   <-> isView m = false /\ exists k rest, pk m = k :: rest /\ k <> "")
  /\ (isView m = true \/ pk m = [] ->
      registerRoutes m ep =
        [ {| method := GET; path := "/" +:+ ep +:+ "/" +:+ table m;
             handler := ListRows; meta := m |} ]).
Proof.
  split.
  - unfold registerRoutes. split.
    + intros (r & [<-|Hin] & Hm); [discriminate|].
      destruct (pk m) as [|k rest]; [destruct Hin|]. simpl in Hin.
      destruct (isView m); [destruct Hin|]. simpl in Hin.
      unfold Js.truthy in Hin.
      destruct (String.eqb_spec k ""); [destruct Hin|]. eauto.
    + intros (Hv & k & rest & Hpk & Hk). rewrite Hpk, Hv. simpl.
      unfold Js.truthy. destruct (String.eqb_spec k ""); [contradiction|]. simpl.
      eexists. split; [right; right; left; reflexivity|reflexivity].
  - intros [Hv | Hpk]; unfold registerRoutes.
    + rewrite Hv. destruct (head (pk m)); reflexivity.
    + rewrite Hpk. reflexivity.
Qed.

Lemma mutation_routes_need_table_and_key_witness :
  registerRoutes Fixtures.opaqueTable "hr" =
    [ {| method := GET; path := "/hr/Hidden"; handler := ListRows;
         meta := Fixtures.opaqueTable |} ].
Proof.
  exact (proj2 (mutation_routes_need_table_and_key Fixtures.opaqueTable "hr")
               (or_intror eq_refl)).
Defined.

(** Splitting a string and joining the parts gives the string back. *)
Lemma join_split x s : Js.join (String x "") (Js.split x s) = s.
Proof.
  induction s as [|c r IH]; [reflexivity|].
  simpl Js.split. destruct (Ascii.eqb_spec c x) as [->|N].
  - pose proof (JsFacts.split_nonempty x r) as Hne.
    destruct (Js.split x r) as [|h t]; [contradiction|].
    change (Js.join (String x "") ("" :: h :: t))
      with ("" +:+ String x "" +:+ Js.join (String x "") (h :: t)).
    rewrite IH. reflexivity.
  - pose proof (JsFacts.split_nonempty x r) as Hne.
    destruct (Js.split x r) as [|h t]; [contradiction|].
    destruct t as [|h' t'].
    + simpl in IH. simpl. now rewrite IH.
    + change (Js.join (String x "") (String c h :: h' :: t'))
        with (String c h +:+ String x "" +:+ Js.join (String x "") (h' :: t')).
      change (Js.join (String x "") (h :: h' :: t'))
        with (h +:+ String x "" +:+ Js.join (String x "") (h' :: t')) in IH.
      change (String c h +:+ String x "" +:+ Js.join (String x "") (h' :: t'))
        with (String c (h +:+ String x "" +:+ Js.join (String x "") (h' :: t'))).
      now rewrite IH.
Qed.

Lemma eqb_append_ne s t : t <> "" -> String.eqb s (s +:+ t) = false.
Proof.
  intros Ht. induction s as [|c r IH].
  - destruct t; [contradiction|reflexivity].
  - change (String c r +:+ t) with (String c (r +:+ t)).
    simpl. now rewrite Ascii.eqb_refl.
Qed.

(** The endpoint and table that [buildPathsFromComponents] reads back
    from a schema name. *)
Lemma schema_name_round_trip e t :
  Js.includes e "_" = false ->
  head (Js.split "_" (e +:+ "_" +:+ t)) = Some e
  /\ Js.join "_" (tail (Js.split "_" (e +:+ "_" +:+ t))) = t.
Proof.
  intros He. change (e +:+ "_" +:+ t) with (e +:+ String "_" t).
  rewrite (JsFacts.split_at_separator "_" e t He). split; [reflexivity|].
  apply join_split.
Qed.

Lemma append_ne s t : t <> "" -> s +:+ t <> s.
Proof.
  intros Ht E. pose proof (eqb_append_ne s t Ht) as H.
  rewrite E, String.eqb_refl in H. discriminate.
Qed.

(** The document of one object, computed. *)
Lemma documentOf_computed c e m :
  endpoint c = Some e -> Js.includes e "_" = false ->
  documentOf c m =
  let base := "/" +:+ e +:+ "/" +:+ table m in
  let tag := if isView m then "Views" else "Tables" in
  let ref := "#/components/schemas/" +:+ e +:+ "_" +:+ table m in
  let hasPk := match pk m with [] => false | _ => true end in
  (base,
   {| idParameter := false;
      get := Some {| tags := [tag]; summary := "List " +:+ table m;
                     requestBody := None; responses := ["200"] |};
      post := if negb (isView m) && hasPk
              then Some {| tags := [tag]; summary := "Create " +:+ table m;
                           requestBody := Some ref; responses := ["201"] |}
              else None;
      put := None; delete := None |})
  :: (if hasPk then
        [ (base +:+ "/{id}",
           {| idParameter := true;
              get := Some {| tags := [tag]; summary := "Get " +:+ table m +:+ " by id";
                             requestBody := None; responses := ["200"; "404"] |};
              post := None;
              put := if negb (isView m)
                     then Some {| tags := [tag]; summary := "Update " +:+ table m;
                                  requestBody := Some ref; responses := ["200"] |}
                     else None;
              delete := if negb (isView m)
                        then Some {| tags := [tag]; summary := "Delete " +:+ table m;
                                     requestBody := None; responses := ["200"; "404"] |}
                        else None |}) ]
      else []).
Proof.
  intros He Hu. unfold documentOf. rewrite He.
  change (propertyKey (Some e)) with e. unfold addPaths.
  cbn [x_msabon_isView x_msabon_hasPk schemaOf].
  destruct (schema_name_round_trip e (table m) Hu) as [Hh Ht].
  rewrite Hh, Ht. change (propertyKey (Some e)) with e. cbv zeta.
  destruct (match pk m with [] => false | _ => true end); [|reflexivity].
  cbn [JsObject.set].
  rewrite eqb_append_ne by discriminate. reflexivity.
Qed.

(** For one object taken alone: the document of the object shows on its
    path the methods registered on it, and on its [{id}] path the methods
    registered on the key path. *)
Lemma object_document_methods c e m meth :
  endpoint c = Some e -> e <> "" -> Js.includes e "_" = false ->
  (isView m = true -> pk m = []) ->
  (forall k rest, pk m = k :: rest -> k <> "") ->
  let base := "/" +:+ e +:+ "/" +:+ table m in
  ((exists r, In r (registerRoutes m (endpointOf c)) /\ method r = meth
              /\ path r = base)
   <-> (exists item op,
          JsObject.get base (documentOf c m) = Some item
          /\ documented meth item = Some op))
  /\ ((exists r k, In r (registerRoutes m (endpointOf c)) /\ method r = meth
                   /\ path r = base +:+ "/:" +:+ k)
      <-> (exists item op,
             JsObject.get (base +:+ "/{id}") (documentOf c m) = Some item
             /\ documented meth item = Some op)).
Proof.
  intros He Hne Hu Hview Hkeys base.
  rewrite (documentOf_computed c e m He Hu). cbv zeta. fold base.
  assert (Hep : endpointOf c = e).
  { unfold endpointOf. rewrite He. simpl. now rewrite JsFacts.truthy_ne. }
  rewrite Hep. unfold registerRoutes. fold base.
  assert (Hid : String.eqb base (base +:+ "/{id}") = false)
    by (apply eqb_append_ne; discriminate).
  assert (Hkey : forall k, base <> base +:+ "/:" +:+ k).
  { intros k E. symmetry in E. revert E. apply append_ne. discriminate. }
  destruct (pk m) as [|k rest] eqn:Hpk.
  - cbn [head JsObject.get]. rewrite String.eqb_refl, Hid, andb_false_r. split; split.
    + intros (r & [<-|[]] & <- & _). eexists _, _. split; reflexivity.
    + intros (item & op & [= <-] & Hd). destruct meth; try discriminate Hd.
      eexists. split; [left; reflexivity|split; reflexivity].
    + intros (r & k & [<-|[]] & _ & Hp). now elim (Hkey k).
    + intros (item & op & Hitem & _). discriminate Hitem.
  - assert (Hv : isView m = false)
      by (destruct (isView m); [now discriminate (Hview eq_refl)|reflexivity]).
    assert (Hk : Js.truthy k = true) by (apply JsFacts.truthy_ne; eauto).
    cbn [head]. rewrite Hv, Hk. cbn [negb andb JsObject.get].
    rewrite String.eqb_refl, Hid, String.eqb_refl.
    split; split.
    + intros (r & Hin & <- & Hp).
      destruct Hin as [<-|[<-|[<-|[<-|[<-|[]]]]]]; cbn [path] in Hp;
        try (now elim (Hkey k)); eexists _, _; split; reflexivity.
    + intros (item & op & [= <-] & Hd). destruct meth; try discriminate Hd.
      * eexists. split; [left; reflexivity|split; reflexivity].
      * eexists. split; [right; right; left; reflexivity|split; reflexivity].
    + intros (r & k' & Hin & <- & Hp).
      destruct Hin as [<-|[<-|[<-|[<-|[<-|[]]]]]]; cbn [path] in Hp;
        try (now elim (Hkey k')); eexists _, _; split; reflexivity.
    + intros (item & op & [= <-] & Hd). destruct meth; try discriminate Hd.
      * eexists _, k. split; [right; left; reflexivity|split; reflexivity].
      * eexists _, k. split; [right; right; right; left; reflexivity
                             |split; reflexivity].
      * eexists _, k. split; [right; right; right; right; left; reflexivity
                             |split; reflexivity].
Qed.

(** What one discovery pass adds: the routes of each object, in order,
    and the schema entries, assigned in order. *)
Lemma discover_fold wt cat c ts acc :
  fold_left (discoverObject wt cat c) ts acc
  = (fst acc ++ flat_map (fun o => registerRoutes (discoverMeta wt cat o) (endpointOf c)) ts,
     JsObject.spread (snd acc) (map (schemaEntry wt cat c) ts)).
Proof.
  revert acc. induction ts as [|t ts IH]; intros [rs ss].
  - simpl. now rewrite app_nil_r.
  - simpl fold_left. rewrite IH. cbn [fst snd discoverObject flat_map map].
    now rewrite <- app_assoc.
Qed.

(** One schema entry changes the paths it sets and no other. *)
Lemma get_addPaths p acc en :
  JsObject.get p (addPaths acc en)
  = match JsObject.get p (addPaths [] en) with
    | Some item => Some item
    | None => JsObject.get p acc
    end.
Proof.
  destruct en as [name sch]. unfold addPaths. cbv zeta.
  set (base := "/" +:+ _ +:+ "/" +:+ _).
  destruct (x_msabon_hasPk sch).
  - destruct (String.eqb_spec (base +:+ "/{id}") p) as [<-|N2].
    + now rewrite !get_set_eq.
    + rewrite !(get_set_ne (base +:+ "/{id}")) by congruence.
      destruct (String.eqb_spec base p) as [<-|N1].
      * now rewrite !get_set_eq.
      * rewrite !(get_set_ne base) by congruence. reflexivity.
  - destruct (String.eqb_spec base p) as [<-|N1].
    + now rewrite !get_set_eq.
    + rewrite !(get_set_ne base) by congruence. reflexivity.
Qed.

(** The path item of the document at [p], when every schema entry but
    the one called [name] leaves [p] alone. *)
Lemma get_fold_addPaths p name sch ss acc :
  (forall en, In en ss ->
     en = (name, sch)
     \/ (fst en <> name /\ JsObject.get p (addPaths [] en) = None)) ->
  JsObject.get p (fold_left addPaths ss acc)
  = if existsb (fun en => String.eqb (fst en) name) ss
    then match JsObject.get p (addPaths [] (name, sch)) with
         | Some item => Some item
         | None => JsObject.get p acc
         end
    else JsObject.get p acc.
Proof.
  revert acc. induction ss as [|x rest IH]; intros acc Hss; [reflexivity|].
  simpl fold_left. rewrite IH by (intros en Hen; apply Hss; now right).
  rewrite (get_addPaths p acc x). cbn [existsb].
  destruct (Hss x (or_introl eq_refl)) as [->|[Hname Hnone]].
  - cbn [fst]. rewrite String.eqb_refl. cbn [orb].
    destruct (JsObject.get p (addPaths [] (name, sch)));
      destruct (existsb _ rest); reflexivity.
  - rewrite Hnone.
    destruct (String.eqb_spec (fst x) name); [contradiction|reflexivity].
Qed.

(** Paths of objects of one target: the table name can be read back. *)
Lemma table_of_path pre a b sa sb :
  Js.includes a "/" = false -> Js.includes b "/" = false ->
  (sa = "" \/ exists r, sa = String "/" r) ->
  (sb = "" \/ exists r, sb = String "/" r) ->
  (pre +:+ a) +:+ sa = (pre +:+ b) +:+ sb -> a = b.
Proof.
  intros Ha Hb Hsa Hsb E. rewrite !JsFacts.append_assoc in E.
  apply JsFacts.append_inj_l in E.
  apply (JsFacts.before_separator_unique "/" a b (a +:+ sa) (b +:+ sb));
    try assumption.
  - destruct Hsa as [->|(r & ->)]; [left; apply JsFacts.append_empty_r|right; eauto].
  - destruct Hsb as [->|(r & ->)]; [left; apply JsFacts.append_empty_r|right; eauto].
Qed.

Lemma base_path e t : "/" +:+ e +:+ "/" +:+ t = ("/" +:+ e +:+ "/") +:+ t.
Proof.
  change (String "/" (e +:+ "/" +:+ t) = String "/" ((e +:+ "/") +:+ t)).
  now rewrite JsFacts.append_assoc.
Qed.

(** The paths of two objects of a target whose names differ and have no
    slash are all different. *)
Lemma paths_of_tables_differ e a b sa sb :
  Js.includes a "/" = false -> Js.includes b "/" = false -> a <> b ->
  (sa = "" \/ exists r, sa = String "/" r) ->
  (sb = "" \/ exists r, sb = String "/" r) ->
  ("/" +:+ e +:+ "/" +:+ a) +:+ sa <> ("/" +:+ e +:+ "/" +:+ b) +:+ sb.
Proof.
  intros Ha Hb Hne Hsa Hsb E. apply Hne. rewrite !base_path in E.
  exact (table_of_path _ a b sa sb Ha Hb Hsa Hsb E).
Qed.

Lemma nodup_map_inj {A B} (f : A -> B) (l : list A) x y :
  List.NoDup (map f l) -> In x l -> In y l -> f x = f y -> x = y.
Proof.
  induction l as [|a l IH]; intros Hnd Hx Hy E; [destruct Hx|].
  simpl in Hnd. apply List.NoDup_cons_iff in Hnd as [Hnotin Hnd].
  destruct Hx as [->|Hx], Hy as [->|Hy]; auto.
  - elim Hnotin. rewrite E. now apply List.in_map.
  - elim Hnotin. rewrite <- E. now apply List.in_map.
Qed.

(** X16: when an attempt made by [start] connects, for a target whose
    endpoint name is not empty and has no underscore, and whose discovered
    objects have different names without a slash and key columns with
    names, the document served afterwards shows on the path of each
    discovered object exactly the methods the router has on it, and on its
    [{id}] path exactly the methods the router has on its key path;
    provided nothing registered before the attempt is on those paths.
    (Two objects of one name in different database schemas share one
    schema entry and one path: the document then shows the later one.) *)
Theorem document_shows_registered_methods (wt : bool) (cat : Catalog)
    (c : EndpointConfig) (e : string) (st0 : State) (t : TableRow)
    (meth : Method) :
  endpoint c = Some e -> e <> "" -> Js.includes e "_" = false ->
  let objects := tablesLike cat (sqlLike c) in
  let base := "/" +:+ e +:+ "/" +:+ TABLE_NAME t in
  let st := step wt st0 (FirstAttempt c (Connects cat)) in
  List.NoDup (map TABLE_NAME objects) ->
  (forall o, In o objects -> Js.includes (TABLE_NAME o) "/" = false) ->
  (forall o k rest, In o objects ->
     pk (discoverMeta wt cat o) = k :: rest -> k <> "") ->
  (forall r, In r (app st0) ->
     path r <> base /\ forall k, path r <> base +:+ "/:" +:+ k) ->
  (forall en, In en (schemas st0) ->
     JsObject.get base (addPaths [] en) = None
     /\ JsObject.get (base +:+ "/{id}") (addPaths [] en) = None) ->
  In t objects ->
  ((exists r, In r (app st) /\ method r = meth /\ path r = base)
   <-> (exists item op,
          JsObject.get base (paths st) = Some item
          /\ documented meth item = Some op))
  /\ ((exists r k, In r (app st) /\ method r = meth
                   /\ path r = base +:+ "/:" +:+ k)
      <-> (exists item op,
             JsObject.get (base +:+ "/{id}") (paths st) = Some item
             /\ documented meth item = Some op)).
Proof.
  intros He Hne Hu objects base st Hnd Hslash Hkeys Hr0 Hs0 Ht.
  set (m := discoverMeta wt cat t).
  assert (Hep : endpointOf c = e).
  { unfold endpointOf. rewrite He. simpl. now rewrite JsFacts.truthy_ne. }
  (* the state after the attempt *)
  assert (Happ : app st = app st0
                  ++ flat_map (fun o => registerRoutes (discoverMeta wt cat o) e)
                              objects).
  { unfold st, step, doAttempt, setupDynamicRoutes. rewrite discover_fold.
    cbn [fst snd app buildPathsFromComponents]. now rewrite Hep. }
  assert (Hsch : schemas st
                 = JsObject.spread (schemas st0)
                     (JsObject.spread [] (map (schemaEntry wt cat c) objects))).
  { unfold st, step, doAttempt, setupDynamicRoutes. rewrite discover_fold.
    reflexivity. }
  assert (Hpaths : paths st = pathsOf (schemas st)).
  { unfold st, step, doAttempt. destruct (setupDynamicRoutes wt cat c).
    reflexivity. }
  (* the paths of the other objects *)
  assert (Hother : forall o sa sb, In o objects -> TABLE_NAME o <> TABLE_NAME t ->
            (sa = "" \/ exists r, sa = String "/" r) ->
            (sb = "" \/ exists r, sb = String "/" r) ->
            ("/" +:+ e +:+ "/" +:+ TABLE_NAME o) +:+ sa <> base +:+ sb).
  { intros o sa sb Ho Hdiff Hsa Hsb.
    apply paths_of_tables_differ; auto. }
  assert (Hplain : forall x, x +:+ "" = x) by apply JsFacts.append_empty_r.
  (* the document at a path of the object *)
  assert (Hdoc : forall p, p = base \/ p = base +:+ "/{id}" ->
            JsObject.get p (paths st) = JsObject.get p (documentOf c m)).
  { intros p Hp. rewrite Hpaths. unfold pathsOf.
    rewrite (get_fold_addPaths p (fst (schemaEntry wt cat c t))
               (snd (schemaEntry wt cat c t))).
    - replace (existsb _ (schemas st)) with true.
      + change (fst (schemaEntry wt cat c t), snd (schemaEntry wt cat c t))
          with (schemaEntry wt cat c t).
        change (addPaths [] (schemaEntry wt cat c t)) with (documentOf c m).
        now destruct (JsObject.get p (documentOf c m)).
      + symmetry. apply existsb_exists.
        assert (Hin : In (fst (schemaEntry wt cat c t)) (JsObject.keys (schemas st))).
        { rewrite Hsch. apply in_keys_spread. right. apply in_keys_spread. right.
          unfold JsObject.keys. rewrite map_map.
          apply (List.in_map (fun x => fst (schemaEntry wt cat c x))). exact Ht. }
        unfold JsObject.keys in Hin. apply List.in_map_iff in Hin as (en & Hen & Hin).
        exists en. split; [exact Hin|]. rewrite Hen. apply String.eqb_refl.
    - intros en Hen. rewrite Hsch in Hen.
      assert (Hbase : JsObject.get base (documentOf c m) <> None
                      /\ forall s, JsObject.get base (addPaths [] (fst (schemaEntry wt cat c t), s))
                                   <> None).
      { split.
        - rewrite (documentOf_computed c e m He Hu). cbv zeta. cbn [JsObject.get].
          fold base. change (table m) with (TABLE_NAME t). fold base.
          rewrite String.eqb_refl. discriminate.
        - intros s. cbn [fst schemaEntry]. rewrite He.
          change (propertyKey (Some e)) with e. unfold addPaths. cbv zeta.
          destruct (schema_name_round_trip e (table (discoverMeta wt cat t)) Hu)
            as [Hh Htl].
          rewrite Hh, Htl. change (propertyKey (Some e)) with e.
          change (table (discoverMeta wt cat t)) with (TABLE_NAME t). fold base.
          destruct (x_msabon_hasPk s).
          + rewrite get_set_ne
              by (intros E; symmetry in E; revert E; apply append_ne; discriminate).
            rewrite get_set_eq. discriminate.
          + rewrite get_set_eq. discriminate. }
      apply in_spread in Hen as [Hen|Hen].
      + right. destruct (Hs0 en Hen) as [H1 H2]. split.
        * intros E. destruct en as [n s]. cbn [fst] in E. subst n.
          now elim (proj2 Hbase s).
        * destruct Hp as [-> | ->]; assumption.
      + apply in_spread in Hen as [[]|Hen].
        apply List.in_map_iff in Hen as (o & <- & Ho).
        destruct (String.eqb_spec (TABLE_NAME o) (TABLE_NAME t)) as [E|N].
        * left. rewrite (nodup_map_inj TABLE_NAME objects o t Hnd Ho Ht E).
          now destruct (schemaEntry wt cat c t).
        * right. split.
          -- cbn [fst schemaEntry table discoverMeta]. intros E.
             apply JsFacts.append_inj_l in E.
             change ("_" +:+ TABLE_NAME o) with (String "_" (TABLE_NAME o)) in E.
             change ("_" +:+ TABLE_NAME t) with (String "_" (TABLE_NAME t)) in E.
             congruence.
          -- change (addPaths [] (schemaEntry wt cat c o))
               with (documentOf c (discoverMeta wt cat o)).
             rewrite (documentOf_computed c e _ He Hu). cbv zeta.
             change (table (discoverMeta wt cat o)) with (TABLE_NAME o).
             set (other := "/" +:+ e +:+ "/" +:+ TABLE_NAME o).
             assert (D1 : other <> base).
             { intros E.
               apply (Hother o "" "" Ho N (or_introl eq_refl) (or_introl eq_refl)).
               now rewrite !Hplain. }
             assert (D2 : other +:+ "/{id}" <> base).
             { intros E.
               apply (Hother o "/{id}" "" Ho N (or_intror (ex_intro _ _ eq_refl))
                        (or_introl eq_refl)).
               now rewrite Hplain. }
             assert (D3 : other <> base +:+ "/{id}").
             { intros E.
               apply (Hother o "" "/{id}" Ho N (or_introl eq_refl)
                        (or_intror (ex_intro _ _ eq_refl))).
               now rewrite Hplain. }
             assert (D4 : other +:+ "/{id}" <> base +:+ "/{id}").
             { apply (Hother o "/{id}" "/{id}" Ho N);
                 right; eexists; reflexivity. }
             destruct Hp as [-> | ->];
               destruct (match pk (discoverMeta wt cat o) with [] => false | _ => true end);
               cbn [JsObject.get];
               repeat match goal with
                      | |- context [String.eqb ?a ?b] =>
                          destruct (String.eqb_spec a b); [contradiction|]
                      end; reflexivity. }
  (* the routes on a path of the object *)
  assert (Hroutes : forall r sb, (sb = "" \/ exists k, sb = "/:" +:+ k) ->
            path r = base +:+ sb ->
            In r (app st) -> In r (registerRoutes m e)).
  { intros r sb Hsb Hpath Hin. rewrite Happ in Hin.
    assert (Hsb' : sb = "" \/ exists rest, sb = String "/" rest).
    { destruct Hsb as [->|(k & ->)]; [now left|right]. now exists (":" +:+ k). }
    apply in_app_iff in Hin as [Hin|Hin].
    - exfalso. destruct (Hr0 r Hin) as [H1 H2].
      destruct Hsb as [->|(k & ->)].
      + rewrite Hplain in Hpath. contradiction.
      + now elim (H2 k).
    - apply in_flat_map in Hin as (o & Ho & Hin).
      destruct (String.eqb_spec (TABLE_NAME o) (TABLE_NAME t)) as [E|N].
      + unfold m. now rewrite <- (nodup_map_inj TABLE_NAME objects o t Hnd Ho Ht E).
      + exfalso. unfold registerRoutes in Hin.
        change (table (discoverMeta wt cat o)) with (TABLE_NAME o) in Hin.
        assert (Hcases : path r = ("/" +:+ e +:+ "/" +:+ TABLE_NAME o) +:+ ""
                         \/ exists k, path r = ("/" +:+ e +:+ "/" +:+ TABLE_NAME o)
                                               +:+ String "/" (":" +:+ k)).
        { destruct Hin as [<-|Hin]; [left; now rewrite Hplain|].
          destruct (head (pk (discoverMeta wt cat o))) as [k|]; [|destruct Hin].
          destruct (negb _ && _); [|destruct Hin].
          destruct Hin as [<-|[<-|[<-|[<-|[]]]]]; cbn [path];
            first [left; now rewrite Hplain | right; now exists k]. }
        destruct Hcases as [Hc|(k & Hc)]; rewrite Hc in Hpath;
          revert Hpath; apply Hother; eauto. }
  assert (Hmine : forall r, In r (registerRoutes m e) -> In r (app st)).
  { intros r Hin. rewrite Happ. apply in_app_iff. right.
    apply in_flat_map. exists t. now split. }
  assert (Hview : isView m = true -> pk m = []).
  { unfold m, discoverMeta. cbn [isView pk]. now intros ->. }
  destruct (object_document_methods c e m meth He Hne Hu Hview
              (fun k rest => Hkeys t k rest Ht))
    as [Hobj1 Hobj2].
  rewrite Hep in Hobj1, Hobj2.
  change (table m) with (TABLE_NAME t) in Hobj1, Hobj2.
  fold base in Hobj1, Hobj2.
  rewrite !Hdoc by auto. split; split.
  - intros (r & Hin & Hm & Hp). apply Hobj1. exists r. repeat split; auto.
    apply (Hroutes r ""); auto. now rewrite Hplain.
  - intros H. apply Hobj1 in H as (r & Hin & Hm & Hp). exists r. auto.
  - intros (r & k & Hin & Hm & Hp). apply Hobj2. exists r, k. repeat split; auto.
    apply (Hroutes r ("/:" +:+ k)); eauto.
  - intros H. apply Hobj2 in H as (r & k & Hin & Hm & Hp). exists r, k. auto.
Qed.

Lemma document_shows_registered_methods_witness :
  exists item op,
    JsObject.get "/hr/Employees/{id}" (paths (run true Fixtures.hrAtOnce))
    = Some item
    /\ documented DELETE item = Some op.
Proof.
  refine (proj1 (proj2 (document_shows_registered_methods true Fixtures.hrCatalog
                          Fixtures.hr "hr" initial
                          {| TABLE_SCHEMA := "dbo"; TABLE_NAME := "Employees";
                             TABLE_TYPE := "BASE TABLE" |} DELETE
                          eq_refl _ eq_refl _ _ _ _ _ _)) _).
  - discriminate.
  - vm_compute. apply List.NoDup_cons; [intros []|apply List.NoDup_nil].
  - intros o [<-|[]]. reflexivity.
  - intros o k rest [<-|[]] [= <- _]. discriminate.
  - intros r [].
  - intros en [].
  - left. reflexivity.
  - eexists _, "Id". split.
    + vm_compute. right. right. right. right. left. reflexivity.
    + split; reflexivity.
Defined.

(** Two objects of one name: the document shows the view, the router has
    the routes of the table too. *)
Example same_name_in_two_schemas :
  let st := run true [FirstAttempt Fixtures.hr (Connects Fixtures.shadowCatalog)] in
  JsObject.keys (paths st) = ["/hr/Employees"]
  /\ map (fun r => (method r, path r)) (app st)
     = [ (GET, "/hr/Employees"); (GET, "/hr/Employees/:Id");
         (POST, "/hr/Employees"); (PUT, "/hr/Employees/:Id");
         (DELETE, "/hr/Employees/:Id"); (GET, "/hr/Employees") ].
Proof. split; reflexivity. Qed.

(** With an underscore in the endpoint name the document and the routes
    part ways. *)
Example underscore_in_endpoint :
  JsObject.keys (documentOf {| endpoint := Some "my_api"; filter := None |}
                            Fixtures.opaqueTable)
  = ["/my/api_Hidden"]
  /\ map path (registerRoutes Fixtures.opaqueTable "my_api") = ["/my_api/Hidden"].
Proof. split; reflexivity. Qed.

Lemma addPaths_keeps_items paths entry :
  (forall p item, In (p, item) paths -> readableAndReadOnlyForViews item) ->
  forall p item, In (p, item) (addPaths paths entry) ->
                 readableAndReadOnlyForViews item.
Proof.
  intros Hold p item. destruct entry as [name sch]. unfold addPaths. cbv zeta.
  assert (Hnew : forall item0 : PathItem,
             (exists op, get item0 = Some op
                         /\ tags op = [if x_msabon_isView sch then "Views" else "Tables"])
             -> (x_msabon_isView sch = true ->
                 post item0 = None /\ put item0 = None /\ delete item0 = None)
             -> readableAndReadOnlyForViews item0).
  { intros item0 (op & Hop & Htag) Hview. exists op. split; [exact Hop|].
    rewrite Htag. destruct (x_msabon_isView sch); [auto|discriminate]. }
  destruct (x_msabon_hasPk sch).
  - intros Hin. apply in_set_value in Hin as [->|Hin].
    + apply Hnew; [eexists; split; reflexivity|]. intros ->. auto.
    + apply in_set_value in Hin as [->|Hin]; [|eauto].
      apply Hnew; [eexists; split; reflexivity|]. intros ->. auto.
  - intros Hin. apply in_set_value in Hin as [->|Hin]; [|eauto].
    apply Hnew; [eexists; split; reflexivity|]. intros ->.
    rewrite andb_false_r. auto.
Qed.

(** X17: whatever schemas are registered, every path of the document
    built from them has a GET operation, and a path whose GET is tagged
    [Views] has no POST, PUT or DELETE. *)
Theorem document_paths_readable (schemas : list (string * Schema)) (p : string)
    (item : PathItem) :
  In (p, item) (pathsOf schemas) -> readableAndReadOnlyForViews item.
Proof.
  unfold pathsOf.
  assert (H : forall acc,
             (forall p0 item0, In (p0, item0) acc -> readableAndReadOnlyForViews item0) ->
             forall p0 item0, In (p0, item0) (fold_left addPaths schemas acc) ->
                              readableAndReadOnlyForViews item0).
  { induction schemas as [|entry rest IH]; intros acc Hacc; [exact Hacc|].
    simpl. apply IH. now apply addPaths_keeps_items. }
  apply H. intros p0 item0 [].
Qed.

Lemma document_paths_readable_witness :
  readableAndReadOnlyForViews
    {| idParameter := false;
       get := Some {| tags := ["Views"]; summary := "List ActiveEmployees";
                      requestBody := None; responses := ["200"] |};
       post := None; put := None; delete := None |}.
Proof.
  refine (document_paths_readable
            [("hr_ActiveEmployees",
              schemaOf Fixtures.employeeColumns true [])]
            "/hr/ActiveEmployees" _ _).
  vm_compute. left. reflexivity.
Defined.








End DocumentExtras.

(** ** The shared registry across attempts *)

Module RegistryExtras.

Import Generator Server Observers ObjectFacts.

Lemma step_schemas wt st ev n :
  In n (JsObject.keys (schemas st)) ->
  In n (JsObject.keys (schemas (step wt st ev))).
Proof.
  intros H. destruct ev as [c [|cat k|cat] | c [|cat k|cat]]; simpl; try exact H;
    destruct (setupDynamicRoutes wt cat c) as [routes found]; simpl;
    apply in_keys_spread; now left.
Qed.

Lemma step_app wt st ev : exists more, app (step wt st ev) = app st ++ more.
Proof.
  destruct ev as [c [|cat k|cat] | c [|cat k|cat]]; simpl;
    try (exists []; now rewrite app_nil_r); eauto;
    destruct (setupDynamicRoutes wt cat c) as [routes found]; simpl; eauto.
Qed.

(** X20: the registry only grows: along any sequence of attempt
    completions, a schema name once registered stays registered and the
    routes registered so far stay, in their order, at the head of the
    router. *)
Theorem registry_only_grows (wt : bool) (evs evs' : list Event) :
  (forall n, In n (JsObject.keys (schemas (run wt evs))) ->
             In n (JsObject.keys (schemas (run wt (evs ++ evs')))))
  /\ exists more, app (run wt (evs ++ evs')) = app (run wt evs) ++ more.
Proof.
  unfold run. rewrite fold_left_app.
  generalize (fold_left (step wt) evs initial). intros st.
  revert st. induction evs' as [|ev rest IH]; intros st.
  - split; [auto|]. exists []. simpl. now rewrite app_nil_r.
  - simpl. destruct (IH (step wt st ev)) as [Hs [more Ha]]. split.
    + intros n Hn. apply Hs. now apply step_schemas.
    + destruct (step_app wt st ev) as [more0 E]. rewrite Ha, E.
      exists (more0 ++ more). now rewrite <- app_assoc.
Qed.

Lemma registerRoutes_nonempty m ep : registerRoutes m ep <> [].
Proof. unfold registerRoutes. discriminate. Qed.

(** X21: what one attempt does to the registry.  A merge writes only
    the names its own discovery returned: the schema registered under any
    other name is the same before and after the attempt, and after a
    failed attempt every schema is.  No attempt touches the paths of the
    document.  A retry is armed exactly when the attempt did not get
    through connecting and discovery.  An attempt that connects adds the
    routes of its discovery; one that cannot connect changes nothing; one
    whose discovery fails merges no schema but leaves in the router the
    routes registered until then, which are the first of those a complete
    discovery registers and, when there is an object at all, not all of
    them. *)
Theorem merge_keeps_other_schemas (wt : bool) (c : EndpointConfig) (a : Attempt)
    (st : State) :
  let st' := fst (doAttempt wt c a st) in
  (forall n,
     (forall cat, a = Connects cat ->
        ~ In n (JsObject.keys (snd (setupDynamicRoutes wt cat c)))) ->
     JsObject.get n (schemas st') = JsObject.get n (schemas st))
  /\ paths st' = paths st
  /\ (snd (doAttempt wt c a st) = false <-> exists cat, a = Connects cat)
  /\ (forall cat, a = Connects cat ->
        app st' = app st ++ fst (setupDynamicRoutes wt cat c))
  /\ (a = ConnectFails -> st' = st)
  /\ (forall cat k, a = DiscoveryFails cat k ->
        schemas st' = schemas st
        /\ exists added rest,
             app st' = app st ++ added
             /\ fst (setupDynamicRoutes wt cat c) = added ++ rest
             /\ (tablesLike cat (sqlLike c) <> [] -> rest <> [])).
Proof.
  destruct a as [|cat k|cat]; cbv zeta.
  - repeat split; try reflexivity; try discriminate.
    intros [cat [=]].
  - split; [reflexivity|]. split; [reflexivity|].
    split; [split; [discriminate|intros [cat' [=]]]|].
    split; [discriminate|]. split; [discriminate|].
    intros cat' k' [= <- <-]. split; [reflexivity|].
    unfold doAttempt, interruptedRoutes, setupDynamicRoutes. cbn [fst app].
    set (objects := tablesLike cat (sqlLike c)).
    set (n := Nat.min k (Nat.pred (length objects))).
    rewrite !DocumentExtras.discover_fold. cbn [fst app].
    exists (flat_map (fun o => registerRoutes (discoverMeta wt cat o) (endpointOf c))
                     (firstn n objects)),
           (flat_map (fun o => registerRoutes (discoverMeta wt cat o) (endpointOf c))
                     (skipn n objects)).
    split; [reflexivity|]. split.
    + rewrite <- flat_map_app. now rewrite firstn_skipn.
    + intros Hne.
      assert (Hlt : (n < length objects)%nat).
      { unfold n. destruct objects; [contradiction|]. simpl. lia. }
      destruct (skipn n objects) as [|o rest] eqn:Hs.
      * apply (f_equal (@length _)) in Hs. rewrite length_skipn in Hs.
        simpl in Hs. lia.
      * cbn [flat_map]. intros E. apply app_eq_nil in E as [E _].
        now apply registerRoutes_nonempty in E.
  - split; [|split; [|split; [|split; [|split]]]].
    + intros n Hn. unfold doAttempt.
      specialize (Hn cat eq_refl).
      destruct (setupDynamicRoutes wt cat c) as [routes found].
      cbn [fst snd schemas] in *. now apply get_spread_other.
    + unfold doAttempt. now destruct (setupDynamicRoutes wt cat c).
    + unfold doAttempt. destruct (setupDynamicRoutes wt cat c). split; eauto.
    + intros cat' [= <-]. unfold doAttempt.
      now destruct (setupDynamicRoutes wt cat c).
    + discriminate.
    + discriminate.
Qed.

Lemma merge_keeps_other_schemas_witness :
  JsObject.get "nav_Customers"
    (schemas (fst (doAttempt true Fixtures.hr (Connects Fixtures.hrCatalog) initial)))
  = JsObject.get "nav_Customers" (schemas initial).
Proof.
  refine (proj1 (merge_keeps_other_schemas true Fixtures.hr
                   (Connects Fixtures.hrCatalog) initial) "nav_Customers" _).
  intros cat [= <-]. vm_compute. intros [H|[]]. discriminate H.
Defined.

(** Discovery of [shadowCatalog] failing at its second object: the
    routes of the first stay, no schema is merged, a retry is armed. *)
Example discovery_fails_midway :
  let '(st, retry) :=
    doAttempt true Fixtures.hr (DiscoveryFails Fixtures.shadowCatalog 1) initial in
  (map (fun r => (method r, path r)) (app st), JsObject.keys (schemas st), retry)
  = ([ (GET, "/hr/Employees"); (GET, "/hr/Employees/:Id");
       (POST, "/hr/Employees"); (PUT, "/hr/Employees/:Id");
       (DELETE, "/hr/Employees/:Id") ], [], true).
Proof. reflexivity. Qed.

(** X23: the metadata discovery stores for an object: a view has no key,
    whatever the catalog says about key constraints; the identity column is
    absent or has a non-empty name; the trigger flag is set exactly when the
    revision counts triggers and the count is positive; the older revision
    stores neither trigger flag nor identity column. *)
Theorem discovered_metadata_shape (wt : bool) (cat : Catalog) (t : TableRow) :
  (isView (discoverMeta wt cat t) = true <-> TABLE_TYPE t = "VIEW")
  /\ (isView (discoverMeta wt cat t) = true -> pk (discoverMeta wt cat t) = [])
  /\ identity (discoverMeta wt cat t) <> Some ""
  /\ Js.truthyOpt (identity (discoverMeta wt cat t))
     = bool_decide (is_Some (identity (discoverMeta wt cat t)))
  /\ (hasTriggers (discoverMeta wt cat t) = true
      <-> wt = true
          /\ exists n, enabledTriggerCount cat (TABLE_SCHEMA t) (TABLE_NAME t) = Some n
                       /\ 0 < n)
  /\ (wt = false -> hasTriggers (discoverMeta wt cat t) = false
                    /\ identity (discoverMeta wt cat t) = None).
Proof.
  unfold discoverMeta. cbn [isView pk identity hasTriggers].
  assert (Hid : forall o, (if Js.truthyOpt o then o else None) <> Some "").
  { intros [s|]; simpl; [|discriminate]. unfold Js.truthy.
    destruct (String.eqb_spec s ""); simpl; [discriminate|congruence]. }
  assert (Hidt : forall o, Js.truthyOpt (if Js.truthyOpt o then o else None)
                           = bool_decide (is_Some (if Js.truthyOpt o then o else None))).
  { intros [s|]; simpl; [|reflexivity].
    destruct (Js.truthy s) eqn:E; simpl; [now rewrite E|reflexivity]. }
  split; [apply String.eqb_eq|]. split; [now intros ->|].
  unfold getIdentityColumn, hasEnabledTriggers.
  split; [destruct wt; [apply Hid|discriminate]|].
  split; [destruct wt; [apply Hidt|reflexivity]|]. split.
  - destruct wt; simpl; [|split; [discriminate|now intros [? _]]].
    destruct (enabledTriggerCount cat _ _) as [n|]; simpl.
    + rewrite Z.ltb_lt. split; [eauto|]. now intros (_ & n' & [= <-] & H).
    + split; [discriminate|]. now intros (_ & n' & H & _).
  - intros ->. split; reflexivity.
Qed.

End RegistryExtras.
(** ** The filter pattern, where the anchors stand as anchors *)

Module FilterExtras.

Import Generator.

(** X22: for a pattern [g] without a dollar sign, the filters [^g] and
    [^g$] both become the [LIKE] pattern [g%]; without a filter, or with
    the empty one, the pattern is [%%]. *)
Theorem anchored_filter_is_prefix_match (c : EndpointConfig) (g : string) :
  Js.includes g "$" = false ->
  (filter c = Some ("^" +:+ g) -> sqlLike c = g +:+ "%")
  /\ (filter c = Some ("^" +:+ g +:+ "$") -> sqlLike c = g +:+ "%")
  /\ (filter c = None \/ filter c = Some "" -> sqlLike c = "%%").
Proof.
  intros Hg. split; [|split].
  - intros Hf. unfold sqlLike. rewrite Hf.
    change (default "" (Some ("^" +:+ g))) with ("^" +:+ g).
    change (Js.truthyOpt (Some ("^" +:+ g))) with true. cbv iota.
    change (Js.stripLeadingCaret ("^" +:+ g)) with g.
    now rewrite FilterFacts.removeFirstDollar_none.
  - intros Hf. unfold sqlLike. rewrite Hf.
    change (default "" (Some ("^" +:+ g +:+ "$"))) with ("^" +:+ g +:+ "$").
    change (Js.truthyOpt (Some ("^" +:+ g +:+ "$"))) with true. cbv iota.
    change (Js.stripLeadingCaret ("^" +:+ g +:+ "$")) with (g +:+ "$" +:+ "").
    rewrite (FilterFacts.removeFirstDollar_app g "" Hg).
    now rewrite JsFacts.append_empty_r.
  - intros [Hf|Hf]; unfold sqlLike; rewrite Hf; reflexivity.
Qed.

Lemma anchored_filter_is_prefix_match_witness :
  sqlLike {| endpoint := Some "mis"; filter := Some "^MI$" |} = "MI%".
Proof.
  exact (proj1 (proj2 (anchored_filter_is_prefix_match
                         {| endpoint := Some "mis"; filter := Some "^MI$" |} "MI"
                         eq_refl)) eq_refl).
Defined.

End FilterExtras.
